(** * Inventory insight dashboard: loader and insight helpers

    A shallow embedding of [src/data_loader.py], [src/insights.py] and
    the dispatch of [dashboards/app.py].

    The modules are thin pipelines over a pandas [DataFrame].  The
    embedding keeps the shape of the source:

    - the loader works on whole columns, each at its dtype ([int64],
      [float64], [bool] or [object]): arithmetic between integers wraps
      around in 64 bits, arithmetic with a float is IEEE 754 binary64
      ([spec_float] at precision 53, maximal exponent 1024), the missing
      marker of a numeric column is NaN, a text is the UTF-8 encoding of
      a Python [str], and the [.str] accessor refuses a column of
      booleans;
    - the helpers read the loaded table row by row (its [records]): a
      row is a dictionary from column names to cells, a frame is a
      header (the ordered column labels) together with its rows, and a
      numeric cell is a binary64 value, an integer being read as the
      float nearest to it (itself, below 2^53); the row index is not
      modelled, it is dropped by every helper before it returns;
    - frames live in a heap and the helpers receive a reference, so that
      the in-place column assignment [working_df["SellThroughRate"] = ...]
      is a heap write;
    - exceptions are values of [exn] and the helpers run in a small
      state-and-error monad. *)

From Stdlib Require Import ZArith List String Ascii Bool Lia.
From Stdlib Require Import Sorted Permutation.
From Stdlib Require Import SpecFloat.
From stdpp Require Import gmap strings sorting.

Import ListNotations.
Local Open Scope string_scope.

(** ** Binary64 arithmetic *)

Module F.

Definition prec : Z := 53.
Definition emax : Z := 1024.

Definition float : Type := spec_float.

Definition nan : float := S754_nan.
Definition zero : float := S754_zero false.

Definition add : float -> float -> float := SFadd prec emax.
Definition sub : float -> float -> float := SFsub prec emax.
Definition mul : float -> float -> float := SFmul prec emax.
Definition div : float -> float -> float := SFdiv prec emax.

(** The float nearest to an integer (Python's [float(n)]). *)
Definition of_Z (n : Z) : float := binary_normalize prec emax n 0 false.

Definition compare : float -> float -> option comparison := SFcompare.

(** Python's [<], [<=], [>], [>=]: false as soon as an operand is NaN. *)
Definition ltb (x y : float) : bool := SFltb x y.
Definition leb (x y : float) : bool := SFleb x y.
Definition gtb (x y : float) : bool := SFltb y x.
Definition geb (x y : float) : bool := SFleb y x.
Definition eqb (x y : float) : bool := SFeqb x y.

Definition is_nan (x : float) : bool :=
  match x with S754_nan => true | _ => false end.

Definition is_zero (x : float) : bool :=
  match x with S754_zero _ => true | _ => false end.

Definition is_inf (x : float) : bool :=
  match x with S754_infinity _ => true | _ => false end.

Definition pinf : float := S754_infinity false.
Definition ninf : float := S754_infinity true.

End F.

(** ** Cells, rows and frames *)

(** A cell of an [object] column is a string or the missing marker; a
    cell of a numeric column is a float, NaN being the missing marker. *)
Inductive cell : Type :=
| CStr (s : string)
| CNum (x : F.float).

Definition NA : cell := CNum F.nan.

(** [pd.isna] on a cell. *)
Definition isna (c : cell) : bool :=
  match c with
  | CNum x => F.is_nan x
  | CStr _ => false
  end.

Abbreviation row := (gmap string cell).

Record DataFrame : Type := mkFrame {
  columns : list string;
  rows : list row
}.

(** The cell of row [r] under label [c]. *)
Definition at_ (r : row) (c : string) : cell := default NA (r !! c).

(** The numeric value of a cell that is known to be numeric. *)
Definition num (c : cell) : F.float :=
  match c with
  | CNum x => x
  | CStr _ => F.nan
  end.

Definition is_num (c : cell) : bool :=
  match c with
  | CNum _ => true
  | CStr _ => false
  end.

(** ** Exceptions and the error monad *)

Inductive exn : Type :=
| FileNotFoundError (path : string)
| ReadError                   (* whatever [pd.read_csv] itself raises *)
| KeyError (label : string)
| TypeError
| ValueError
| AttributeError
| IndexError
| ReferenceError.

Inductive result (A : Type) : Type :=
| Ok (a : A)
| Raise (e : exn).
Arguments Ok {A} a.
Arguments Raise {A} e.

Definition rbind {A B} (m : result A) (k : A -> result B) : result B :=
  match m with
  | Ok a => k a
  | Raise e => Raise e
  end.

Notation "'let!' x ':=' m 'in' k" := (rbind m (fun x => k))
  (at level 10, x name, m at level 100, k at level 200).

Fixpoint mapM {A B} (f : A -> result B) (l : list A) : result (list B) :=
  match l with
  | [] => Ok []
  | x :: l' => let! y := f x in let! ys := mapM f l' in Ok (y :: ys)
  end.

(** ** The pandas operations used by the source *)

Definition has_column (d : DataFrame) (c : string) : bool :=
  bool_decide (c ∈ columns d).

(** [df[c]]: the column as a sequence of cells, [KeyError] when absent. *)
Definition getitem (d : DataFrame) (c : string) : result (list cell) :=
  if has_column d c then Ok (map (fun r => at_ r c) (rows d))
  else Raise (KeyError c).

(** Arithmetic and ordering on a column need numbers: a string operand
    raises [TypeError]. *)
Definition as_float (c : cell) : result F.float :=
  match c with
  | CNum x => Ok x
  | CStr _ => Raise TypeError
  end.

Definition floats (s : list cell) : result (list F.float) := mapM as_float s.

(** [s <op> t] for a column [s] and a scalar [t]. *)
Definition series_cmp (op : F.float -> F.float -> bool)
    (s : list cell) (t : F.float) : result (list bool) :=
  let! xs := floats s in Ok (map (fun x => op x t) xs).

(** [s1 <op> s2] for two columns of one frame (aligned row by row). *)
Definition series_arith (op : F.float -> F.float -> F.float)
    (s1 s2 : list cell) : result (list cell) :=
  let! xs := floats s1 in let! ys := floats s2 in
  Ok (zip_with (fun x y => CNum (op x y)) xs ys).

(** [m1 & m2]. *)
Definition mask_and (m1 m2 : list bool) : list bool := zip_with andb m1 m2.

(** The rows kept by a boolean mask. *)
Fixpoint select {A} (l : list A) (mask : list bool) : list A :=
  match l, mask with
  | x :: l', b :: mask' => if b then x :: select l' mask' else select l' mask'
  | _, _ => []
  end.

(** [df[mask]]: always a new frame. *)
Definition bool_index (d : DataFrame) (mask : list bool) : DataFrame :=
  mkFrame (columns d) (select (rows d) mask).

(** A row restricted to the labels [cols]. *)
Definition project (cols : list string) (r : row) : row :=
  foldr (fun c acc => <[c := at_ r c]> acc) ∅ cols.

(** [df[[c1, ..., cn]]]: [KeyError] on the first absent label. *)
Definition select_columns (d : DataFrame) (cols : list string) : result DataFrame :=
  match List.find (fun c => negb (has_column d c)) cols with
  | Some c => Raise (KeyError c)
  | None => Ok (mkFrame cols (map (project cols) (rows d)))
  end.

(** [df.loc[mask, [c1, ..., cn]]]. *)
Definition loc (d : DataFrame) (mask : list bool) (cols : list string) : result DataFrame :=
  select_columns (bool_index d mask) cols.

(** [df[c] = vals] on the frame value: an existing column is replaced in
    place, a new one is appended to the header. *)
Definition setitem (d : DataFrame) (c : string) (vals : list cell) : DataFrame :=
  mkFrame (if has_column d c then columns d else columns d ++ [c])
          (zip_with (fun r v => <[c := v]> r) (rows d) vals).

(** [df.reset_index(drop=True)]: the row index is not part of the model. *)
Definition reset_index (d : DataFrame) : DataFrame := d.

(** [df.empty] and [df.iloc[i]]. *)
Definition empty (d : DataFrame) : bool :=
  match rows d with [] => true | _ => false end.

Definition iloc (d : DataFrame) (i : nat) : result row :=
  match rows d !! i with
  | Some r => Ok r
  | None => Raise IndexError
  end.

Definition row_getitem (r : row) (c : string) : result cell :=
  match r !! c with
  | Some v => Ok v
  | None => Raise (KeyError c)
  end.

(** A float format specification such as [:.1f] rejects a string. *)
Definition format_float (c : cell) : result unit :=
  match c with
  | CNum _ => Ok tt
  | CStr _ => Raise ValueError
  end.

(** ** Ordering of cells and [sort_values] *)

(** The order of two present values: floats by IEEE comparison (the two
    zeros are equal), strings by code point, a number before a string. *)
Definition cell_compare (a b : cell) : comparison :=
  match a, b with
  | CNum x, CNum y => match F.compare x y with Some c => c | None => Eq end
  | CNum _, CStr _ => Lt
  | CStr _, CNum _ => Gt
  | CStr s, CStr t => String.compare s t
  end.

(** One sort key with its direction; [na_position="last"] puts a missing
    key after every present one in both directions. *)
Definition key_compare (ascending : bool) (a b : cell) : comparison :=
  match isna a, isna b with
  | true, true => Eq
  | true, false => Gt
  | false, true => Lt
  | false, false =>
      if ascending then cell_compare a b else CompOpp (cell_compare a b)
  end.

Definition not_gt (c : comparison) : bool :=
  match c with Gt => false | _ => true end.

(** Stable insertion sort: an element is placed before the first element
    that is not smaller, so equal elements keep their order. *)
Fixpoint insert_by {A} (le : A -> A -> bool) (x : A) (l : list A) : list A :=
  match l with
  | [] => [x]
  | y :: l' => if le x y then x :: l else y :: insert_by le x l'
  end.

Fixpoint isort {A} (le : A -> A -> bool) (l : list A) : list A :=
  match l with
  | [] => []
  | x :: l' => insert_by le x (isort le l')
  end.

(** [lexsort_indexer]: several keys, compared lexicographically; the
    resulting order is stable. *)
Fixpoint lex_compare (keys : list (string * bool)) (r1 r2 : row) : comparison :=
  match keys with
  | [] => Eq
  | (c, ascending) :: keys' =>
      match key_compare ascending (at_ r1 c) (at_ r2 c) with
      | Eq => lex_compare keys' r1 r2
      | o => o
      end
  end.

Definition lexsort (keys : list (string * bool)) (l : list row) : list row :=
  isort (fun r1 r2 => not_gt (lex_compare keys r1 r2)) l.

(** [nargsort]: one key.  The missing keys are set aside and appended in
    their original order; a descending sort reverses the present keys,
    sorts them ascending and reverses the outcome.  The order which
    numpy's default sort kind gives to equal keys is left open by the
    library; [isort] fixes one such order. *)
Definition nargsort (c : string) (ascending : bool) (l : list row) : list row :=
  let non_nans := List.filter (fun r => negb (isna (at_ r c))) l in
  let nans := List.filter (fun r => isna (at_ r c)) l in
  let non_nans := if ascending then non_nans else rev non_nans in
  let sorted :=
    isort (fun r1 r2 => not_gt (cell_compare (at_ r1 c) (at_ r2 c))) non_nans in
  let sorted := if ascending then sorted else rev sorted in
  sorted ++ nans.

(** [df.sort_values(by=..., ascending=...)]: [by] paired with the
    direction of each key. *)
Definition sort_values (d : DataFrame) (keys : list (string * bool)) : result DataFrame :=
  match List.find (fun k => negb (has_column d (fst k))) keys with
  | Some k => Raise (KeyError (fst k))
  | None =>
      Ok (mkFrame (columns d)
            match keys with
            | [] => rows d
            | [(c, ascending)] => nargsort c ascending (rows d)
            | _ => lexsort keys (rows d)
            end)
  end.

(** ** [groupby(...).agg(...)] *)

(** Two group keys are the same group when they compare equal; with
    [dropna=False] the missing keys form one group. *)
Definition same_key (a b : cell) : bool :=
  match key_compare true a b with Eq => true | _ => false end.

(** The distinct values of a column, each at its first occurrence. *)
Fixpoint uniques (l : list cell) : list cell :=
  match l with
  | [] => []
  | x :: l' => x :: List.filter (fun y => negb (same_key x y)) (uniques l')
  end.

(** The group keys of [groupby(c, dropna=False)], sorted ([sort=True]). *)
Definition group_keys (d : DataFrame) (c : string) : list cell :=
  isort (fun a b => not_gt (key_compare true a b))
        (uniques (map (fun r => at_ r c) (rows d))).

Definition group_rows (d : DataFrame) (c : string) (k : cell) : list row :=
  List.filter (fun r => same_key k (at_ r c)) (rows d).

Definition dropna (xs : list F.float) : list F.float :=
  List.filter (fun x => negb (F.is_nan x)) xs.

Section Aggregations.

(** The library's summation of a sequence of present floats, in row
    order.  Which rounding it commits on the way is the library's
    matter; the helpers only rely on what is summed. *)
Variable fsum : list F.float -> F.float.

(** ["sum"]: the missing values are skipped. *)
Definition agg_sum (xs : list F.float) : F.float := fsum (dropna xs).

(** ["mean"]: over the present values; missing when there is none. *)
Definition agg_mean (xs : list F.float) : F.float :=
  match dropna xs with
  | [] => F.nan
  | ys => F.div (fsum ys) (F.of_Z (Z.of_nat (length ys)))
  end.

End Aggregations.

(** ["nunique"]: the number of distinct present values. *)
Definition agg_nunique (cs : list cell) : nat :=
  length (uniques (List.filter (fun c => negb (isna c)) cs)).

Inductive aggfunc : Type := Sum | Mean | Nunique.

Section GroupBy.

Variable fsum : list F.float -> F.float.

(** One aggregation over the cells of a group; the count of ["nunique"]
    is kept as a number cell. *)
Definition aggregate (f : aggfunc) (cs : list cell) : result cell :=
  match f with
  | Sum => let! xs := floats cs in Ok (CNum (agg_sum fsum xs))
  | Mean => let! xs := floats cs in Ok (CNum (agg_mean fsum xs))
  | Nunique => Ok (CNum (F.of_Z (Z.of_nat (agg_nunique cs))))
  end.

(** One output row: the group key and one cell per named aggregation
    [out = (src, f)]. *)
Definition agg_row (d : DataFrame) (by_ : string)
    (spec : list (string * (string * aggfunc))) (k : cell) : result row :=
  let g := group_rows d by_ k in
  let! cells :=
    mapM (fun a => let! v := aggregate (snd (snd a)) (map (fun r => at_ r (fst (snd a))) g) in
                   Ok (fst a, v)) spec in
  Ok (<[by_ := k]> (foldr (fun kv acc => <[fst kv := snd kv]> acc) ∅ cells)).

(** [df.groupby(by_, dropna=False).agg(out1=(src1, f1), ...)], the
    group key already placed as the leading column, where the closing
    [reset_index()] of the source puts it. *)
Definition groupby_agg (d : DataFrame) (by_ : string)
    (spec : list (string * (string * aggfunc))) : result DataFrame :=
  if negb (has_column d by_) then Raise (KeyError by_) else
  match List.find (fun a => negb (has_column d (fst (snd a)))) spec with
  | Some a => Raise (KeyError (fst (snd a)))
  | None =>
      let! rs := mapM (agg_row d by_ spec) (group_keys d by_) in
      Ok (mkFrame (by_ :: map fst spec) rs)
  end.

End GroupBy.

(** ** The heap of frames *)

Abbreviation heap := (gmap nat DataFrame).

Definition M (A : Type) : Type := heap -> result A * heap.

Definition ret {A} (a : A) : M A := fun σ => (Ok a, σ).

Definition bind {A B} (m : M A) (k : A -> M B) : M B :=
  fun σ =>
    match m σ with
    | (Ok a, σ') => k a σ'
    | (Raise e, σ') => (Raise e, σ')
    end.

Notation "'let*' x ':=' m 'in' k" := (bind m (fun x => k))
  (at level 10, x name, m at level 100, k at level 200).

Definition lift {A} (r : result A) : M A := fun σ => (r, σ).

Definition deref (l : nat) : M DataFrame :=
  fun σ =>
    match σ !! l with
    | Some d => (Ok d, σ)
    | None => (Raise ReferenceError, σ)
    end.

Definition alloc (d : DataFrame) : M nat :=
  fun σ => let l := fresh (dom σ) in (Ok l, <[l := d]> σ).

Definition assign (l : nat) (d : DataFrame) : M unit :=
  fun σ => (Ok tt, <[l := d]> σ).

(** [df[c]] through the reference [df]. *)
Definition getitem_ref (df : nat) (c : string) : M (list cell) :=
  let* d := deref df in lift (getitem d c).

(** [df[c] = vals] through the reference [df]: the object is updated in
    place, every alias sees the new column. *)
Definition setitem_ref (df : nat) (c : string) (vals : list cell) : M unit :=
  let* d := deref df in assign df (setitem d c vals).

(** [d.copy()]: a new object. *)
Definition copy (d : DataFrame) : M nat := alloc d.

(** ** [data_loader.py] *)

Definition NUMERIC_COLUMNS : list string :=
  [ "Available_Quantity";
    "Average_Selling_Price";
    "Average_Buying_Price";
    "Total_Incoming";
    "Total_Outgoing";
    "Defective_Stock";
    "Total_Sold";
    "Monthly_Sale_Quantity";
    "Holding_Cost";
    "Average_Stock_Level";
    "Profit_Per_Unit";
    "Profit_After_HC" ].

(** *** The table as [pd.read_csv] returns it *)

(** The loader works on whole columns, and what it does to a column
    depends on the dtype of the column.  A column of texts has dtype
    [object] (as in pandas before 3.0).  A value of an [object] column
    is a text, the missing marker, or a boolean (a column of booleans
    with a blank in it is read as objects); the numbers that a large
    file read in chunks can leave among the texts of such a column are
    not modelled. *)
Inductive obj : Type :=
| OStr (s : string)
| ONaN
| OBool (b : bool).

Inductive column : Type :=
| IntCol (ns : list Z)            (* int64 *)
| FloatCol (xs : list F.float)    (* float64 *)
| BoolCol (bs : list bool)        (* bool *)
| ObjCol (os : list obj).         (* object *)

(** The columns under their labels, in header order; the labels of a
    table read from a file are distinct. *)
Record Frame : Type := mkColumns { series : list (string * column) }.

Definition labels (df : Frame) : list string := map fst (series df).

Fixpoint assoc (c : string) (l : list (string * column)) : option column :=
  match l with
  | [] => None
  | kv :: l' => if String.eqb (fst kv) c then Some (snd kv) else assoc c l'
  end.

(** [c in df.columns] and [df[c]]. *)
Definition has_label (df : Frame) (c : string) : bool :=
  match assoc c (series df) with Some _ => true | None => false end.

Definition column_of (df : Frame) (c : string) : result column :=
  match assoc c (series df) with
  | Some col => Ok col
  | None => Raise (KeyError c)
  end.

Fixpoint replace (c : string) (col : column) (l : list (string * column))
    : list (string * column) :=
  match l with
  | [] => [(c, col)]
  | kv :: l' => if String.eqb (fst kv) c then (c, col) :: l' else kv :: replace c col l'
  end.

(** [df[c] = col]: the column is replaced where it stands, a new one is
    appended to the header. *)
Definition assign_column (df : Frame) (c : string) (col : column) : Frame :=
  mkColumns (replace c col (series df)).

(** What the loader asks of its surroundings: whether a path exists, and
    the parsed content of a file. *)
Record Env : Type := mkEnv {
  path_exists : string -> bool;
  read_csv : string -> result Frame
}.

(** *** [str.strip] *)

(** The ASCII white space characters. *)
Definition py_isspace (a : ascii) : bool :=
  let n := nat_of_ascii a in
  ((9 <=? n)%nat && (n <=? 13)%nat) || ((28 <=? n)%nat && (n <=? 32)%nat).

(** A text is the UTF-8 encoding of a Python [str].  The white space
    characters beyond ASCII are U+0085 and U+00A0 (two bytes) and
    U+1680, U+2000 to U+200A, U+2028, U+2029, U+202F, U+205F and U+3000
    (three bytes). *)
Definition space2 (a b : ascii) : bool :=
  (nat_of_ascii a =? 194)%nat &&
  ((nat_of_ascii b =? 133)%nat || (nat_of_ascii b =? 160)%nat).

Definition space3 (a b c : ascii) : bool :=
  let x := nat_of_ascii a in
  let y := nat_of_ascii b in
  let z := nat_of_ascii c in
  ((x =? 225)%nat && (y =? 154)%nat && (z =? 128)%nat) ||
  ((x =? 226)%nat && (y =? 128)%nat &&
   (((128 <=? z)%nat && (z <=? 138)%nat) || (z =? 168)%nat || (z =? 169)%nat ||
    (z =? 175)%nat)) ||
  ((x =? 226)%nat && (y =? 129)%nat && (z =? 159)%nat) ||
  ((x =? 227)%nat && (y =? 128)%nat && (z =? 128)%nat).

(** The text after its first character, when that is white space. *)
Definition skip_space (s : string) : option string :=
  match s with
  | String a s1 =>
      if py_isspace a then Some s1 else
      match s1 with
      | String b s2 =>
          if space2 a b then Some s2 else
          match s2 with
          | String c s3 => if space3 a b c then Some s3 else None
          | EmptyString => None
          end
      | EmptyString => None
      end
  | EmptyString => None
  end.

(** The same from the other end, on the reversed text: the last byte of
    the character comes first. *)
Definition skip_space_rev (s : string) : option string :=
  match s with
  | String c s1 =>
      if py_isspace c then Some s1 else
      match s1 with
      | String b s2 =>
          if space2 b c then Some s2 else
          match s2 with
          | String a s3 => if space3 a b c then Some s3 else None
          | EmptyString => None
          end
      | EmptyString => None
      end
  | EmptyString => None
  end.

Fixpoint skip_spaces (skip : string -> option string) (n : nat) (s : string) : string :=
  match n with
  | O => s
  | S n' =>
      match skip s with
      | Some s' => skip_spaces skip n' s'
      | None => s
      end
  end.

Definition lstrip (s : string) : string :=
  skip_spaces skip_space (String.length s) s.

Definition rstrip (s : string) : string :=
  String.rev (skip_spaces skip_space_rev (String.length s) (String.rev s)).

Definition strip (s : string) : string := rstrip (lstrip s).

(** *** Lines 34 to 37: the [object] columns are stripped *)

Definition is_object (col : column) : bool :=
  match col with ObjCol _ => true | _ => false end.

Definition is_bool (o : obj) : bool :=
  match o with OBool _ => true | _ => false end.

Definition is_missing (o : obj) : bool :=
  match o with ONaN => true | _ => false end.

(** The [.str] accessor asks [lib.infer_dtype(values, skipna=True)]
    what the column holds, and takes the answers "string" (texts),
    "mixed" (texts among other values) and "empty" (nothing but missing
    markers).  The answer "boolean" (booleans and nothing else) it
    refuses with [AttributeError], as it refuses a column of another
    dtype. *)
Definition str_accessor_ok (os : list obj) : bool :=
  match List.filter (fun o => negb (is_missing o)) os with
  | [] => true
  | present => negb (forallb is_bool present)
  end.

(** [str.strip] on one value: what is not a text becomes the missing
    marker. *)
Definition strip_obj (o : obj) : obj :=
  match o with
  | OStr s => OStr (strip s)
  | _ => ONaN
  end.

(** [col.str.strip()]. *)
Definition str_strip (col : column) : result column :=
  match col with
  | ObjCol os =>
      if str_accessor_ok os then Ok (ObjCol (map strip_obj os))
      else Raise AttributeError
  | _ => Raise AttributeError
  end.

(** [df[string_columns] = df[string_columns].apply(lambda col:
    col.str.strip())]: the [object] columns are stripped one after the
    other in header order, and each takes the place it had. *)
Definition strip_strings (df : Frame) : result Frame :=
  let string_columns := List.filter (fun kv => is_object (snd kv)) (series df) in
  if (0 <? length string_columns)%nat then
    let! stripped :=
      mapM (fun kv => if is_object (snd kv)
                      then let! col := str_strip (snd kv) in Ok (fst kv, col)
                      else Ok kv)
           (series df) in
    Ok (mkColumns stripped)
  else Ok df.

(** *** Lines 40 to 42: the listed columns are made numeric *)

(** What [pd.to_numeric] reads in one text: an integer, a float, or
    nothing.  (An integer beyond [int64] is read as a float; the
    unsigned column pandas makes of integers between 2^63 and 2^64 is
    not modelled.) *)
Inductive number : Type :=
| NInt (n : Z)
| NFloat (x : F.float).

Definition float_of (v : number) : F.float :=
  match v with
  | NInt n => F.of_Z n
  | NFloat x => x
  end.

Section Loader.

Variable to_number : string -> option number.

(** One value of an [object] column under [errors="coerce"]; by line 37
    no boolean is left in such a column. *)
Definition parse (o : obj) : option number :=
  match o with
  | OStr s => to_number s
  | ONaN => None
  | OBool b => Some (NInt (Z.b2z b))
  end.

Definition parsed_int (v : option number) : option Z :=
  match v with
  | Some (NInt n) => Some n
  | _ => None
  end.

Definition parsed_float (v : option number) : F.float :=
  match v with
  | Some v => float_of v
  | None => F.nan
  end.

Fixpoint all_ints (vs : list (option number)) : option (list Z) :=
  match vs with
  | [] => Some []
  | v :: vs' =>
      match parsed_int v, all_ints vs' with
      | Some n, Some ns => Some (n :: ns)
      | _, _ => None
      end
  end.

(** [pd.to_numeric(col, errors="coerce")]: a numeric column is
    returned as it is; the texts of an [object] column are read, into
    an [int64] column when every one of them is an integer, into a
    [float64] column otherwise, where an unreadable text and a missing
    marker are NaN. *)
Definition to_numeric (col : column) : column :=
  match col with
  | ObjCol os =>
      let vs := map parse os in
      match all_ints vs with
      | Some ns => IntCol ns
      | None => FloatCol (map parsed_float vs)
      end
  | _ => col
  end.

Definition coerce_column (df : Frame) (column : string) : Frame :=
  match assoc column (series df) with
  | Some col => assign_column df column (to_numeric col)
  | None => df
  end.

End Loader.

(** *** Lines 44 to 47: the derived columns *)

(** [int64] arithmetic wraps around. *)
Definition int64 (n : Z) : Z := ((n + 2 ^ 63) mod 2 ^ 64 - 2 ^ 63)%Z.

(** A column as integers (a boolean is 0 or 1) and as floats. *)
Definition as_ints (col : column) : option (list Z) :=
  match col with
  | IntCol ns => Some ns
  | BoolCol bs => Some (map Z.b2z bs)
  | _ => None
  end.

Definition as_floats (col : column) : option (list F.float) :=
  match col with
  | IntCol ns => Some (map F.of_Z ns)
  | FloatCol xs => Some xs
  | BoolCol bs => Some (map (fun b => F.of_Z (Z.b2z b)) bs)
  | ObjCol _ => None
  end.

(** [a - b] on numeric columns: between integers in [int64], in
    [float64] as soon as a float takes part; numpy refuses to subtract
    a boolean column from a boolean column.  (No [object] column comes
    here: line 42 has made the operands numeric.) *)
Definition col_sub (a b : column) : result column :=
  match a, b with
  | BoolCol _, BoolCol _ => Raise TypeError
  | _, _ =>
      match as_ints a, as_ints b with
      | Some x, Some y => Ok (IntCol (zip_with (fun p q => int64 (p - q)) x y))
      | _, _ =>
          match as_floats a, as_floats b with
          | Some x, Some y => Ok (FloatCol (zip_with F.sub x y))
          | _, _ => Raise TypeError
          end
      end
  end.

(** [a * b]: as [a - b], but the product of booleans is their
    conjunction. *)
Definition col_mul (a b : column) : result column :=
  match a, b with
  | BoolCol x, BoolCol y => Ok (BoolCol (zip_with andb x y))
  | _, _ =>
      match as_ints a, as_ints b with
      | Some x, Some y => Ok (IntCol (zip_with (fun p q => int64 (p * q)) x y))
      | _, _ =>
          match as_floats a, as_floats b with
          | Some x, Some y => Ok (FloatCol (zip_with F.mul x y))
          | _, _ => Raise TypeError
          end
      end
  end.

(** [a / b] is true division: always in [float64]. *)
Definition col_div (a b : column) : result (list F.float) :=
  match as_floats a, as_floats b with
  | Some x, Some y => Ok (zip_with F.div x y)
  | _, _ => Raise TypeError
  end.

Definition add_derived_columns (df : Frame) : result Frame :=
  let! selling := column_of df "Average_Selling_Price" in
  let! buying := column_of df "Average_Buying_Price" in
  let! price_diff := col_sub selling buying in
  let! sold := column_of df "Total_Sold" in
  let! profit := col_mul price_diff sold in
  let df := assign_column df "Profit" profit in
  let! quantity := column_of df "Available_Quantity" in
  let! buying := column_of df "Average_Buying_Price" in
  let! stock_value := col_mul quantity buying in
  let df := assign_column df "StockValue" stock_value in
  let! buying := column_of df "Average_Buying_Price" in
  let! ratio := col_div price_diff buying in
  let margin := FloatCol (map (fun x => F.mul x (F.of_Z 100)) ratio) in
  Ok (assign_column df "ProfitMargin" margin).

(** *** The table the helpers read *)

(** The helpers read a table row by row, a number as a float: an
    integer and a boolean as the float next to their value. *)
Definition cell_of (o : obj) : cell :=
  match o with
  | OStr s => CStr s
  | ONaN => NA
  | OBool b => CNum (F.of_Z (Z.b2z b))
  end.

Definition cells (col : column) : list cell :=
  match col with
  | IntCol ns => map (fun n => CNum (F.of_Z n)) ns
  | FloatCol xs => map CNum xs
  | BoolCol bs => map (fun b => CNum (F.of_Z (Z.b2z b))) bs
  | ObjCol os => map cell_of os
  end.

Definition height (df : Frame) : nat :=
  match series df with
  | [] => O
  | kv :: _ => length (cells (snd kv))
  end.

Definition row_at (df : Frame) (i : nat) : row :=
  foldr (fun kv acc => <[fst kv := nth i (cells (snd kv)) NA]> acc) ∅ (series df).

Definition records (df : Frame) : DataFrame :=
  mkFrame (labels df) (map (row_at df) (seq 0 (height df))).

Section Load.

Variable to_number : string -> option number.

(** The body of [load_inventory_data], on the columns. *)
Definition load_columns (env : Env) (csv_path : string) : result Frame :=
if negb (path_exists env csv_path) then Raise (FileNotFoundError csv_path) else
let! df := read_csv env csv_path in
let! df := strip_strings df in
let df := fold_left (coerce_column to_number) NUMERIC_COLUMNS df in
add_derived_columns df.

Definition load_inventory_data (env : Env) (csv_path : string) : result DataFrame :=
  let! df := load_columns env csv_path in
  Ok (records df).

End Load.

(** ** [insights.py] *)

Definition low_stock_columns : list string :=
  ["Product_ID"; "Product_Name"; "Available_Quantity"; "Profit"; "ProfitMargin"].

Definition overstock_columns : list string :=
  ["Product_ID"; "Product_Name"; "Product_Brand"; "Available_Quantity";
   "ProfitMargin"; "StockValue"].

Definition fast_moving_columns : list string :=
  ["Product_ID"; "Product_Name"; "Monthly_Sale_Quantity"; "Average_Stock_Level";
   "SellThroughRate"; "ProfitMargin"].

Definition brand_summary_spec : list (string * (string * aggfunc)) :=
  [ ("TotalProfit", ("Profit", Sum));
    ("TotalStockValue", ("StockValue", Sum));
    ("AvgProfitMargin", ("ProfitMargin", Mean));
    ("SKUCount", ("Product_ID", Nunique)) ].

(** The text written by [print] is not modelled, the evaluation of what
    it interpolates is: [insights.iloc[0]] raises on a frame with no
    row, a float format raises on a string. *)
Definition low_stock_report (insights : DataFrame) : M unit :=
  if negb (empty insights) then
    let* top := lift (iloc insights 0) in
    let* _ := lift (row_getitem top "Product_Name") in
    let* top := lift (iloc insights 0) in
    let* m := lift (row_getitem top "ProfitMargin") in
    let* _ := lift (format_float m) in
    let* top := lift (iloc insights 0) in
    let* _ := lift (row_getitem top "Available_Quantity") in
    ret tt
  else ret tt.

Definition low_stock_profitable (df : nat)
    (quantity_threshold margin_threshold : F.float) : M DataFrame :=
  let* quantity := getitem_ref df "Available_Quantity" in
  let* m1 := lift (series_cmp F.leb quantity quantity_threshold) in
  let* margin := getitem_ref df "ProfitMargin" in
  let* m2 := lift (series_cmp F.geb margin margin_threshold) in
  let mask := mask_and m1 m2 in
  let* d := deref df in
  let* picked := lift (loc d mask low_stock_columns) in
  let* sorted := lift (sort_values picked [("ProfitMargin", false); ("Profit", false)]) in
  let insights := reset_index sorted in
  let* _ := low_stock_report insights in
  ret insights.

(** [stuck_value = insights["StockValue"].sum()], written with [:,.2f]. *)
Definition overstock_report (insights : DataFrame) : M unit :=
  if negb (empty insights) then
    let* value := lift (getitem insights "StockValue") in
    let* _ := lift (floats value) in
    ret tt
  else ret tt.

Definition overstock_low_profit (df : nat)
    (quantity_threshold margin_threshold : F.float) : M DataFrame :=
  let* quantity := getitem_ref df "Available_Quantity" in
  let* m1 := lift (series_cmp F.geb quantity quantity_threshold) in
  let* margin := getitem_ref df "ProfitMargin" in
  let* m2 := lift (series_cmp F.leb margin margin_threshold) in
  let mask := mask_and m1 m2 in
  let* d := deref df in
  let* picked := lift (loc d mask overstock_columns) in
  let* sorted :=
    lift (sort_values picked [("Available_Quantity", false); ("ProfitMargin", true)]) in
  let insights := reset_index sorted in
  let* _ := overstock_report insights in
  ret insights.

(** Lines 81-83: the pre-filtered copy the rest of the helper works on. *)
Definition fast_moving_working (df : nat) (min_monthly_sales : F.float) : M nat :=
  let* level := getitem_ref df "Average_Stock_Level" in
  let* m1 := lift (series_cmp F.gtb level F.zero) in
  let* monthly := getitem_ref df "Monthly_Sale_Quantity" in
  let* m2 := lift (series_cmp F.geb monthly min_monthly_sales) in
  let* d := deref df in
  copy (bool_index d (mask_and m1 m2)).

(** Line 84: the operands of the division, then the division and the
    assignment of its outcome to the working copy. *)
Definition sell_through_operands (working_df : nat) : M (list cell * list cell) :=
  let* sold := getitem_ref working_df "Total_Sold" in
  let* level := getitem_ref working_df "Average_Stock_Level" in
  ret (sold, level).

Definition fast_moving_report (insights : DataFrame) : M unit :=
  if negb (empty insights) then
    let* top := lift (iloc insights 0) in
    let* _ := lift (row_getitem top "Product_Name") in
    let* top := lift (iloc insights 0) in
    let* r := lift (row_getitem top "SellThroughRate") in
    let* _ := lift (format_float r) in
    ret tt
  else ret tt.

Definition fast_moving_products (df : nat)
    (velocity_threshold min_monthly_sales : F.float) : M DataFrame :=
  let* working_df := fast_moving_working df min_monthly_sales in
  let* operands := sell_through_operands working_df in
  let* rate := lift (series_arith F.div (fst operands) (snd operands)) in
  let* _ := setitem_ref working_df "SellThroughRate" rate in
  let* rate := getitem_ref working_df "SellThroughRate" in
  let* m := lift (series_cmp F.geb rate velocity_threshold) in
  let* w := deref working_df in
  let picked := bool_index w m in
  let* sorted := lift (sort_values picked [("SellThroughRate", false)]) in
  let* insights := lift (select_columns (reset_index sorted) fast_moving_columns) in
  let* _ := fast_moving_report insights in
  ret insights.

Section BrandSummary.

Variable fsum : list F.float -> F.float.

(** The five rows the source prints are formatted numbers of columns
    the aggregation has just built, so the printing cannot fail. *)
Definition brand_summary (df : nat) : M DataFrame :=
  let* d := deref df in
  let* grouped := lift (groupby_agg fsum d "Product_Brand" brand_summary_spec) in
  let* sorted := lift (sort_values grouped [("TotalProfit", false)]) in
  let summary := reset_index sorted in
  ret summary.

End BrandSummary.

(** ** The enriched table and the selections of the helpers *)

Definition identity_columns : list string :=
  ["Product_ID"; "Product_Name"; "Product_Brand"].

Definition derived_columns : list string :=
  ["Profit"; "StockValue"; "ProfitMargin"].

Definition numeric_columns : list string := NUMERIC_COLUMNS ++ derived_columns.

(** A frame as the loader returns it for a source with the documented
    columns: every column is there and the numeric ones hold numbers. *)
Definition enriched (d : DataFrame) : bool :=
  forallb (has_column d) (identity_columns ++ numeric_columns) &&
  forallb (fun r => forallb (fun c => is_num (at_ r c)) numeric_columns) (rows d).

(** The number under label [c] of row [r]. *)
Definition val (r : row) (c : string) : F.float := num (at_ r c).

Definition low_stock_selected (quantity_threshold margin_threshold : F.float)
    (r : row) : bool :=
  F.leb (val r "Available_Quantity") quantity_threshold &&
  F.geb (val r "ProfitMargin") margin_threshold.

Definition overstock_selected (quantity_threshold margin_threshold : F.float)
    (r : row) : bool :=
  F.geb (val r "Available_Quantity") quantity_threshold &&
  F.leb (val r "ProfitMargin") margin_threshold.

Definition sell_through_rate (r : row) : F.float :=
  F.div (val r "Total_Sold") (val r "Average_Stock_Level").

Definition fast_moving_prefilter (min_monthly_sales : F.float) (r : row) : bool :=
  F.gtb (val r "Average_Stock_Level") F.zero &&
  F.geb (val r "Monthly_Sale_Quantity") min_monthly_sales.

Definition fast_moving_selected (velocity_threshold min_monthly_sales : F.float)
    (r : row) : bool :=
  fast_moving_prefilter min_monthly_sales r &&
  F.geb (sell_through_rate r) velocity_threshold.

(** A row of the working copy once its rate is assigned, and the output
    row of Fast-Moving that stems from the source row [r]. *)
Definition with_rate (r : row) : row :=
  <["SellThroughRate" := CNum (sell_through_rate r)]> r.


(** What a divisor of line 84 has to be. *)
Definition safe_divisor (c : cell) : Prop :=
  exists x, c = CNum x /\ F.gtb x F.zero = true /\
            F.is_zero x = false /\ F.is_nan x = false.


(** The sort keys of the two filtered views. *)
Definition low_stock_keys : list (string * bool) :=
  [("ProfitMargin", false); ("Profit", false)].

Definition overstock_keys : list (string * bool) :=
  [("Available_Quantity", false); ("ProfitMargin", true)].






(** The rows of Brand-Summary, before they are ordered. *)
Definition summary_columns : list string :=
  ["Product_Brand"; "TotalProfit"; "TotalStockValue"; "AvgProfitMargin"; "SKUCount"].

Definition summary_row (fsum : list F.float -> F.float) (d : DataFrame) (k : cell) : row :=
  let g := group_rows d "Product_Brand" k in
  <["Product_Brand" := k]>
    (<["TotalProfit" := CNum (agg_sum fsum (map (fun r => val r "Profit") g))]>
    (<["TotalStockValue" := CNum (agg_sum fsum (map (fun r => val r "StockValue") g))]>
    (<["AvgProfitMargin" := CNum (agg_mean fsum (map (fun r => val r "ProfitMargin") g))]>
    (<["SKUCount" :=
        CNum (F.of_Z (Z.of_nat (agg_nunique (map (fun r => at_ r "Product_ID") g))))]> ∅)))).

(** ** The loader, value by value *)

(** The columns the derived columns read. *)
Definition required_columns : list string :=
  ["Average_Selling_Price"; "Average_Buying_Price"; "Total_Sold"; "Available_Quantity"].

(** The number in row [i] of a numeric column (a boolean counts as 0
    or 1, as it does in arithmetic), and of the column of a table under
    label [c]. *)
Definition value (col : column) (i : nat) : option number :=
  match col with
  | IntCol ns => option_map NInt (ns !! i)
  | FloatCol xs => option_map NFloat (xs !! i)
  | BoolCol bs => option_map (fun b => NInt (Z.b2z b)) (bs !! i)
  | ObjCol _ => None
  end.

Definition entry (df : Frame) (c : string) (i : nat) : option number :=
  match assoc c (series df) with
  | Some col => value col i
  | None => None
  end.

(** The integer of 64 bits in two's complement that an integer wraps
    around to. *)
Definition wrap (n : Z) : Z :=
  let m := (n mod 18446744073709551616)%Z in
  if (m <? 9223372036854775808)%Z then m else (m - 18446744073709551616)%Z.

(** Difference and product of two numbers as numpy computes them:
    wrapping in 64 bits between two integers, in binary64 otherwise. *)
Definition minus (u v : number) : number :=
  match u, v with
  | NInt a, NInt b => NInt (wrap (a - b))
  | _, _ => NFloat (F.sub (float_of u) (float_of v))
  end.

Definition times (u v : number) : number :=
  match u, v with
  | NInt a, NInt b => NInt (wrap (a * b))
  | _, _ => NFloat (F.mul (float_of u) (float_of v))
  end.

(** An [object] column that holds a boolean and no text, and a table
    with such a column. *)
Definition is_text (o : obj) : bool :=
  match o with OStr _ => true | _ => false end.

Definition boolean_objects (col : column) : bool :=
  match col with
  | ObjCol os => existsb is_bool os && negb (existsb is_text os)
  | _ => false
  end.

Definition has_boolean_objects (df : Frame) : bool :=
  existsb (fun kv => boolean_objects (snd kv)) (series df).

(** A column of booleans, and a table with such a column under label
    [c]. *)
Definition is_bool_column (col : column) : bool :=
  match col with BoolCol _ => true | _ => false end.

Definition is_boolean (df : Frame) (c : string) : bool :=
  match assoc c (series df) with
  | Some col => is_bool_column col
  | None => false
  end.

(** An [object] column with its texts stripped, any other column as it
    is. *)
Definition stripped (col : column) : column :=
  match col with
  | ObjCol os => ObjCol (map strip_obj os)
  | _ => col
  end.

Definition strip_entry (kv : string * column) : string * column :=
  (fst kv, stripped (snd kv)).

(** The table after lines 34 to 42, when line 37 has not raised. *)
Definition cleaned (to_number : string -> option number) (raw : Frame) : Frame :=
  fold_left (coerce_column to_number) NUMERIC_COLUMNS
            (mkColumns (map strip_entry (series raw))).

(** A column of [h] values, and a table in which every column has as
    many values as the first one. *)
Definition tall (h : nat) (kv : string * column) : Prop :=
  length (cells (snd kv)) = h.

Definition rectangular (df : Frame) : bool :=
  forallb (fun kv => (length (cells (snd kv)) =? height df)%nat) (series df).

(** Both price columns are columns of booleans. *)
Definition boolean_prices (df : Frame) : bool :=
  is_boolean df "Average_Selling_Price" && is_boolean df "Average_Buying_Price".

(** ** Heap footprints *)

(** A computation that leaves the heap as it found it. *)
Definition read_only {A} (m : M A) : Prop := forall σ, snd (m σ) = σ.

(** A computation that changes no frame but the one at [l]. *)
Definition writes_only {A} (l : nat) (m : M A) : Prop :=
  forall (σ : heap) l', l' <> l -> snd (m σ) !! l' = σ !! l'.

(** ** A small inventory, for the examples *)

Definition sample_fsum (xs : list F.float) : F.float := fold_left F.add xs F.zero.

Fixpoint digits (s : string) (acc : Z) : option Z :=
  match s with
  | EmptyString => Some acc
  | String a s' =>
      match Ascii.is_nat a with
      | Some n => digits s' (10 * acc + Z.of_nat n)
      | None => None
      end
  end.

(** A parser of unsigned decimal integers, enough for the examples. *)
Definition sample_to_number (s : string) : option number :=
  match s with
  | EmptyString => None
  | _ => option_map NInt (digits s 0)
  end.

Definition texts (l : list string) : column := ObjCol (map OStr l).
Definition floats_of_Z (l : list Z) : column := FloatCol (map F.of_Z l).

(** Five products: one was bought for nothing, one has an unreadable
    sales figure, one has no stock level, and one, without a brand, is
    given away. *)
Definition sample_csv : Frame :=
  mkColumns
    [ ("Product_ID", texts ["P1"; "P2"; "P3"; "P4"; "P5"]);
      ("Product_Name", texts [" Kettle "; "Toaster"; "Sample"; "Mixer"; "Leaflet"]);
      ("Product_Brand", texts ["Acme"; "Bolt"; "Acme"; "Bolt"; ""]);
      ("Available_Quantity", floats_of_Z [10; 500; 20; 40; 300]%Z);
      ("Average_Selling_Price", floats_of_Z [100; 80; 30; 90; 0]%Z);
      ("Average_Buying_Price", floats_of_Z [50; 80; 0; 60; 0]%Z);
      ("Total_Incoming", floats_of_Z [0; 0; 0; 0; 0]%Z);
      ("Total_Outgoing", floats_of_Z [0; 0; 0; 0; 0]%Z);
      ("Defective_Stock", floats_of_Z [0; 0; 0; 0; 0]%Z);
      ("Total_Sold", texts ["5"; "0"; "7"; "n/a"; "9"]);
      ("Monthly_Sale_Quantity", floats_of_Z [50; 10; 60; 45; 70]%Z);
      ("Holding_Cost", floats_of_Z [0; 0; 0; 0; 0]%Z);
      ("Average_Stock_Level", floats_of_Z [2; 0; 3; 4; 3]%Z);
      ("Profit_Per_Unit", floats_of_Z [0; 0; 0; 0; 0]%Z);
      ("Profit_After_HC", floats_of_Z [0; 0; 0; 0; 0]%Z) ].

(** The same file without its selling prices. *)
Definition sample_csv_no_price : Frame :=
  mkColumns
    (List.filter (fun kv => negb (String.eqb (fst kv) "Average_Selling_Price"))
                 (series sample_csv)).

(** A file of integers: a free sample, and a stock whose value is
    beyond [int64]. *)
Definition sample_csv_integers : Frame :=
  mkColumns
    [ ("Product_ID", IntCol [1; 2]%Z);
      ("Available_Quantity", IntCol [2; 4000000000]%Z);
      ("Average_Selling_Price", IntCol [7; 4000000001]%Z);
      ("Average_Buying_Price", IntCol [0; 4000000000]%Z);
      ("Total_Sold", IntCol [3; 5]%Z) ].

(** A file with a column of booleans and a blank. *)
Definition sample_csv_flags : Frame :=
  mkColumns (series sample_csv ++ [("Discontinued",
     ObjCol [OBool true; OBool false; ONaN; OBool false; OBool false])]).

(** A file whose prices are booleans. *)
Definition sample_csv_booleans : Frame :=
  mkColumns
    [ ("Available_Quantity", IntCol [2; 3]%Z);
      ("Average_Selling_Price", BoolCol [true; false]);
      ("Average_Buying_Price", BoolCol [true; true]);
      ("Total_Sold", IntCol [3; 5]%Z) ].

Definition sample_env : Env :=
  mkEnv (fun p => String.eqb p "data/inventory.csv" || String.eqb p "data/no_price.csv" ||
                  String.eqb p "data/integers.csv" || String.eqb p "data/flags.csv" ||
                  String.eqb p "data/booleans.csv")
        (fun p => if String.eqb p "data/inventory.csv" then Ok sample_csv
                  else if String.eqb p "data/no_price.csv" then Ok sample_csv_no_price
                  else if String.eqb p "data/integers.csv" then Ok sample_csv_integers
                  else if String.eqb p "data/flags.csv" then Ok sample_csv_flags
                  else if String.eqb p "data/booleans.csv" then Ok sample_csv_booleans
                  else Raise ReadError).

Definition sample_columns : Frame :=
  match load_columns sample_to_number sample_env "data/inventory.csv" with
  | Ok df => df
  | Raise _ => mkColumns []
  end.

Definition sample_table : DataFrame := records sample_columns.

Definition sample_integers : Frame :=
  match load_columns sample_to_number sample_env "data/integers.csv" with
  | Ok df => df
  | Raise _ => mkColumns []
  end.

Definition sample_heap : heap := {[ 0%nat := sample_table ]}.

(** A table with nothing but the three columns the pre-filter and the
    division of Fast-Moving read. *)
Definition level_row (sold monthly level : Z) : row :=
  list_to_map
    [ ("Total_Sold", CNum (F.of_Z sold));
      ("Monthly_Sale_Quantity", CNum (F.of_Z monthly));
      ("Average_Stock_Level", CNum (F.of_Z level)) ].

Definition sample_levels : DataFrame :=
  mkFrame ["Total_Sold"; "Monthly_Sale_Quantity"; "Average_Stock_Level"]
          [level_row 5 50 2; level_row 0 10 0; level_row 7 60 3].

(** 1.2, the default velocity threshold. *)
Definition float_1_2 : F.float := S754_finite false 5404319552844595 (-52).

(** ** [print_profit_highlights] *)

(** [df.head(n)], that is [df.iloc[:n]]: the first [n] rows, and for a
    negative [n] all rows but the last [-n]. *)
Definition head (d : DataFrame) (n : Z) : DataFrame :=
  mkFrame (columns d)
    (if (0 <=? n)%Z then take (Z.to_nat n) (rows d)
     else take (length (rows d) - Z.to_nat (- n)) (rows d)).

(** [nargsort] on any sequence with a key, as [Series.sort_values] uses
    it on the values of a series. *)
Definition nargsort_by {A} (key : A -> cell) (ascending : bool) (l : list A) : list A :=
  let non_nans := List.filter (fun x => negb (isna (key x))) l in
  let nans := List.filter (fun x => isna (key x)) l in
  let non_nans := if ascending then non_nans else rev non_nans in
  let sorted := isort (fun x y => not_gt (cell_compare (key x) (key y))) non_nans in
  let sorted := if ascending then sorted else rev sorted in
  sorted ++ nans.

(** What the function writes, before it is formatted: the most
    profitable products, the stock value of every brand, and the stock
    value of the whole inventory. *)
Record Highlights : Type := mkHighlights {
  top_profitable : DataFrame;
  brand_values : list (cell * cell);
  total_value : F.float
}.

Section Highlights.

(** The summation of [groupby(...).sum()] and the one of [Series.sum()]. *)
Variable fsum : list F.float -> F.float.
Variable ssum : list F.float -> F.float.

(** [df.groupby(by_, dropna=False)[col].sum()]: a series of sums under
    the group keys. *)
Definition groupby_sum (d : DataFrame) (by_ col : string) : result (list (cell * cell)) :=
  if negb (has_column d by_) then Raise (KeyError by_) else
  if negb (has_column d col) then Raise (KeyError col) else
  mapM (fun k => let! v := aggregate fsum Sum (map (fun r => at_ r col) (group_rows d by_ k)) in
                 Ok (k, v))
       (group_keys d by_).

Definition print_profit_highlights (inventory_df : nat) (top_n : Z) : M Highlights :=
  let* d := deref inventory_df in
  if negb (has_column d "Profit") || negb (has_column d "StockValue") then
    lift (Raise ValueError)
  else
    let* sorted := lift (sort_values d [("Profit", false)]) in
    let* top := lift (select_columns (head sorted top_n)
                        ["Product_ID"; "Product_Name"; "Profit"; "ProfitMargin"]) in
    (* to_string(..., formatters={"Profit": "{:,.2f}".format}) *)
    let* profits := lift (getitem top "Profit") in
    let* _ := lift (mapM format_float profits) in
    let* sums := lift (groupby_sum d "Product_Brand" "StockValue") in
    let brand_summary := nargsort_by snd false sums in
    let* values := getitem_ref inventory_df "StockValue" in
    let* xs := lift (floats values) in
    ret (mkHighlights top brand_summary (ssum (dropna xs))).

End Highlights.

(** ** [dashboards/app.py] *)

Definition VIEW_BUTTONS : list (string * string) :=
  [ ("low-stock", "Low-Stock Profitable");
    ("over-stock", "Over-Stocked Low-Profit");
    ("fast-moving", "Fast-Moving");
    ("brand-summary", "Brand Summary") ].

(** [dash_table.DataTable(columns=..., data=df.to_dict("records"), page_size=10)]. *)
Record DataTable : Type := mkTable {
  table_columns : list string;
  table_data : list row;
  page_size : nat
}.

Definition build_table (df : DataFrame) : DataTable :=
  mkTable (columns df) (rows df) 10.

(** The data a figure of Plotly Express draws; [tickangle] is set by
    [fig.update_layout]. *)
Inductive Figure : Type :=
| Pie (names values : list cell)
| Bar (x y color : list cell) (tickangle : Z).

(** Plotly Express rejects a column argument that is not the name of a
    column of the frame with [ValueError]. *)
Definition px_column (d : DataFrame) (c : string) : result (list cell) :=
  if has_column d c then Ok (map (fun r => at_ r c) (rows d)) else Raise ValueError.

Definition px_pie (d : DataFrame) (names values : string) : result Figure :=
  let! n := px_column d names in
  let! v := px_column d values in
  Ok (Pie n v).

Definition px_bar (d : DataFrame) (x y color : string) : result Figure :=
  let! xs := px_column d x in
  let! ys := px_column d y in
  let! cs := px_column d color in
  Ok (Bar xs ys cs 0).

Definition update_tickangle (fig : Figure) (angle : Z) : Figure :=
  match fig with
  | Bar x y c _ => Bar x y c angle
  | Pie n v => Pie n v
  end.

Definition build_chart (view_key : string) (df : DataFrame) : result Figure :=
  if String.eqb view_key "brand-summary" then
    px_pie df "Product_Brand" "TotalStockValue"
  else
    let! fig := px_bar (head df 15) "Product_Name" "Profit" "ProfitMargin" in
    Ok (update_tickangle fig (-35)).

Section App.

Variable fsum : list F.float -> F.float.

(** The helpers as the dashboard calls them: on the loaded inventory,
    with their default thresholds. *)
Definition VIEW_FUNCTIONS : gmap string (nat -> M DataFrame) :=
  <["low-stock" := fun df => low_stock_profitable df (F.of_Z 60) (F.of_Z 20)]>
  (<["over-stock" := fun df => overstock_low_profit df (F.of_Z 200) (F.of_Z 10)]>
  (<["fast-moving" := fun df => fast_moving_products df float_1_2 (F.of_Z 40)]>
  (<["brand-summary" := fun df => brand_summary fsum df]> ∅))).

(** [VIEW_FUNCTIONS.get(view_key, low_stock_profitable)(INVENTORY_DF)]. *)
Definition get_insight_data (INVENTORY_DF : nat) (view_key : string) : M DataFrame :=
  let func :=
    default (fun df => low_stock_profitable df (F.of_Z 60) (F.of_Z 20))
            (VIEW_FUNCTIONS !! view_key) in
  func INVENTORY_DF.

Definition render_view (INVENTORY_DF : nat) (current_view : string) : M (DataTable * Figure) :=
  let* df := get_insight_data INVENTORY_DF current_view in
  let table_component := build_table (head df 20) in
  let* chart := lift (build_chart current_view df) in
  ret (table_component, chart).

End App.

(** [s.split(".")[0]]: what precedes the first dot. *)
Fixpoint before_dot (s : string) : string :=
  match s with
  | EmptyString => EmptyString
  | String a s' => if Ascii.eqb a "." then EmptyString else String a (before_dot s')
  end.

Definition is_btn (a b c d : ascii) : bool :=
  Ascii.eqb a "b" && Ascii.eqb b "t" && Ascii.eqb c "n" && Ascii.eqb d "-".

(** [s.replace("btn-", "")]: every occurrence of [btn-], found from the
    left, is dropped. *)
Fixpoint remove_btn (s : string) : string :=
  match s with
  | EmptyString => EmptyString
  | String a s1 =>
      match s1 with
      | String b (String c (String d rest)) =>
          if is_btn a b c d then remove_btn rest else String a (remove_btn s1)
      | _ => String a (remove_btn s1)
      end
  end.

(** [update_view_store]: [triggered] as the list of its [prop_id]s;
    [None] stands for [dash.no_update]. *)
Definition update_view_store (triggered : list string) : option string :=
  match triggered with
  | [] => None
  | prop_id :: _ => Some (remove_btn (before_dot prop_id))
  end.

(** The [id] the layout gives to the button of a view, and the
    [prop_id] under which Dash reports its clicks. *)
Definition button_id (key : string) : string := "btn-" ++ key.
Definition clicks_prop (key : string) : string := button_id key ++ ".n_clicks".

(** ** More on what the helpers are asked *)

Fixpoint contains_dot (s : string) : bool :=
  match s with
  | EmptyString => false
  | String a s' => Ascii.eqb a "." || contains_dot s'
  end.

(** [btn-] occurs in [s]. *)
Fixpoint contains_btn (s : string) : bool :=
  match s with
  | EmptyString => false
  | String a s1 =>
      match s1 with
      | String b (String c (String d rest)) => is_btn a b c d || contains_btn s1
      | _ => false
      end
  end.

(** A descending order with the missing keys last: [y] may follow [x]. *)
Definition ranked_before {A} (key : A -> cell) (x y : A) : Prop :=
  F.is_nan (num (key y)) = true \/
  F.geb (num (key x)) (num (key y)) = true.

Definition desc_nan_last (c : string) : row -> row -> Prop :=
  ranked_before (fun r => at_ r c).

(** The columns of the table of the most profitable products, and the
    entry of one brand in the listing of stock values. *)
Definition highlight_columns : list string :=
  ["Product_ID"; "Product_Name"; "Profit"; "ProfitMargin"].

Definition brand_value (fsum : list F.float -> F.float) (d : DataFrame) (k : cell) : cell * cell :=
  (k, CNum (fsum (dropna (map (fun r => val r "StockValue") (group_rows d "Product_Brand" k))))).

(** The number of rows of [df.head(n)] for a frame of [len] rows. *)
Definition head_count (n : Z) (len : nat) : nat :=
  if (0 <=? n)%Z then Nat.min (Z.to_nat n) len else (len - Z.to_nat (- n))%nat.

(** The columns a chart of the dashboard names. *)
Definition chart_columns (view_key : string) : list string :=
  if String.eqb view_key "brand-summary" then ["Product_Brand"; "TotalStockValue"]
  else ["Product_Name"; "Profit"; "ProfitMargin"].


(** A table as it is read, before the loader has made numbers of its
    texts. *)
Definition sample_unloaded : DataFrame :=
  mkFrame ["Available_Quantity"; "Average_Stock_Level"]
          [ list_to_map [("Available_Quantity", CStr "ten");
                         ("Average_Stock_Level", CStr "two")] ].

(** ** Rows and cells, by what they hold *)



(** * Properties *)

(** ** Comparison of floats *)

Lemma pos_compare_cont_Eq m1 m2 : Pos.compare_cont Eq m1 m2 = Pos.compare m1 m2.
Proof. reflexivity. Qed.

Lemma compare_None x y :
  F.compare x y = None <-> F.is_nan x || F.is_nan y = true.
Proof.
  destruct x as [| | |[] ? ?], y as [| | |[] ? ?]; simpl; split; intros H; try discriminate; try reflexivity.
Qed.

Lemma compare_antisym x y :
  F.compare y x = option_map CompOpp (F.compare x y).
Proof.
  destruct x as [sx|sx| |sx mx ex], y as [sy|sy| |sy my ey]; simpl; try reflexivity;
    try (destruct sx; reflexivity); try (destruct sy; reflexivity);
    try (destruct sx, sy; reflexivity).
  rewrite !pos_compare_cont_Eq.
  rewrite (Z.compare_antisym ex ey), (Pos.compare_antisym mx my).
  destruct sx, sy; simpl; try reflexivity;
    destruct (ex ?= ey)%Z; simpl; try reflexivity;
    destruct (mx ?= my)%positive; reflexivity.
Qed.

(** Two floats that compare equal compare alike with any third. *)
Lemma compare_Eq_l x y z :
  F.compare x y = Some Eq -> F.compare x z = F.compare y z.
Proof.
  destruct x as [sx|sx| |sx mx ex], y as [sy|sy| |sy my ey]; simpl; try discriminate;
    try (destruct sx; discriminate); try (destruct sy; discriminate).
  - intros _. destruct z; reflexivity.
  - destruct sx, sy; try discriminate; intros _; reflexivity.
  - rewrite pos_compare_cont_Eq.
    destruct sx, sy; try discriminate;
    destruct (Z.compare_spec ex ey); try discriminate;
    destruct (Pos.compare_spec mx my); try discriminate; intros _; subst; reflexivity.
Qed.


Lemma compare_Lt_trans x y z :
  F.compare x y = Some Lt -> F.compare y z = Some Lt -> F.compare x z = Some Lt.
Proof.
  destruct x as [sx|sx| |sx mx ex], y as [sy|sy| |sy my ey], z as [sz|sz| |sz mz ez];
    simpl; try discriminate; try reflexivity;
    try (destruct sx; discriminate); try (destruct sy; discriminate);
    try (destruct sz; discriminate);
    try (destruct sx, sy; discriminate); try (destruct sy, sz; discriminate);
    try (destruct sx, sz; (discriminate || reflexivity));
    try (destruct sx, sy, sz; (discriminate || reflexivity)).
  all: repeat match goal with
       | |- context [Pos.compare_cont Eq ?a ?b] =>
           change (Pos.compare_cont Eq a b) with (Pos.compare a b)
       end.
  all: destruct sx, sy, sz; try discriminate; try reflexivity;
    try (destruct (ex ?= ey)%Z, (mx ?= my)%positive; discriminate);
    try (destruct (ey ?= ez)%Z, (my ?= mz)%positive; discriminate).
  all: destruct (Z.compare_spec ex ey); try discriminate;
       destruct (Z.compare_spec ey ez); try discriminate;
       destruct (Z.compare_spec ex ez); try lia;
       destruct (Pos.compare_spec mx my); try discriminate;
       destruct (Pos.compare_spec my mz); try discriminate;
       destruct (Pos.compare_spec mx mz); try lia; try reflexivity; try discriminate.
Qed.

Lemma compare_Eq_sym x y : F.compare x y = Some Eq -> F.compare y x = Some Eq.
Proof. intros H. rewrite compare_antisym, H. reflexivity. Qed.

Lemma compare_Lt_Eq x y z :
  F.compare x y = Some Lt -> F.compare y z = Some Eq -> F.compare x z = Some Lt.
Proof.
  intros H1 H2. apply compare_Eq_sym in H2.
  rewrite (compare_antisym z x), (compare_Eq_l _ _ _ H2), <- compare_antisym. exact H1.
Qed.

Lemma gtb_zero_divisor x :
  F.gtb x F.zero = true -> F.is_zero x = false /\ F.is_nan x = false.
Proof. destruct x as [| | |[] ? ?]; simpl; intros H; try discriminate; auto. Qed.


(** ** Lists *)

Lemma select_map {A} (f : A -> bool) (l : list A) :
  select l (map f l) = List.filter f l.
Proof. induction l as [|x l IH]; simpl; [reflexivity|]. rewrite IH. reflexivity. Qed.

Lemma mask_and_map {A} (f g : A -> bool) (l : list A) :
  mask_and (map f l) (map g l) = map (fun x => f x && g x) l.
Proof. unfold mask_and. induction l as [|x l IH]; simpl; [reflexivity|]. rewrite IH. reflexivity. Qed.

Lemma zip_with_map_map {A B C D} (h : B -> C -> D) (f : A -> B) (g : A -> C) (l : list A) :
  zip_with h (map f l) (map g l) = map (fun x => h (f x) (g x)) l.
Proof. induction l as [|x l IH]; simpl; [reflexivity|]. rewrite IH. reflexivity. Qed.

Lemma zip_with_map_r {A C D} (h : A -> C -> D) (g : A -> C) (l : list A) :
  zip_with h l (map g l) = map (fun x => h x (g x)) l.
Proof. induction l as [|x l IH]; simpl; [reflexivity|]. rewrite IH. reflexivity. Qed.

Lemma floats_map {A} (f : A -> cell) (l : list A) :
  List.Forall (fun x => is_num (f x) = true) l ->
  floats (map f l) = Ok (map (fun x => num (f x)) l).
Proof.
  unfold floats. induction 1 as [|x l Hx _ IH]; simpl; [reflexivity|].
  rewrite IH. destruct (f x); simpl in *; [discriminate|reflexivity].
Qed.

Lemma find_none_forallb {A} (f : A -> bool) (l : list A) :
  forallb f l = true -> List.find (fun x => negb (f x)) l = None.
Proof.
  induction l as [|x l IH]; simpl; [reflexivity|].
  intros [Hx Hl]%andb_prop. rewrite Hx. simpl. auto.
Qed.


(** ** Insertion sort *)

Section Isort.
Context {A : Type} (le : A -> A -> bool).

Lemma insert_by_perm x l : Permutation (insert_by le x l) (x :: l).
Proof.
  induction l as [|y l IH]; simpl; [reflexivity|].
  destruct (le x y); [reflexivity|].
  etransitivity; [apply perm_skip, IH|apply perm_swap].
Qed.

Lemma isort_perm l : Permutation (isort le l) l.
Proof.
  induction l as [|x l IH]; simpl; [reflexivity|].
  etransitivity; [apply insert_by_perm|]. apply perm_skip, IH.
Qed.

Hypothesis le_total : forall x y, le x y = false -> le y x = true.

Lemma insert_by_sorted x l :
  Sorted (fun a b => le a b = true) l ->
  Sorted (fun a b => le a b = true) (insert_by le x l).
Proof.
  induction 1 as [|y l Hl IH Hy]; simpl.
  - repeat constructor.
  - destruct (le x y) eqn:E.
    + constructor; [constructor; assumption|]. constructor. exact E.
    + constructor; [exact IH|].
      destruct l as [|z l]; simpl.
      * constructor. apply le_total, E.
      * destruct (le x z); constructor.
        -- apply le_total, E.
        -- inversion Hy; assumption.
Qed.

Lemma isort_sorted l : Sorted (fun a b => le a b = true) (isort le l).
Proof. induction l; simpl; [constructor|]. apply insert_by_sorted. assumption. Qed.

End Isort.


(** ** Rows and frames *)

Lemma project_lookup cols (r : row) c :
  project cols r !! c = if bool_decide (c ∈ cols) then Some (at_ r c) else None.
Proof.
  induction cols as [|c' cols IH]; simpl.
  - rewrite lookup_empty. reflexivity.
  - destruct (decide (c' = c)) as [->|Hne].
    + rewrite lookup_insert_eq, bool_decide_eq_true_2; [reflexivity|constructor].
    + rewrite lookup_insert_ne, IH by assumption.
      destruct (bool_decide (c ∈ cols)) eqn:E.
      * apply bool_decide_eq_true in E.
        rewrite bool_decide_eq_true_2; [reflexivity|constructor; assumption].
      * apply bool_decide_eq_false in E.
        rewrite bool_decide_eq_false_2; [reflexivity|].
        intros [?|?]%elem_of_cons; congruence.
Qed.

Lemma at_project cols (r : row) c :
  bool_decide (c ∈ cols) = true -> at_ (project cols r) c = at_ r c.
Proof. intros H. unfold at_ at 1. rewrite project_lookup, H. reflexivity. Qed.

Lemma at_insert (r : row) c v : at_ (<[c := v]> r) c = v.
Proof. unfold at_. rewrite lookup_insert_eq. reflexivity. Qed.

Lemma at_insert_ne (r : row) c c' v : c <> c' -> at_ (<[c := v]> r) c' = at_ r c'.
Proof. intros H. unfold at_. rewrite lookup_insert_ne by assumption. reflexivity. Qed.

Lemma enriched_has d c :
  enriched d = true ->
  existsb (String.eqb c) (identity_columns ++ numeric_columns) = true ->
  has_column d c = true.
Proof.
  unfold enriched. intros [H _]%andb_prop [c' [Hin Hc]]%existsb_exists.
  apply String.eqb_eq in Hc. subst c'.
  rewrite forallb_forall in H. apply H, Hin.
Qed.

Lemma enriched_has_all d cols :
  enriched d = true ->
  forallb (fun c => existsb (String.eqb c) (identity_columns ++ numeric_columns)) cols = true ->
  forallb (has_column d) cols = true.
Proof.
  intros He H. rewrite forallb_forall in *. intros c Hc.
  apply (enriched_has _ _ He), H, Hc.
Qed.

Lemma enriched_num d c :
  enriched d = true ->
  existsb (String.eqb c) numeric_columns = true ->
  List.Forall (fun r => is_num (at_ r c) = true) (rows d).
Proof.
  unfold enriched. intros [_ H]%andb_prop [c' [Hin Hc]]%existsb_exists.
  apply String.eqb_eq in Hc. subst c'.
  rewrite forallb_forall in H. apply List.Forall_forall. intros r Hr.
  specialize (H r Hr). rewrite forallb_forall in H. apply H, Hin.
Qed.

Lemma getitem_ok d c :
  has_column d c = true -> getitem d c = Ok (map (fun r => at_ r c) (rows d)).
Proof. intros H. unfold getitem. rewrite H. reflexivity. Qed.

Lemma series_cmp_column op rs c t :
  List.Forall (fun r => is_num (at_ r c) = true) rs ->
  series_cmp op (map (fun r => at_ r c) rs) t = Ok (map (fun r => op (val r c) t) rs).
Proof. intros H. unfold series_cmp. rewrite floats_map by assumption. simpl. rewrite map_map. reflexivity. Qed.

Lemma select_columns_ok d cols :
  forallb (has_column d) cols = true ->
  select_columns d cols = Ok (mkFrame cols (map (project cols) (rows d))).
Proof. intros H. unfold select_columns. rewrite find_none_forallb by assumption. reflexivity. Qed.

(** ** The heap monad *)

Lemma bind_ok {A B} (m : M A) (k : A -> M B) σ a σ' :
  m σ = (Ok a, σ') -> bind m k σ = k a σ'.
Proof. intros H. unfold bind. rewrite H. reflexivity. Qed.

Lemma bind_raise {A B} (m : M A) (k : A -> M B) σ e σ' :
  m σ = (Raise e, σ') -> bind m k σ = (Raise e, σ').
Proof. intros H. unfold bind. rewrite H. reflexivity. Qed.

Lemma deref_ok σ l d : σ !! l = Some d -> deref l σ = (Ok d, σ).
Proof. intros H. unfold deref. rewrite H. reflexivity. Qed.

Lemma getitem_ref_ok σ df d c :
  σ !! df = Some d -> has_column d c = true ->
  getitem_ref df c σ = (Ok (map (fun r => at_ r c) (rows d)), σ).
Proof.
  intros Hd Hc. unfold getitem_ref. rewrite (bind_ok _ _ _ _ _ (deref_ok _ _ _ Hd)).
  unfold lift. rewrite getitem_ok by assumption. reflexivity.
Qed.

Lemma lift_ok {A} (r : result A) (a : A) σ : r = Ok a -> lift r σ = (Ok a, σ).
Proof. intros ->. reflexivity. Qed.

Lemma Forall_filter_in {A} (P : A -> Prop) (f : A -> bool) (l : list A) :
  List.Forall P l -> List.Forall P (List.filter f l).
Proof.
  rewrite !List.Forall_forall. intros H x [Hx _]%filter_In. auto.
Qed.

Lemma Forall_project_num cols c (l : list row) :
  bool_decide (c ∈ cols) = true ->
  List.Forall (fun r => is_num (at_ r c) = true) l ->
  List.Forall (fun x => exists v, x !! c = Some (CNum v)) (map (project cols) l).
Proof.
  intros Hc H. apply List.Forall_map. eapply List.Forall_impl; [|exact H].
  intros r. simpl. rewrite project_lookup, Hc.
  destruct (at_ r c); [discriminate|eauto].
Qed.

Lemma Forall_project_some cols c (l : list row) :
  bool_decide (c ∈ cols) = true ->
  List.Forall (fun x => is_Some (x !! c)) (map (project cols) l).
Proof.
  intros Hc. apply List.Forall_map, List.Forall_forall. intros r _.
  simpl. rewrite project_lookup, Hc. eauto.
Qed.

Lemma Forall_perm {A} (P : A -> Prop) (l l' : list A) :
  Permutation l l' -> List.Forall P l' -> List.Forall P l.
Proof.
  intros Hp H. rewrite List.Forall_forall in *. intros x Hx.
  apply H. eapply Permutation_in; eassumption.
Qed.

Lemma low_stock_report_ok (ins : DataFrame) σ :
  List.Forall (fun x => is_Some (x !! "Product_Name")) (rows ins) ->
  List.Forall (fun x => exists v, x !! "ProfitMargin" = Some (CNum v)) (rows ins) ->
  List.Forall (fun x => is_Some (x !! "Available_Quantity")) (rows ins) ->
  low_stock_report ins σ = (Ok tt, σ).
Proof.
  intros H1 H2 H3. unfold low_stock_report, empty, iloc.
  destruct (rows ins) as [|top rs]; [reflexivity|].
  apply List.Forall_inv in H1 as [n Hn]. apply List.Forall_inv in H2 as [m Hm].
  apply List.Forall_inv in H3 as [q Hq].
  unfold bind, lift, ret, row_getitem; simpl. rewrite Hn, Hm, Hq. reflexivity.
Qed.

Lemma low_stock_run σ df d qt mt :
  σ !! df = Some d -> enriched d = true ->
  low_stock_profitable df qt mt σ =
    (Ok (mkFrame low_stock_columns
           (lexsort low_stock_keys
              (map (project low_stock_columns)
                   (List.filter (low_stock_selected qt mt) (rows d))))), σ).
Proof.
  intros Hd He. unfold low_stock_profitable.
  erewrite bind_ok by (eapply getitem_ref_ok; [exact Hd|apply (enriched_has _ _ He); reflexivity]).
  erewrite bind_ok by (apply lift_ok, series_cmp_column, (enriched_num _ _ He); reflexivity).
  erewrite bind_ok by (eapply getitem_ref_ok; [exact Hd|apply (enriched_has _ _ He); reflexivity]).
  erewrite bind_ok by (apply lift_ok, series_cmp_column, (enriched_num _ _ He); reflexivity).
  cbv zeta. rewrite mask_and_map.
  erewrite bind_ok by (apply deref_ok, Hd).
  erewrite bind_ok.
  2:{ apply lift_ok. unfold loc. apply select_columns_ok.
      change (forallb (has_column d) low_stock_columns = true).
      apply (enriched_has_all _ _ He). reflexivity. }
  unfold bool_index. simpl rows. rewrite select_map.
  erewrite bind_ok by (apply lift_ok; reflexivity).
  unfold reset_index.
  erewrite bind_ok.
  2:{ apply low_stock_report_ok; simpl rows;
      (eapply Forall_perm; [apply isort_perm|]).
      - apply Forall_project_some. reflexivity.
      - apply Forall_project_num; [reflexivity|].
        apply Forall_filter_in, (enriched_num _ _ He). reflexivity.
      - apply Forall_project_some. reflexivity. }
  reflexivity.
Qed.

(** ** Orders *)



Lemma leb_compare x y :
  F.leb x y = match F.compare x y with Some (Lt | Eq) => true | _ => false end.
Proof. reflexivity. Qed.


Lemma compare_Some x y :
  F.is_nan x = false -> F.is_nan y = false -> exists c, F.compare x y = Some c.
Proof.
  intros Hx Hy. destruct (F.compare x y) as [c|] eqn:E; [eauto|].
  apply compare_None in E. rewrite Hx, Hy in E. discriminate.
Qed.

Lemma geb_not_nan x y : F.geb x y = true -> F.is_nan x = false.
Proof. destruct x; try reflexivity. destruct y; discriminate. Qed.


Lemma cell_compare_antisym a b : cell_compare b a = CompOpp (cell_compare a b).
Proof.
  destruct a as [s|x], b as [t|y]; simpl; try reflexivity.
  - apply String.compare_antisym.
  - rewrite compare_antisym. destruct (F.compare x y); reflexivity.
Qed.





Lemma Sorted_strengthen {A} (R R' : A -> A -> Prop) (P : A -> Prop) (l : list A) :
  List.Forall P l -> (forall x y, P x -> P y -> R x y -> R' x y) ->
  Sorted R l -> Sorted R' l.
Proof.
  intros HP HR HS. induction HS as [|x l HS IH Hhd]; [constructor|].
  apply List.Forall_cons_iff in HP as [Hx Hl].
  constructor; [auto|].
  destruct Hhd as [|y l' Hxy]; constructor.
  apply List.Forall_inv in Hl. auto.
Qed.



Lemma at_num (r : row) c : is_num (at_ r c) = true -> at_ r c = CNum (val r c).
Proof. unfold val. destruct (at_ r c); [discriminate|reflexivity]. Qed.




(** ** The orders are transitive *)

Lemma compare_chain x y z c1 c2 :
  F.compare x y = Some c1 -> F.compare y z = Some c2 -> c1 <> Gt -> c2 <> Gt ->
  F.compare x z = Some match c1, c2 with Eq, Eq => Eq | _, _ => Lt end.
Proof.
  intros H1 H2 N1 N2. destruct c1, c2; try congruence.
  - rewrite (compare_Eq_l _ _ _ H1). exact H2.
  - rewrite (compare_Eq_l _ _ _ H1). exact H2.
  - eapply compare_Lt_Eq; eassumption.
  - eapply compare_Lt_trans; eassumption.
Qed.

Lemma leb_trans x y z : F.leb x y = true -> F.leb y z = true -> F.leb x z = true.
Proof.
  rewrite !leb_compare. intros H1 H2.
  destruct (F.compare x y) as [c1|] eqn:E1; [|discriminate].
  destruct (F.compare y z) as [c2|] eqn:E2; [|discriminate].
  rewrite (compare_chain _ _ _ _ _ E1 E2) by (destruct c1, c2; congruence).
  destruct c1, c2; try discriminate; reflexivity.
Qed.

Lemma ltb_leb_trans x y z : F.ltb x y = true -> F.leb y z = true -> F.ltb x z = true.
Proof.
  unfold F.ltb, SFltb. change SFcompare with F.compare. rewrite leb_compare. intros H1 H2.
  destruct (F.compare x y) as [c1|] eqn:E1; [|discriminate].
  destruct (F.compare y z) as [c2|] eqn:E2; [|discriminate].
  rewrite (compare_chain _ _ _ _ _ E1 E2) by (destruct c1, c2; congruence).
  destruct c1, c2; try discriminate; reflexivity.
Qed.

Lemma leb_ltb_trans x y z : F.leb x y = true -> F.ltb y z = true -> F.ltb x z = true.
Proof.
  unfold F.ltb, SFltb. change SFcompare with F.compare. rewrite leb_compare. intros H1 H2.
  destruct (F.compare x y) as [c1|] eqn:E1; [|discriminate].
  destruct (F.compare y z) as [c2|] eqn:E2; [|discriminate].
  rewrite (compare_chain _ _ _ _ _ E1 E2) by (destruct c1, c2; congruence).
  destruct c1, c2; try discriminate; reflexivity.
Qed.






Lemma val_project cols (r : row) c :
  bool_decide (c ∈ cols) = true -> val (project cols r) c = val r c.
Proof. intros H. unfold val. rewrite at_project by assumption. reflexivity. Qed.






Lemma overstock_report_ok (ins : DataFrame) σ :
  has_column ins "StockValue" = true ->
  List.Forall (fun x => is_num (at_ x "StockValue") = true) (rows ins) ->
  overstock_report ins σ = (Ok tt, σ).
Proof.
  intros Hc Hn. unfold overstock_report.
  destruct (negb (empty ins)); [|reflexivity].
  erewrite bind_ok by (apply lift_ok, getitem_ok, Hc).
  erewrite bind_ok by (apply lift_ok, floats_map, Hn).
  reflexivity.
Qed.

Lemma Forall_project_is_num cols c (l : list row) :
  bool_decide (c ∈ cols) = true ->
  List.Forall (fun r => is_num (at_ r c) = true) l ->
  List.Forall (fun x => is_num (at_ x c) = true) (map (project cols) l).
Proof.
  intros Hc H. apply List.Forall_map. eapply List.Forall_impl; [|exact H].
  intros r Hr. simpl. rewrite at_project by assumption. exact Hr.
Qed.

Lemma overstock_run σ df d qt mt :
  σ !! df = Some d -> enriched d = true ->
  overstock_low_profit df qt mt σ =
    (Ok (mkFrame overstock_columns
           (lexsort overstock_keys
              (map (project overstock_columns)
                   (List.filter (overstock_selected qt mt) (rows d))))), σ).
Proof.
  intros Hd He. unfold overstock_low_profit.
  erewrite bind_ok by (eapply getitem_ref_ok; [exact Hd|apply (enriched_has _ _ He); reflexivity]).
  erewrite bind_ok by (apply lift_ok, series_cmp_column, (enriched_num _ _ He); reflexivity).
  erewrite bind_ok by (eapply getitem_ref_ok; [exact Hd|apply (enriched_has _ _ He); reflexivity]).
  erewrite bind_ok by (apply lift_ok, series_cmp_column, (enriched_num _ _ He); reflexivity).
  cbv zeta. rewrite mask_and_map.
  erewrite bind_ok by (apply deref_ok, Hd).
  erewrite bind_ok.
  2:{ apply lift_ok. unfold loc. apply select_columns_ok.
      change (forallb (has_column d) overstock_columns = true).
      apply (enriched_has_all _ _ He). reflexivity. }
  unfold bool_index. simpl rows. rewrite select_map.
  erewrite bind_ok by (apply lift_ok; reflexivity).
  unfold reset_index.
  erewrite bind_ok.
  2:{ apply overstock_report_ok; [reflexivity|]. simpl rows.
      eapply Forall_perm; [apply isort_perm|].
      apply Forall_project_is_num; [reflexivity|].
      apply Forall_filter_in, (enriched_num _ _ He). reflexivity. }
  reflexivity.
Qed.




(** ** [nargsort] *)

Lemma rev_reverse {A} (l : list A) : rev l = reverse l.
Proof. induction l as [|x l IH]; [reflexivity|]. simpl. rewrite reverse_cons, IH. reflexivity. Qed.

Lemma Sorted_rev {A} (R : A -> A -> Prop) (l : list A) :
  Sorted R l -> Sorted (fun a b => R b a) (rev l).
Proof. intros H. rewrite rev_reverse. apply (Sorted_reverse R), H. Qed.


Lemma filter_partition_perm {A} (f : A -> bool) (l : list A) :
  Permutation (List.filter (fun x => negb (f x)) l ++ List.filter f l) l.
Proof.
  induction l as [|x l IH]; simpl; [reflexivity|].
  destruct (f x); simpl.
  - etransitivity; [symmetry; apply Permutation_middle|]. apply perm_skip, IH.
  - apply perm_skip, IH.
Qed.

Lemma nargsort_perm c asc (l : list row) : Permutation (nargsort c asc l) l.
Proof.
  unfold nargsort.
  etransitivity; [|apply (filter_partition_perm (fun r => isna (at_ r c)))].
  apply Permutation_app_tail.
  destruct asc.
  - apply isort_perm.
  - etransitivity; [symmetry; apply Permutation_rev|].
    etransitivity; [apply isort_perm|]. symmetry. apply Permutation_rev.
Qed.




(** ** Fast-Moving *)

Lemma sort_values_single d c asc :
  has_column d c = true ->
  sort_values d [(c, asc)] = Ok (mkFrame (columns d) (nargsort c asc (rows d))).
Proof. intros H. unfold sort_values. simpl. rewrite H. reflexivity. Qed.

Lemma alloc_ok d σ : alloc d σ = (Ok (fresh (dom σ)), <[fresh (dom σ) := d]> σ).
Proof. reflexivity. Qed.

Lemma fast_moving_working_run (σ : heap) df d mm :
  σ !! df = Some d -> enriched d = true ->
  fast_moving_working df mm σ =
    (Ok (fresh (dom σ)),
     <[fresh (dom σ) := mkFrame (columns d) (List.filter (fast_moving_prefilter mm) (rows d))]> σ).
Proof.
  intros Hd He. unfold fast_moving_working.
  erewrite bind_ok by (eapply getitem_ref_ok; [exact Hd|apply (enriched_has _ _ He); reflexivity]).
  erewrite bind_ok by (apply lift_ok, series_cmp_column, (enriched_num _ _ He); reflexivity).
  erewrite bind_ok by (eapply getitem_ref_ok; [exact Hd|apply (enriched_has _ _ He); reflexivity]).
  erewrite bind_ok by (apply lift_ok, series_cmp_column, (enriched_num _ _ He); reflexivity).
  erewrite bind_ok by (apply deref_ok, Hd).
  unfold copy. rewrite alloc_ok. unfold bool_index.
  rewrite mask_and_map, select_map. reflexivity.
Qed.

Lemma fast_moving_report_ok (ins : DataFrame) σ :
  List.Forall (fun x => is_Some (x !! "Product_Name")) (rows ins) ->
  List.Forall (fun x => exists v, x !! "SellThroughRate" = Some (CNum v)) (rows ins) ->
  fast_moving_report ins σ = (Ok tt, σ).
Proof.
  intros H1 H2. unfold fast_moving_report, empty, iloc.
  destruct (rows ins) as [|top rs]; [reflexivity|].
  apply List.Forall_inv in H1 as [n Hn]. apply List.Forall_inv in H2 as [m Hm].
  unfold bind, lift, ret, row_getitem; simpl. rewrite Hn, Hm. reflexivity.
Qed.

Lemma filter_map_comm {A B} (f : A -> B) (g : B -> bool) (l : list A) :
  List.filter g (map f l) = map f (List.filter (fun x => g (f x)) l).
Proof.
  induction l as [|x l IH]; simpl; [reflexivity|].
  destruct (g (f x)); simpl; rewrite IH; reflexivity.
Qed.

Lemma filter_filter {A} (f g : A -> bool) (l : list A) :
  List.filter g (List.filter f l) = List.filter (fun x => f x && g x) l.
Proof.
  induction l as [|x l IH]; simpl; [reflexivity|].
  destruct (f x); simpl; [destruct (g x)|]; rewrite IH; reflexivity.
Qed.

Lemma val_with_rate (r : row) : val (with_rate r) "SellThroughRate" = sell_through_rate r.
Proof. unfold val, with_rate. rewrite at_insert. reflexivity. Qed.

Lemma fast_moving_run (σ : heap) df d vt mm :
  σ !! df = Some d -> enriched d = true ->
  fast_moving_products df vt mm σ =
    (Ok (mkFrame fast_moving_columns
           (map (project fast_moving_columns)
              (nargsort "SellThroughRate" false
                 (map with_rate (List.filter (fast_moving_selected vt mm) (rows d)))))),
     <[fresh (dom σ) :=
         setitem (mkFrame (columns d) (List.filter (fast_moving_prefilter mm) (rows d)))
                 "SellThroughRate"
                 (map (fun r => CNum (sell_through_rate r))
                      (List.filter (fast_moving_prefilter mm) (rows d)))]> σ).
Proof.
  intros Hd He. unfold fast_moving_products.
  rewrite (bind_ok _ _ _ _ _ (fast_moving_working_run _ _ _ mm Hd He)).
  set (l := fresh (dom σ)).
  set (rs := List.filter (fast_moving_prefilter mm) (rows d)).
  set (w := mkFrame (columns d) rs).
  assert (Hl : (<[l := w]> σ) !! l = Some w) by apply lookup_insert_eq.
  assert (Hw : forall c, has_column w c = has_column d c) by reflexivity.
  assert (Hnum : forall c, existsb (String.eqb c) numeric_columns = true ->
            List.Forall (fun r => is_num (at_ r c) = true) rs).
  { intros c Hc. apply Forall_filter_in, (enriched_num _ _ He), Hc. }
  unfold sell_through_operands.
  erewrite bind_ok.
  2:{ erewrite bind_ok by (eapply getitem_ref_ok; [exact Hl|rewrite Hw; apply (enriched_has _ _ He); reflexivity]).
      erewrite bind_ok by (eapply getitem_ref_ok; [exact Hl|rewrite Hw; apply (enriched_has _ _ He); reflexivity]).
      reflexivity. }
  cbn [fst snd].
  erewrite bind_ok.
  2:{ apply lift_ok. unfold series_arith.
      rewrite (floats_map (fun r => at_ r "Total_Sold")) by (apply Hnum; reflexivity).
      rewrite (floats_map (fun r => at_ r "Average_Stock_Level")) by (apply Hnum; reflexivity).
      cbn [rbind]. rewrite zip_with_map_map. reflexivity. }
  change (fun x : row => CNum (F.div (num (at_ x "Total_Sold")) (num (at_ x "Average_Stock_Level"))))
    with (fun x : row => CNum (sell_through_rate x)).
  simpl rows.
  erewrite bind_ok.
  2:{ unfold setitem_ref. erewrite bind_ok by (apply deref_ok, Hl). reflexivity. }
  rewrite insert_insert_eq.
  set (w' := setitem w "SellThroughRate" (map (fun x => CNum (sell_through_rate x)) rs)).
  assert (Hl' : (<[l := w']> σ) !! l = Some w') by apply lookup_insert_eq.
  assert (Hrows : rows w' = map with_rate rs).
  { unfold w', setitem. simpl. rewrite zip_with_map_r. reflexivity. }
  assert (Hcol : forall c, bool_decide (c ∈ columns d) = true -> has_column w' c = true).
  { intros c Hc. unfold has_column, w', setitem. simpl.
    apply bool_decide_eq_true in Hc. apply bool_decide_eq_true.
    destruct (has_column w "SellThroughRate"); [exact Hc|].
    apply elem_of_app. left. exact Hc. }
  assert (Hrate : has_column w' "SellThroughRate" = true).
  { unfold has_column at 1. unfold w', setitem. simpl.
    destruct (has_column w "SellThroughRate") eqn:E; [exact E|].
    apply bool_decide_eq_true, elem_of_app. right. constructor. }
  erewrite bind_ok by (eapply getitem_ref_ok; [exact Hl'|exact Hrate]).
  rewrite Hrows.
  erewrite bind_ok.
  2:{ apply lift_ok, series_cmp_column. apply List.Forall_map, List.Forall_forall.
      intros r _. simpl. unfold with_rate. rewrite at_insert. reflexivity. }
  erewrite bind_ok by (apply deref_ok, Hl').
  cbv zeta. unfold bool_index. rewrite Hrows, select_map.
  erewrite bind_ok.
  2:{ apply lift_ok, sort_values_single. exact Hrate. }
  unfold reset_index.
  erewrite bind_ok.
  2:{ apply lift_ok, select_columns_ok.
      match goal with
      | |- forallb (has_column ?f) _ = true =>
          change (forallb (has_column w') fast_moving_columns = true)
      end.
      unfold fast_moving_columns. cbn [forallb].
      rewrite Hrate.
      rewrite !Hcol by (apply (enriched_has _ _ He); reflexivity). reflexivity. }
  simpl rows.
  rewrite filter_map_comm.
  assert (Hsel : List.filter (fun x => F.geb (val (with_rate x) "SellThroughRate") vt) rs =
                 List.filter (fast_moving_selected vt mm) (rows d)).
  { unfold rs. rewrite filter_filter. apply filter_ext. intros r.
    rewrite val_with_rate. reflexivity. }
  rewrite Hsel.
  erewrite bind_ok.
  2:{ apply fast_moving_report_ok; simpl rows.
      - apply Forall_project_some. reflexivity.
      - apply Forall_project_num; [reflexivity|].
        eapply Forall_perm; [apply nargsort_perm|].
        apply List.Forall_map, List.Forall_forall. intros r _.
        unfold with_rate. rewrite at_insert. reflexivity. }
  reflexivity.
Qed.




(** ** Inversion of successful runs *)

Lemma bind_inv {A B} (m : M A) (k : A -> M B) σ b σ' :
  bind m k σ = (Ok b, σ') ->
  exists a σ1, m σ = (Ok a, σ1) /\ k a σ1 = (Ok b, σ').
Proof.
  unfold bind. destruct (m σ) as [[a|e] σ1]; [eauto|discriminate].
Qed.

Lemma lift_inv {A} (r : result A) σ a σ' :
  lift r σ = (Ok a, σ') -> r = Ok a /\ σ' = σ.
Proof. unfold lift. intros [= -> ->]. auto. Qed.

Lemma deref_inv l (σ : heap) d σ' :
  deref l σ = (Ok d, σ') -> σ !! l = Some d /\ σ' = σ.
Proof. unfold deref. destruct (σ !! l); intros [= <- <-]; auto. Qed.

Lemma getitem_inv d c s :
  getitem d c = Ok s -> has_column d c = true /\ s = map (fun r => at_ r c) (rows d).
Proof. unfold getitem. destruct (has_column d c); intros [= <-]; auto. Qed.

Lemma getitem_ref_inv l c (σ : heap) s σ' :
  getitem_ref l c σ = (Ok s, σ') ->
  exists d, σ !! l = Some d /\ has_column d c = true /\
            s = map (fun r => at_ r c) (rows d) /\ σ' = σ.
Proof.
  unfold getitem_ref. intros (d & σ1 & [Hd ->]%deref_inv & [Hg ->]%lift_inv)%bind_inv.
  apply getitem_inv in Hg as [? ?]. eauto.
Qed.

Lemma floats_map_inv {A} (f : A -> cell) (l : list A) xs :
  floats (map f l) = Ok xs ->
  List.Forall (fun x => is_num (f x) = true) l /\ xs = map (fun x => num (f x)) l.
Proof.
  unfold floats. revert xs. induction l as [|x l IH]; simpl; intros xs.
  - intros [= <-]. auto.
  - destruct (f x) as [s|v] eqn:E; simpl; [discriminate|].
    destruct (mapM as_float (map f l)) as [ys|e]; simpl; [|discriminate].
    intros [= <-]. destruct (IH ys eq_refl) as [H ->].
    split; [constructor; [rewrite E; reflexivity|exact H]|reflexivity].
Qed.

Lemma series_cmp_inv op (rs : list row) c t m :
  series_cmp op (map (fun r => at_ r c) rs) t = Ok m ->
  List.Forall (fun r => is_num (at_ r c) = true) rs /\
  m = map (fun r => op (val r c) t) rs.
Proof.
  unfold series_cmp.
  destruct (floats (map (fun r => at_ r c) rs)) as [xs|e] eqn:E; simpl; [|discriminate].
  intros [= <-]. apply floats_map_inv in E as [H ->]. rewrite map_map. auto.
Qed.

(** C6.  Whenever Fast-Moving reaches its division, every divisor it
    reads from the working copy is a number greater than zero: neither
    a zero nor the missing marker. *)
Theorem fast_moving_divisor_positive (σ σ1 σ2 : heap) df mm working_df sold level :
  fast_moving_working df mm σ = (Ok working_df, σ1) ->
  sell_through_operands working_df σ1 = (Ok (sold, level), σ2) ->
  List.Forall safe_divisor level.
Proof.
  unfold fast_moving_working, sell_through_operands.
  intros (s1 & ? & (d & Hd & Hc1 & -> & ->)%getitem_ref_inv &
          (m1 & ? & [Hm1 ->]%lift_inv &
           (s2 & ? & (d' & Hd' & Hc2 & -> & ->)%getitem_ref_inv &
            (m2 & ? & [Hm2 ->]%lift_inv &
             (d'' & ? & [Hd'' ->]%deref_inv & Hcopy)%bind_inv)%bind_inv)%bind_inv)%bind_inv)%bind_inv.
  rewrite Hd in Hd', Hd''. injection Hd' as <-. injection Hd'' as <-.
  apply series_cmp_inv in Hm1 as [Hn1 ->]. apply series_cmp_inv in Hm2 as [_ ->].
  unfold copy in Hcopy. rewrite alloc_ok in Hcopy. injection Hcopy as <- <-.
  intros (s & ? & (w & Hw & _ & -> & ->)%getitem_ref_inv &
          (lv & ? & (w' & Hw' & _ & -> & ->)%getitem_ref_inv & Hret)%bind_inv)%bind_inv.
  rewrite Hw in Hw'. injection Hw' as <-.
  rewrite lookup_insert_eq in Hw. injection Hw as <-.
  unfold ret in Hret. injection Hret as _ <- _.
  unfold bool_index. simpl rows. rewrite mask_and_map, select_map.
  apply List.Forall_map, List.Forall_forall. intros r [Hr Hsel]%filter_In.
  rewrite List.Forall_forall in Hn1. specialize (Hn1 r Hr).
  apply andb_prop in Hsel as [Hpos _].
  exists (val r "Average_Stock_Level"). rewrite (at_num _ _ Hn1).
  split; [reflexivity|]. split; [exact Hpos|]. apply gtb_zero_divisor, Hpos.
Qed.

(** ** What the helpers do to the heap *)

Lemma read_only_ret {A} (a : A) : read_only (ret a).
Proof. intros σ. reflexivity. Qed.

Lemma read_only_lift {A} (r : result A) : read_only (lift r).
Proof. intros σ. reflexivity. Qed.

Lemma read_only_deref l : read_only (deref l).
Proof. intros σ. unfold deref. destruct (σ !! l); reflexivity. Qed.

Lemma read_only_bind {A B} (m : M A) (k : A -> M B) :
  read_only m -> (forall a, read_only (k a)) -> read_only (bind m k).
Proof.
  intros Hm Hk σ. unfold bind. specialize (Hm σ).
  destruct (m σ) as [[a|e] σ1]; simpl in Hm; subst σ1; [apply Hk|reflexivity].
Qed.

Lemma read_only_if {A} (b : bool) (m1 m2 : M A) :
  read_only m1 -> read_only m2 -> read_only (if b then m1 else m2).
Proof. destruct b; auto. Qed.

Lemma read_only_getitem_ref l c : read_only (getitem_ref l c).
Proof. apply read_only_bind; [apply read_only_deref|intros; apply read_only_lift]. Qed.

Create HintDb frame.
#[local] Hint Resolve read_only_ret read_only_lift read_only_deref read_only_bind
  read_only_if read_only_getitem_ref : frame.

Lemma read_only_low_stock_report ins : read_only (low_stock_report ins).
Proof. unfold low_stock_report. auto 20 with frame. Qed.

Lemma read_only_overstock_report ins : read_only (overstock_report ins).
Proof. unfold overstock_report. auto 20 with frame. Qed.

Lemma read_only_fast_moving_report ins : read_only (fast_moving_report ins).
Proof. unfold fast_moving_report. auto 20 with frame. Qed.

#[local] Hint Resolve read_only_low_stock_report read_only_overstock_report
  read_only_fast_moving_report : frame.

Lemma read_only_low_stock df qt mt : read_only (low_stock_profitable df qt mt).
Proof. unfold low_stock_profitable. cbv zeta. auto 20 with frame. Qed.

Lemma read_only_overstock df qt mt : read_only (overstock_low_profit df qt mt).
Proof. unfold overstock_low_profit. cbv zeta. auto 20 with frame. Qed.

Lemma read_only_brand_summary fsum df : read_only (brand_summary fsum df).
Proof. unfold brand_summary. cbv zeta. auto 20 with frame. Qed.

Lemma writes_only_read_only {A} l (m : M A) : read_only m -> writes_only l m.
Proof. intros H σ l' _. rewrite H. reflexivity. Qed.

Lemma writes_only_bind {A B} l (m : M A) (k : A -> M B) :
  writes_only l m -> (forall a, writes_only l (k a)) -> writes_only l (bind m k).
Proof.
  intros Hm Hk σ l' Hl. unfold bind. specialize (Hm σ l' Hl).
  destruct (m σ) as [[a|e] σ1]; simpl in Hm; [|exact Hm].
  rewrite (Hk a σ1 l' Hl). exact Hm.
Qed.

Lemma writes_only_setitem_ref l c vals : writes_only l (setitem_ref l c vals).
Proof.
  intros σ l' Hl. unfold setitem_ref, bind, deref, assign.
  destruct (σ !! l); simpl; [|reflexivity].
  apply lookup_insert_ne. congruence.
Qed.

Lemma writes_only_fast_moving_rest working_df vt :
  writes_only working_df
    (let* operands := sell_through_operands working_df in
     let* rate := lift (series_arith F.div (fst operands) (snd operands)) in
     let* _ := setitem_ref working_df "SellThroughRate" rate in
     let* rate := getitem_ref working_df "SellThroughRate" in
     let* m := lift (series_cmp F.geb rate vt) in
     let* w := deref working_df in
     let picked := bool_index w m in
     let* sorted := lift (sort_values picked [("SellThroughRate", false)]) in
     let* insights := lift (select_columns (reset_index sorted) fast_moving_columns) in
     let* _ := fast_moving_report insights in
     ret insights).
Proof.
  apply writes_only_bind.
  { apply writes_only_read_only. unfold sell_through_operands. auto 20 with frame. }
  intros operands. apply writes_only_bind; [apply writes_only_read_only; auto with frame|].
  intros rate. apply writes_only_bind; [apply writes_only_setitem_ref|].
  intros _. apply writes_only_read_only. cbv zeta. auto 20 with frame.
Qed.

(** The pre-filter either fails without a trace or puts its copy at a
    fresh place. *)
Lemma fast_moving_working_heap df mm (σ : heap) :
  (exists e, fast_moving_working df mm σ = (Raise e, σ)) \/
  (exists w, fast_moving_working df mm σ = (Ok (fresh (dom σ)), <[fresh (dom σ) := w]> σ)).
Proof.
  unfold fast_moving_working.
  assert (H : forall {A} (m : M A) (k : A -> M nat),
             read_only m ->
             (forall a, (exists e, k a σ = (Raise e, σ)) \/
                exists w, k a σ = (Ok (fresh (dom σ)), <[fresh (dom σ) := w]> σ)) ->
             (exists e, bind m k σ = (Raise e, σ)) \/
             exists w, bind m k σ = (Ok (fresh (dom σ)), <[fresh (dom σ) := w]> σ)).
  { intros A m k Hm Hk. unfold bind. specialize (Hm σ).
    destruct (m σ) as [[a|e] σ1]; simpl in Hm; subst σ1; [apply Hk|left; eauto]. }
  apply H; [auto with frame|intros s1].
  apply H; [auto with frame|intros m1].
  apply H; [auto with frame|intros s2].
  apply H; [auto with frame|intros m2].
  apply H; [auto with frame|intros d].
  right. eexists. reflexivity.
Qed.

(** C9.  No insight helper changes a frame that was there when it was
    called: after the call the input table is the table it was, without
    a [SellThroughRate] column of Fast-Moving's making; this holds
    whether the helper returns or raises. *)
Theorem insights_leave_frames_alone fsum (σ : heap) df l d q m :
  σ !! l = Some d ->
  snd (low_stock_profitable df q m σ) !! l = Some d /\
  snd (overstock_low_profit df q m σ) !! l = Some d /\
  snd (fast_moving_products df q m σ) !! l = Some d /\
  snd (brand_summary fsum df σ) !! l = Some d.
Proof.
  intros Hl.
  rewrite read_only_low_stock, read_only_overstock, read_only_brand_summary.
  repeat split; try exact Hl.
  unfold fast_moving_products.
  destruct (fast_moving_working_heap df m σ) as [[e H]|[w H]].
  - rewrite (bind_raise _ _ _ _ _ H). exact Hl.
  - rewrite (bind_ok _ _ _ _ _ H).
    assert (Hne : l <> fresh (dom σ)).
    { intros ->. pose proof (is_fresh (dom σ)) as Hf.
      apply Hf, elem_of_dom. eauto. }
    rewrite (writes_only_fast_moving_rest _ q _ l Hne).
    rewrite lookup_insert_ne by congruence. exact Hl.
Qed.

(** ** Group keys *)














(** ** Brand-Summary *)

Lemma mapM_ok {A B} (f : A -> result B) (g : A -> B) (l : list A) :
  (forall x, In x l -> f x = Ok (g x)) -> mapM f l = Ok (map g l).
Proof.
  induction l as [|x l IH]; simpl; intros H; [reflexivity|].
  rewrite (H x) by auto. simpl. rewrite IH by auto. reflexivity.
Qed.

Lemma agg_row_ok fsum d k :
  enriched d = true ->
  agg_row fsum d "Product_Brand" brand_summary_spec k = Ok (summary_row fsum d k).
Proof.
  intros He. unfold agg_row, summary_row, brand_summary_spec.
  assert (Hnum : forall c, existsb (String.eqb c) numeric_columns = true ->
            List.Forall (fun r => is_num (at_ r c) = true)
              (group_rows d "Product_Brand" k)).
  { intros c Hc. apply Forall_filter_in, (enriched_num _ _ He), Hc. }
  cbn [mapM fst snd aggregate].
  rewrite (floats_map (fun r => at_ r "Profit")) by (apply Hnum; reflexivity).
  rewrite (floats_map (fun r => at_ r "StockValue")) by (apply Hnum; reflexivity).
  rewrite (floats_map (fun r => at_ r "ProfitMargin")) by (apply Hnum; reflexivity).
  reflexivity.
Qed.

Lemma brand_summary_run fsum (σ : heap) df d :
  σ !! df = Some d -> enriched d = true ->
  brand_summary fsum df σ =
    (Ok (mkFrame summary_columns
           (nargsort "TotalProfit" false
              (map (summary_row fsum d) (group_keys d "Product_Brand")))), σ).
Proof.
  intros Hd He. unfold brand_summary.
  erewrite bind_ok by (apply deref_ok, Hd).
  erewrite bind_ok.
  2:{ apply lift_ok. unfold groupby_agg.
      rewrite (enriched_has _ _ He) by reflexivity. cbn [negb].
      rewrite find_none_forallb.
      2:{ unfold brand_summary_spec. cbn [forallb fst snd].
          rewrite !(enriched_has _ _ He) by reflexivity. reflexivity. }
      rewrite (mapM_ok _ (summary_row fsum d)) by (intros; apply agg_row_ok, He).
      reflexivity. }
  erewrite bind_ok by (apply lift_ok, sort_values_single; reflexivity).
  reflexivity.
Qed.











(** ** The loader *)

Lemma Forall_true {A} (P : A -> Prop) (l : list A) : (forall x, P x) -> List.Forall P l.
Proof. intros H. induction l; constructor; auto. Qed.

(** *** Labels and columns *)

Lemma assoc_replace_eq c col l : assoc c (replace c col l) = Some col.
Proof.
  induction l as [|kv l IH]; cbn [replace assoc fst snd].
  - rewrite String.eqb_refl. reflexivity.
  - destruct (String.eqb (fst kv) c) eqn:E; cbn [assoc fst snd].
    + rewrite String.eqb_refl. reflexivity.
    + rewrite E. exact IH.
Qed.

Lemma assoc_replace_ne c c' col l : c <> c' -> assoc c' (replace c col l) = assoc c' l.
Proof.
  intros Hne. assert (Hc : String.eqb c c' = false) by (apply String.eqb_neq, Hne).
  induction l as [|kv l IH]; cbn [replace assoc fst snd].
  - rewrite Hc. reflexivity.
  - destruct (String.eqb (fst kv) c) eqn:E; cbn [assoc fst snd].
    + apply String.eqb_eq in E. rewrite E, Hc. reflexivity.
    + rewrite IH. reflexivity.
Qed.

Lemma assoc_none c l : assoc c l = None <-> ~ In c (map fst l).
Proof.
  induction l as [|kv l IH]; cbn [assoc map In]; [tauto|].
  destruct (String.eqb (fst kv) c) eqn:E.
  - apply String.eqb_eq in E. split; [discriminate|]. intros H. exfalso. apply H. auto.
  - apply String.eqb_neq in E. rewrite IH. tauto.
Qed.

Lemma has_label_labels df c : has_label df c = bool_decide (c ∈ labels df).
Proof.
  unfold has_label, labels. destruct (assoc c (series df)) eqn:E; symmetry.
  - apply bool_decide_eq_true, list_elem_of_In.
    destruct (in_dec string_dec c (map fst (series df))) as [H|H]; [exact H|].
    apply assoc_none in H. congruence.
  - apply bool_decide_eq_false. intros H%list_elem_of_In. apply assoc_none in E. auto.
Qed.

Lemma labels_replace c col l :
  map fst (replace c col l) =
  match assoc c l with
  | Some _ => map fst l
  | None => (map fst l ++ [c])%list
  end.
Proof.
  induction l as [|kv l IH]; cbn [replace assoc map fst snd app]; [reflexivity|].
  destruct (String.eqb (fst kv) c) eqn:E; cbn [map fst].
  - apply String.eqb_eq in E. rewrite E. reflexivity.
  - rewrite IH. destruct (assoc c l); reflexivity.
Qed.

Lemma assoc_map (f : column -> column) c l :
  assoc c (map (fun kv => (fst kv, f (snd kv))) l) = option_map f (assoc c l).
Proof.
  induction l as [|kv l IH]; cbn [map assoc fst snd]; [reflexivity|].
  destruct (String.eqb (fst kv) c); [reflexivity|exact IH].
Qed.

(** *** [str.strip] *)















(** *** Lines 34 to 37 *)

Lemma str_accessor_ok_spec os :
  str_accessor_ok os = negb (existsb is_bool os && negb (existsb is_text os)).
Proof.
  unfold str_accessor_ok.
  assert (H : forall l,
            forallb is_bool (List.filter (fun o => negb (is_missing o)) l) =
            negb (existsb is_text l)).
  { induction l as [|o l IH]; [reflexivity|]. destruct o; cbn; rewrite ?IH; reflexivity. }
  assert (H' : forall l, List.filter (fun o => negb (is_missing o)) l = [] ->
             existsb is_bool l = false).
  { induction l as [|o l IH]; [reflexivity|]. destruct o; cbn; try discriminate. exact IH. }
  destruct (List.filter (fun o => negb (is_missing o)) os) as [|o l] eqn:E.
  - rewrite (H' _ E). reflexivity.
  - rewrite <- E, H. destruct (existsb is_text os) eqn:Et.
    + rewrite andb_false_r. reflexivity.
    + assert (Hb : existsb is_bool os = true); [|rewrite Hb; reflexivity].
      assert (Hin : In o (List.filter (fun o => negb (is_missing o)) os))
        by (rewrite E; left; reflexivity).
      apply filter_In in Hin as [Hin Hm].
      apply existsb_exists. exists o. split; [exact Hin|].
      destruct o; [|discriminate Hm|reflexivity].
      exfalso. assert (existsb is_text os = true); [|congruence].
      apply existsb_exists. eexists. split; [exact Hin|reflexivity].
Qed.

Lemma strip_entry_no_object l :
  List.filter (fun kv => is_object (snd kv)) l = [] -> map strip_entry l = l.
Proof.
  induction l as [|[k col] l IH]; [reflexivity|]. cbn [List.filter map snd].
  destruct col; cbn [is_object]; try discriminate; intros H; rewrite (IH H); reflexivity.
Qed.

Lemma strip_strings_ok df :
  has_boolean_objects df = false ->
  strip_strings df = Ok (mkColumns (map strip_entry (series df))).
Proof.
  intros Hb. unfold strip_strings.
  destruct (0 <? length (List.filter (fun kv => is_object (snd kv)) (series df)))%nat eqn:E.
  - erewrite mapM_ok; [reflexivity|].
    intros kv Hkv. unfold strip_entry, stripped.
    destruct kv as [k col]. cbn [fst snd]. destruct col as [ns|xs|bs|os]; try reflexivity.
    cbn [is_object str_strip]. rewrite str_accessor_ok_spec.
    unfold has_boolean_objects in Hb.
    assert (Hk : boolean_objects (ObjCol os) = false).
    { destruct (boolean_objects (ObjCol os)) eqn:Hx; [|reflexivity].
      assert (existsb (fun kv => boolean_objects (snd kv)) (series df) = true); [|congruence].
      apply existsb_exists. exists (k, ObjCol os). auto. }
    cbn [boolean_objects] in Hk. rewrite Hk. reflexivity.
  - destruct df as [l]. cbn [series] in *. f_equal. f_equal.
    apply Nat.ltb_ge in E. symmetry. apply strip_entry_no_object.
    destruct (List.filter (fun kv => is_object (snd kv)) l); [reflexivity|simpl in E; lia].
Qed.

Lemma mapM_raise {A B} (f : A -> result B) (l : list A) e x :
  (forall y, In y l -> (exists b, f y = Ok b) \/ f y = Raise e) ->
  In x l -> f x = Raise e -> mapM f l = Raise e.
Proof.
  intros Hall Hin Hx. induction l as [|y l IH]; [destruct Hin|].
  cbn [mapM]. destruct (Hall y (or_introl eq_refl)) as [[b Hb]|Hy].
  - rewrite Hb. cbn [rbind]. destruct Hin as [->|Hin]; [congruence|].
    rewrite IH; [reflexivity| |exact Hin]. intros z Hz. apply Hall. right. exact Hz.
  - rewrite Hy. reflexivity.
Qed.

Lemma strip_strings_raises df :
  has_boolean_objects df = true -> strip_strings df = Raise AttributeError.
Proof.
  intros Hb. unfold has_boolean_objects in Hb.
  apply existsb_exists in Hb as ([k col] & Hin & Hk). cbn [snd] in Hk.
  destruct col as [ns|xs|bs|os]; try discriminate Hk.
  unfold strip_strings.
  assert (E : (0 <? length (List.filter (fun kv => is_object (snd kv)) (series df)))%nat = true).
  { apply Nat.ltb_lt.
    assert (Hf : In (k, ObjCol os) (List.filter (fun kv => is_object (snd kv)) (series df)))
      by (apply filter_In; auto).
    destruct (List.filter (fun kv => is_object (snd kv)) (series df)); [destruct Hf|simpl; lia]. }
  rewrite E.
  erewrite (mapM_raise _ _ AttributeError (k, ObjCol os)); [reflexivity| |exact Hin|].
  - intros [k' col'] _. cbn [fst snd]. destruct col' as [| | |os']; cbn [is_object str_strip]; eauto.
    destruct (str_accessor_ok os'); eauto.
  - cbn [fst snd is_object str_strip]. rewrite str_accessor_ok_spec.
    cbn [boolean_objects] in Hk. rewrite Hk. reflexivity.
Qed.

(** *** Lines 40 to 42 *)

Lemma lookup_map {A B} (f : A -> B) (l : list A) i :
  map f l !! i = option_map f (l !! i).
Proof.
  revert i. induction l as [|x l IH]; intros [|i]; cbn; try reflexivity. apply IH.
Qed.

Lemma all_ints_length vs ns : all_ints vs = Some ns -> length ns = length vs.
Proof.
  revert ns. induction vs as [|v vs IH]; intros ns; cbn [all_ints].
  - intros [= <-]. reflexivity.
  - destruct (parsed_int v); [|discriminate].
    destruct (all_ints vs) as [ns'|]; [|discriminate].
    intros [= <-]. cbn [length]. rewrite (IH ns' eq_refl). reflexivity.
Qed.


Section Coercion.

Variable to_number : string -> option number.

Lemma to_numeric_not_object col : is_object (to_numeric to_number col) = false.
Proof.
  destruct col as [ns|xs|bs|os]; cbn [to_numeric is_object]; try reflexivity.
  destruct (all_ints (map (parse to_number) os)); reflexivity.
Qed.

Lemma to_numeric_numeric col : is_object col = false -> to_numeric to_number col = col.
Proof. destruct col; [reflexivity..|discriminate]. Qed.

Lemma to_numeric_idem col :
  to_numeric to_number (to_numeric to_number col) = to_numeric to_number col.
Proof. apply to_numeric_numeric, to_numeric_not_object. Qed.

Lemma to_numeric_length col :
  length (cells (to_numeric to_number col)) = length (cells col).
Proof.
  destruct col as [ns|xs|bs|os]; cbn [to_numeric]; try reflexivity.
  destruct (all_ints (map (parse to_number) os)) as [ns|] eqn:E; cbn [cells].
  - rewrite !length_map, (all_ints_length _ _ E), length_map. reflexivity.
  - rewrite !length_map. reflexivity.
Qed.

Lemma to_numeric_boolean col :
  is_bool_column (to_numeric to_number col) = is_bool_column col.
Proof.
  destruct col as [ns|xs|bs|os]; cbn [to_numeric is_bool_column]; try reflexivity.
  destruct (all_ints (map (parse to_number) os)); reflexivity.
Qed.

Lemma assoc_coerce_column df a c :
  assoc c (series (coerce_column to_number df a)) =
  if String.eqb a c then option_map (to_numeric to_number) (assoc c (series df))
  else assoc c (series df).
Proof.
  unfold coerce_column. destruct (String.eqb a c) eqn:E.
  - apply String.eqb_eq in E. subst a.
    destruct (assoc c (series df)) as [col|] eqn:Ha; cbn [assign_column series option_map].
    + apply assoc_replace_eq.
    + exact Ha.
  - apply String.eqb_neq in E.
    destruct (assoc a (series df)); [apply assoc_replace_ne, E|reflexivity].
Qed.

Lemma assoc_coerce_columns cols df c :
  assoc c (series (fold_left (coerce_column to_number) cols df)) =
  if bool_decide (c ∈ cols) then option_map (to_numeric to_number) (assoc c (series df))
  else assoc c (series df).
Proof.
  revert df. induction cols as [|a cols IH]; intros df; [reflexivity|].
  cbn [fold_left]. rewrite IH, assoc_coerce_column.
  destruct (String.eqb a c) eqn:E.
  - apply String.eqb_eq in E. subst a.
    rewrite (bool_decide_eq_true_2 (c ∈ c :: cols)) by constructor.
    destruct (bool_decide (c ∈ cols)); [|reflexivity].
    destruct (assoc c (series df)); cbn [option_map]; [|reflexivity].
    rewrite to_numeric_idem. reflexivity.
  - apply String.eqb_neq in E.
    destruct (bool_decide (c ∈ cols)) eqn:Hc.
    + rewrite (bool_decide_eq_true_2 (c ∈ a :: cols)); [reflexivity|].
      apply bool_decide_eq_true in Hc. constructor. exact Hc.
    + rewrite (bool_decide_eq_false_2 (c ∈ a :: cols)); [reflexivity|].
      apply bool_decide_eq_false in Hc. intros [->|H]%elem_of_cons; [congruence|auto].
Qed.

Lemma labels_coerce_columns cols df :
  labels (fold_left (coerce_column to_number) cols df) = labels df.
Proof.
  revert df. induction cols as [|a cols IH]; intros df; [reflexivity|].
  cbn [fold_left]. rewrite IH. unfold coerce_column.
  destruct (assoc a (series df)) as [col|] eqn:E; [|reflexivity].
  unfold labels, assign_column. cbn [series]. rewrite labels_replace, E. reflexivity.
Qed.

Lemma assoc_cleaned raw c :
  assoc c (series (cleaned to_number raw)) =
  if bool_decide (c ∈ NUMERIC_COLUMNS)
  then option_map (fun col => to_numeric to_number (stripped col)) (assoc c (series raw))
  else option_map stripped (assoc c (series raw)).
Proof.
  unfold cleaned. rewrite assoc_coerce_columns. cbn [series].
  change (map strip_entry (series raw))
    with (map (fun kv => (fst kv, stripped (snd kv))) (series raw)).
  rewrite assoc_map.
  destruct (bool_decide (c ∈ NUMERIC_COLUMNS)); [|reflexivity].
  destruct (assoc c (series raw)); reflexivity.
Qed.

Lemma labels_cleaned raw : labels (cleaned to_number raw) = labels raw.
Proof.
  unfold cleaned. rewrite labels_coerce_columns. unfold labels. cbn [series].
  rewrite map_map. reflexivity.
Qed.

Lemma has_label_cleaned raw c : has_label (cleaned to_number raw) c = has_label raw c.
Proof. rewrite !has_label_labels, labels_cleaned. reflexivity. Qed.

(** A listed numeric column is numeric after line 42. *)
Lemma cleaned_numeric raw c col :
  In c NUMERIC_COLUMNS -> assoc c (series (cleaned to_number raw)) = Some col ->
  is_object col = false.
Proof.
  intros Hc. rewrite assoc_cleaned, bool_decide_eq_true_2 by (apply list_elem_of_In, Hc).
  destruct (assoc c (series raw)); [|discriminate].
  intros [= <-]. apply to_numeric_not_object.
Qed.

Lemma stripped_boolean col : is_bool_column (stripped col) = is_bool_column col.
Proof. destruct col; reflexivity. Qed.

Lemma is_boolean_cleaned raw c : is_boolean (cleaned to_number raw) c = is_boolean raw c.
Proof.
  unfold is_boolean. rewrite assoc_cleaned.
  destruct (bool_decide (c ∈ NUMERIC_COLUMNS)); destruct (assoc c (series raw)) as [col|];
    cbn [option_map]; try reflexivity.
  - rewrite to_numeric_boolean, stripped_boolean. reflexivity.
  - rewrite stripped_boolean. reflexivity.
Qed.

End Coercion.

(** *** Lines 44 to 47 *)

Lemma int64_wrap n : int64 n = wrap n.
Proof.
  unfold int64, wrap. cbv zeta.
  change (2 ^ 63)%Z with 9223372036854775808%Z.
  change (2 ^ 64)%Z with 18446744073709551616%Z.
  pose proof (Z.mod_pos_bound n 18446744073709551616 eq_refl) as Hm.
  rewrite <- Z.add_mod_idemp_l by discriminate.
  set (m := (n mod 18446744073709551616)%Z) in *.
  destruct (Z.ltb_spec m 9223372036854775808).
  - rewrite Z.mod_small by lia. lia.
  - replace (m + 9223372036854775808)%Z
      with ((m - 9223372036854775808) + 1 * 18446744073709551616)%Z by lia.
    rewrite Z.mod_add by discriminate. rewrite Z.mod_small by lia. lia.
Qed.

Lemma lookup_zip_with_both {A B C} (f : A -> B -> C) (l : list A) (k : list B) i x y :
  l !! i = Some x -> k !! i = Some y -> zip_with f l k !! i = Some (f x y).
Proof. intros Hx Hy. apply lookup_zip_with_Some. eauto. Qed.

Lemma and_is_product (p q : bool) :
  NInt (Z.b2z (p && q)) = times (NInt (Z.b2z p)) (NInt (Z.b2z q)).
Proof. destruct p, q; reflexivity. Qed.

Ltac entry_of_zip Ex Ey :=
  cbn [value]; rewrite ?lookup_map;
  erewrite lookup_zip_with_both by (rewrite ?lookup_map, ?Ex, ?Ey; reflexivity);
  cbn [option_map minus times float_of]; rewrite ?int64_wrap, ?and_is_product; reflexivity.

Lemma col_sub_value a b pd i u v :
  col_sub a b = Ok pd -> value a i = Some u -> value b i = Some v ->
  value pd i = Some (minus u v).
Proof.
  intros H Hu Hv.
  destruct a as [x|x|x|x], b as [y|y|y|y]; try discriminate;
    injection H as <-; cbn [value as_ints as_floats] in *;
    destruct (x !! i) as [p|] eqn:Ex; try discriminate;
    destruct (y !! i) as [q|] eqn:Ey; try discriminate;
    injection Hu as <-; injection Hv as <-; entry_of_zip Ex Ey.
Qed.

Lemma col_mul_value a b pd i u v :
  col_mul a b = Ok pd -> value a i = Some u -> value b i = Some v ->
  value pd i = Some (times u v).
Proof.
  intros H Hu Hv.
  destruct a as [x|x|x|x], b as [y|y|y|y]; try discriminate;
    injection H as <-; cbn [value as_ints as_floats] in *;
    destruct (x !! i) as [p|] eqn:Ex; try discriminate;
    destruct (y !! i) as [q|] eqn:Ey; try discriminate;
    injection Hu as <-; injection Hv as <-; entry_of_zip Ex Ey.
Qed.

Lemma col_div_value a b ratio i u v :
  col_div a b = Ok ratio -> value a i = Some u -> value b i = Some v ->
  ratio !! i = Some (F.div (float_of u) (float_of v)).
Proof.
  intros H Hu Hv.
  destruct a as [x|x|x|x], b as [y|y|y|y]; try discriminate;
    injection H as <-; cbn [value as_ints as_floats] in *;
    rewrite ?lookup_map in Hu, Hv;
    destruct (x !! i) as [p|] eqn:Ex; try discriminate;
    destruct (y !! i) as [q|] eqn:Ey; try discriminate;
    injection Hu as <-; injection Hv as <-;
    apply lookup_zip_with_Some;
    do 2 eexists; (split; [reflexivity|]); rewrite ?lookup_map, ?Ex, ?Ey; split; reflexivity.
Qed.

(** Subtraction fails on two columns of booleans and on nothing else
    that is numeric; its result is a column of integers or of floats. *)
Lemma col_sub_numeric a b :
  is_object a = false -> is_object b = false ->
  if is_bool_column a && is_bool_column b then col_sub a b = Raise TypeError
  else exists pd, col_sub a b = Ok pd /\ is_object pd = false /\ is_bool_column pd = false.
Proof.
  destruct a, b; try discriminate; intros _ _; cbn; eauto.
Qed.

Lemma col_mul_numeric a b :
  is_object a = false -> is_object b = false ->
  exists pd, col_mul a b = Ok pd /\ is_object pd = false.
Proof. destruct a, b; try discriminate; intros _ _; cbn; eauto. Qed.


(** The derived columns, once the four columns they read are there. *)
Lemma add_derived_columns_run df selling buying sold quantity :
  assoc "Average_Selling_Price" (series df) = Some selling ->
  assoc "Average_Buying_Price" (series df) = Some buying ->
  assoc "Total_Sold" (series df) = Some sold ->
  assoc "Available_Quantity" (series df) = Some quantity ->
  add_derived_columns df =
  let! price_diff := col_sub selling buying in
  let! profit := col_mul price_diff sold in
  let! stock_value := col_mul quantity buying in
  let! ratio := col_div price_diff buying in
  Ok (mkColumns
        (replace "ProfitMargin" (FloatCol (map (fun x => F.mul x (F.of_Z 100)) ratio))
           (replace "StockValue" stock_value (replace "Profit" profit (series df))))).
Proof.
  intros E1 E2 E3 E4. unfold add_derived_columns, column_of, assign_column.
  rewrite E1, E2, E3. cbn [rbind series].
  destruct (col_sub selling buying) as [pd|e]; [|reflexivity]. cbn [rbind].
  destruct (col_mul pd sold) as [profit|e]; [|reflexivity]. cbn [rbind].
  rewrite !assoc_replace_ne by discriminate. rewrite E4, E2. cbn [rbind].
  destruct (col_mul quantity buying) as [sv|e]; [|reflexivity]. cbn [rbind].
  rewrite !assoc_replace_ne by discriminate. rewrite E2. cbn [rbind].
  reflexivity.
Qed.

(** The first of the four columns that is absent is the one the
    [KeyError] names, unless the subtraction of line 44 has failed
    before. *)
Lemma add_derived_columns_key_error df :
  boolean_prices df = false ->
  forall before c after,
    required_columns = (before ++ c :: after)%list ->
    forallb (has_label df) before = true -> has_label df c = false ->
    (forall col, In col
        [ "Average_Selling_Price"; "Average_Buying_Price"; "Total_Sold"; "Available_Quantity" ] ->
        forall x, assoc col (series df) = Some x -> is_object x = false) ->
    add_derived_columns df = Raise (KeyError c).
Proof.
  intros Hbp before c after Hl Hb Hc Hnum.
  unfold boolean_prices, is_boolean in Hbp. unfold has_label in Hc.
  assert (K : forall k, In k before -> assoc k (series df) <> None).
  { intros k Hk. rewrite forallb_forall in Hb. specialize (Hb k Hk). unfold has_label in Hb.
    destruct (assoc k (series df)); [discriminate|discriminate Hb]. }
  unfold add_derived_columns, column_of, assign_column.
  destruct (assoc c (series df)) eqn:Ec; [discriminate Hc|].
  destruct before as [|b1 before]; [injection Hl as <- _; rewrite Ec; reflexivity|].
  injection Hl as <- Hl.
  destruct (assoc "Average_Selling_Price" (series df)) as [selling|] eqn:E1;
    [|exfalso; apply (K "Average_Selling_Price"); [left; reflexivity|exact E1]].
  destruct before as [|b2 before]; [injection Hl as <- _; rewrite Ec; reflexivity|].
  injection Hl as <- Hl.
  destruct (assoc "Average_Buying_Price" (series df)) as [buying|] eqn:E2;
    [|exfalso; apply (K "Average_Buying_Price"); [right; left; reflexivity|exact E2]].
  cbn [rbind].
  pose proof (col_sub_numeric selling buying
                (Hnum "Average_Selling_Price" ltac:(simpl; auto) _ E1)
                (Hnum "Average_Buying_Price" ltac:(simpl; auto) _ E2)) as Hs.
  assert (Hbb : is_bool_column selling && is_bool_column buying = false).
  { destruct selling, buying; try reflexivity. discriminate Hbp. }
  rewrite Hbb in Hs. destruct Hs as (pd & -> & Hpd & _). cbn [rbind].
  destruct before as [|b3 before]; [injection Hl as <- _; rewrite Ec; reflexivity|].
  injection Hl as <- Hl.
  destruct (assoc "Total_Sold" (series df)) as [sold|] eqn:E3;
    [|exfalso; apply (K "Total_Sold"); [right; right; left; reflexivity|exact E3]].
  cbn [rbind].
  destruct (col_mul_numeric pd sold Hpd (Hnum "Total_Sold" ltac:(simpl; auto) _ E3))
    as (profit & -> & _).
  cbn [rbind series]. rewrite !assoc_replace_ne by discriminate.
  destruct before as [|b4 before]; [injection Hl as <- _; rewrite Ec; reflexivity|].
  injection Hl as <- Hl. destruct before; discriminate Hl.
Qed.




Lemma col_mul_result a b pd : col_mul a b = Ok pd -> is_object pd = false.
Proof. destruct a, b; cbn; intros H; try discriminate H; injection H as <-; reflexivity. Qed.

(** What [add_derived_columns] has done when it returns, and what it
    can raise. *)
Lemma add_derived_columns_inv df out :
  add_derived_columns df = Ok out ->
  exists selling buying sold quantity price_diff profit stock_value ratio,
    assoc "Average_Selling_Price" (series df) = Some selling /\
    assoc "Average_Buying_Price" (series df) = Some buying /\
    assoc "Total_Sold" (series df) = Some sold /\
    assoc "Available_Quantity" (series df) = Some quantity /\
    col_sub selling buying = Ok price_diff /\
    col_mul price_diff sold = Ok profit /\
    col_mul quantity buying = Ok stock_value /\
    col_div price_diff buying = Ok ratio /\
    series out =
      replace "ProfitMargin" (FloatCol (map (fun x => F.mul x (F.of_Z 100)) ratio))
        (replace "StockValue" stock_value (replace "Profit" profit (series df))).
Proof.
  intros H.
  destruct (assoc "Average_Selling_Price" (series df)) as [selling|] eqn:E1.
  2:{ unfold add_derived_columns, column_of in H. rewrite E1 in H. discriminate H. }
  destruct (assoc "Average_Buying_Price" (series df)) as [buying|] eqn:E2.
  2:{ unfold add_derived_columns, column_of in H. rewrite E1, E2 in H. discriminate H. }
  destruct (assoc "Total_Sold" (series df)) as [sold|] eqn:E3.
  2:{ unfold add_derived_columns, column_of in H. rewrite E1, E2, E3 in H. cbn [rbind] in H.
      destruct (col_sub selling buying); discriminate H. }
  destruct (assoc "Available_Quantity" (series df)) as [quantity|] eqn:E4.
  2:{ unfold add_derived_columns, column_of, assign_column in H.
      rewrite E1, E2, E3 in H. cbn [rbind series] in H.
      destruct (col_sub selling buying) as [pd|]; [|discriminate H]. cbn [rbind] in H.
      destruct (col_mul pd sold); [|discriminate H]. cbn [rbind] in H.
      rewrite assoc_replace_ne, E4 in H by discriminate. discriminate H. }
  rewrite (add_derived_columns_run df _ _ _ _ E1 E2 E3 E4) in H.
  destruct (col_sub selling buying) as [pd|] eqn:Hs; [|discriminate H]. cbn [rbind] in H.
  destruct (col_mul pd sold) as [profit|] eqn:Hp; [|discriminate H]. cbn [rbind] in H.
  destruct (col_mul quantity buying) as [sv|] eqn:Hv; [|discriminate H]. cbn [rbind] in H.
  destruct (col_div pd buying) as [ratio|] eqn:Hr; [|discriminate H]. cbn [rbind] in H.
  injection H as <-. exists selling, buying, sold, quantity, pd, profit, sv, ratio.
  cbn [series]. auto 10.
Qed.


Lemma labels_derived df profit stock_value margin :
  map fst (replace "ProfitMargin" margin
             (replace "StockValue" stock_value (replace "Profit" profit (series df)))) =
  (labels df ++
   (if has_label df "Profit" then [] else ["Profit"]) ++
   (if has_label df "StockValue" then [] else ["StockValue"]) ++
   (if has_label df "ProfitMargin" then [] else ["ProfitMargin"]))%list.
Proof.
  rewrite !labels_replace, !assoc_replace_ne by discriminate. unfold has_label, labels.
  destruct (assoc "Profit" (series df)), (assoc "StockValue" (series df)),
    (assoc "ProfitMargin" (series df));
    cbn [app]; rewrite <- ?app_assoc, ?app_nil_r; reflexivity.
Qed.

Lemma replace_nonempty c col l : replace c col l <> [].
Proof. destruct l as [|kv l]; cbn [replace]; [|destruct (String.eqb (fst kv) c)]; discriminate. Qed.

(** *** The rows of a table *)

Lemma at_row_at df i c :
  at_ (row_at df i) c =
  match assoc c (series df) with
  | Some col => nth i (cells col) NA
  | None => NA
  end.
Proof.
  unfold row_at. induction (series df) as [|kv l IH]; cbn [foldr assoc].
  - unfold at_. rewrite lookup_empty. reflexivity.
  - destruct (String.eqb (fst kv) c) eqn:E.
    + apply String.eqb_eq in E. subst c. apply at_insert.
    + apply String.eqb_neq in E. rewrite at_insert_ne by exact E. exact IH.
Qed.

Lemma nth_cells_value col i v : value col i = Some v -> nth i (cells col) NA = CNum (float_of v).
Proof.
  rewrite nth_lookup.
  destruct col as [x|x|x|x]; cbn [value cells]; try discriminate; rewrite lookup_map;
    destruct (x !! i); try discriminate; intros [= <-]; reflexivity.
Qed.


Lemma lookup_rows_records df i r : rows (records df) !! i = Some r -> r = row_at df i.
Proof.
  cbn [records rows]. rewrite lookup_map.
  destruct (seq 0 (height df) !! i) as [k|] eqn:E; [|discriminate].
  apply lookup_seq in E as [-> _]. intros [= <-]. reflexivity.
Qed.


(** *** The whole loader *)

Section LoadFacts.

Variable to_number : string -> option number.

Lemma load_columns_run env p raw :
  path_exists env p = true -> read_csv env p = Ok raw ->
  load_columns to_number env p =
  if has_boolean_objects raw then Raise AttributeError
  else add_derived_columns (cleaned to_number raw).
Proof.
  intros Hp Hr. unfold load_columns. rewrite Hp, Hr. cbn [negb rbind].
  destruct (has_boolean_objects raw) eqn:Hb.
  - rewrite (strip_strings_raises _ Hb). reflexivity.
  - rewrite (strip_strings_ok _ Hb). cbn [rbind]. cbv zeta. unfold cleaned. reflexivity.
Qed.

Lemma load_columns_inv env p df :
  load_columns to_number env p = Ok df ->
  exists raw,
    path_exists env p = true /\ read_csv env p = Ok raw /\ has_boolean_objects raw = false /\
    add_derived_columns (cleaned to_number raw) = Ok df.
Proof.
  intros H.
  destruct (path_exists env p) eqn:Hp.
  2:{ unfold load_columns in H. rewrite Hp in H. discriminate H. }
  destruct (read_csv env p) as [raw|e] eqn:Hr.
  2:{ unfold load_columns in H. rewrite Hp, Hr in H. discriminate H. }
  rewrite (load_columns_run env p raw Hp Hr) in H.
  destruct (has_boolean_objects raw) eqn:Hb; [discriminate H|].
  exists raw. auto.
Qed.

Lemma load_inv env p d :
  load_inventory_data to_number env p = Ok d ->
  exists df, load_columns to_number env p = Ok df /\ d = records df.
Proof.
  unfold load_inventory_data.
  destruct (load_columns to_number env p) as [df|]; [|discriminate].
  intros [= <-]. eauto.
Qed.

(** The column under a label of a loaded table. *)
Lemma assoc_loaded raw df c :
  add_derived_columns (cleaned to_number raw) = Ok df ->
  ~ In c derived_columns ->
  assoc c (series df) = assoc c (series (cleaned to_number raw)).
Proof.
  intros (? & ? & ? & ? & ? & ? & ? & ? & _ & _ & _ & _ & _ & _ & _ & _ & ->)%add_derived_columns_inv Hc.
  rewrite !assoc_replace_ne; [reflexivity|..]; intros <-; apply Hc; simpl; auto.
Qed.

Lemma derived_loaded raw df c :
  add_derived_columns (cleaned to_number raw) = Ok df ->
  In c derived_columns ->
  exists col, assoc c (series df) = Some col /\ is_object col = false.
Proof.
  intros (? & ? & ? & ? & pd & profit & sv & ratio & _ & _ & _ & _ & _ & Hp & Hv & _ & ->)%add_derived_columns_inv Hc.
  destruct Hc as [<-|[<-|[<-|[]]]].
  - rewrite !assoc_replace_ne by discriminate. rewrite assoc_replace_eq.
    eexists. split; [reflexivity|]. apply (col_mul_result _ _ _ Hp).
  - rewrite !assoc_replace_ne by discriminate. rewrite assoc_replace_eq.
    eexists. split; [reflexivity|]. apply (col_mul_result _ _ _ Hv).
  - rewrite assoc_replace_eq. eexists. split; reflexivity.
Qed.

Lemma filter_absent (f : string -> bool) a b c :
  List.filter (fun x => negb (f x)) [a; b; c] =
  ((if f a then [] else [a]) ++ (if f b then [] else [b]) ++
   (if f c then [] else [c]))%list.
Proof. cbn [List.filter]. destruct (f a), (f b), (f c); reflexivity. Qed.

Lemma labels_loaded raw df :
  add_derived_columns (cleaned to_number raw) = Ok df ->
  labels df =
  (labels raw ++
   List.filter (fun c => negb (has_label raw c)) ["Profit"; "StockValue"; "ProfitMargin"])%list.
Proof.
  intros (? & ? & ? & ? & ? & ? & ? & ? & _ & _ & _ & _ & _ & _ & _ & _ & H)%add_derived_columns_inv.
  unfold labels at 1. rewrite H, labels_derived, labels_cleaned, !has_label_cleaned.
  rewrite filter_absent. reflexivity.
Qed.

Lemma numeric_not_derived c : In c NUMERIC_COLUMNS -> ~ In c derived_columns.
Proof.
  intros H1 H2. simpl in H2. destruct H2 as [<-|[<-|[<-|[]]]];
    simpl in H1; repeat (destruct H1 as [H1|H1]; [discriminate H1|]); exact H1.
Qed.


End LoadFacts.

Lemma sample_columns_loaded :
  load_columns sample_to_number sample_env "data/inventory.csv" = Ok sample_columns.
Proof.
  unfold sample_columns.
  assert (H : match load_columns sample_to_number sample_env "data/inventory.csv" with
              | Ok _ => true
              | Raise _ => false
              end = true) by (vm_compute; reflexivity).
  destruct (load_columns sample_to_number sample_env "data/inventory.csv");
    [reflexivity|discriminate].
Qed.

Lemma sample_loaded :
  load_inventory_data sample_to_number sample_env "data/inventory.csv" = Ok sample_table.
Proof. unfold load_inventory_data. rewrite sample_columns_loaded. reflexivity. Qed.

Lemma of_Z_100 : F.of_Z 100 = S754_finite false 7036874417766400 (-46).
Proof. vm_compute. reflexivity. Qed.

(** A quotient over zero, as a percentage. *)
Lemma percentage_over_zero x z :
  F.is_zero z = true ->
  let margin := F.mul (F.div x z) (F.of_Z 100) in
  F.is_nan margin = F.is_nan x || F.is_zero x /\
  (F.is_nan margin = false -> F.is_inf margin = true).
Proof.
  intros Hz. rewrite of_Z_100.
  destruct z as [sb| | |]; try discriminate.
  destruct x as [ss|ss| |ss ms es]; destruct sb; try destruct ss; simpl; auto.
Qed.

(** The margin over a zero buying price, from a selling price that is a
    float. *)
Lemma margin_over_zero selling buying :
  F.is_zero buying = true ->
  let margin := F.mul (F.div (F.sub selling buying) buying) (F.of_Z 100) in
  F.is_nan margin = F.is_nan selling || F.is_zero selling.
Proof.
  intros Hz. rewrite of_Z_100.
  destruct buying as [sb| | |]; try discriminate.
  destruct selling as [ss|ss| |ss ms es]; destruct sb; try destruct ss; simpl; auto.
Qed.


Lemma required_numeric c : In c required_columns -> In c NUMERIC_COLUMNS.
Proof. simpl. intuition. Qed.




(** C1 (as the code has it).  In a loaded table the four columns the
    derived columns read and the three derived columns are numeric, and
    in every row the derived values are those of the documented
    formulas as numpy computes them: the difference and the products
    wrap around in [int64] between integers and are binary64 results as
    soon as a float takes part; the margin is always a binary64
    quotient.  The helpers read each of them as a float.  Over a buying
    price of zero the margin is the missing marker exactly when the
    price difference is zero or missing (for a selling price that is a
    float: when the selling price is); otherwise it is an infinity. *)
Theorem derived_columns_correct to_number env csv_path df i selling buying sold quantity :
  load_columns to_number env csv_path = Ok df ->
  entry df "Average_Selling_Price" i = Some selling ->
  entry df "Average_Buying_Price" i = Some buying ->
  entry df "Total_Sold" i = Some sold ->
  entry df "Available_Quantity" i = Some quantity ->
  let price_diff := minus selling buying in
  let margin := F.mul (F.div (float_of price_diff) (float_of buying)) (F.of_Z 100) in
  load_inventory_data to_number env csv_path = Ok (records df) /\
  (forall c, In c (required_columns ++ derived_columns) ->
     exists col, assoc c (series df) = Some col /\ is_object col = false) /\
  entry df "Profit" i = Some (times price_diff sold) /\
  entry df "StockValue" i = Some (times quantity buying) /\
  entry df "ProfitMargin" i = Some (NFloat margin) /\
  (forall r, rows (records df) !! i = Some r ->
     at_ r "Profit" = CNum (float_of (times price_diff sold)) /\
     at_ r "StockValue" = CNum (float_of (times quantity buying)) /\
     at_ r "ProfitMargin" = CNum margin) /\
  (F.is_zero (float_of buying) = true ->
     F.is_nan margin = F.is_nan (float_of price_diff) || F.is_zero (float_of price_diff) /\
     (F.is_nan margin = false -> F.is_inf margin = true) /\
     (forall x, selling = NFloat x -> F.is_nan margin = F.is_nan x || F.is_zero x)).
Proof.
  intros Hload Hs Hb Hq Ha. cbv zeta.
  destruct (load_columns_inv _ _ _ _ Hload) as (raw & _ & _ & _ & Hadd).
  destruct (add_derived_columns_inv _ _ Hadd)
    as (cs & cb & cq & ca & pd & profit & sv & ratio
        & E1 & E2 & E3 & E4 & Hsub & Hp & Hv & Hr & Hser).
  assert (Hprofit : assoc "Profit" (series df) = Some profit).
  { rewrite Hser, !assoc_replace_ne by discriminate. apply assoc_replace_eq. }
  assert (Hstock : assoc "StockValue" (series df) = Some sv).
  { rewrite Hser, !assoc_replace_ne by discriminate. apply assoc_replace_eq. }
  assert (Hmargin : assoc "ProfitMargin" (series df) =
                    Some (FloatCol (map (fun x => F.mul x (F.of_Z 100)) ratio))).
  { rewrite Hser. apply assoc_replace_eq. }
  unfold entry in Hs, Hb, Hq, Ha.
  rewrite Hser, !assoc_replace_ne in Hs, Hb, Hq, Ha by discriminate.
  rewrite E1 in Hs. rewrite E2 in Hb. rewrite E3 in Hq. rewrite E4 in Ha.
  pose proof (col_sub_value _ _ _ _ _ _ Hsub Hs Hb) as Vpd.
  pose proof (col_mul_value _ _ _ _ _ _ Hp Vpd Hq) as Vprofit.
  pose proof (col_mul_value _ _ _ _ _ _ Hv Ha Hb) as Vstock.
  pose proof (col_div_value _ _ _ _ _ _ Hr Vpd Hb) as Vratio.
  assert (Vmargin : value (FloatCol (map (fun x => F.mul x (F.of_Z 100)) ratio)) i =
                    Some (NFloat (F.mul (F.div (float_of (minus selling buying))
                                               (float_of buying)) (F.of_Z 100)))).
  { cbn [value]. rewrite lookup_map, Vratio. reflexivity. }
  split; [unfold load_inventory_data; rewrite Hload; reflexivity|].
  split.
  { intros c [Hc|Hc]%in_app_or.
    - rewrite (assoc_loaded _ _ _ c Hadd)
        by (apply numeric_not_derived, required_numeric, Hc).
      assert (Hh : exists col, assoc c (series (cleaned to_number raw)) = Some col).
      { simpl in Hc. destruct Hc as [<-|[<-|[<-|[<-|[]]]]]; eauto. }
      destruct Hh as (col & Hcol). exists col. split; [exact Hcol|].
      apply (cleaned_numeric to_number raw c col (required_numeric c Hc) Hcol).
    - apply (derived_loaded _ _ _ c Hadd Hc). }
  unfold entry. rewrite Hprofit, Hstock, Hmargin.
  split; [exact Vprofit|]. split; [exact Vstock|]. split; [exact Vmargin|].
  split.
  - intros r ->%lookup_rows_records. rewrite !at_row_at, Hprofit, Hstock, Hmargin.
    rewrite (nth_cells_value _ _ _ Vprofit), (nth_cells_value _ _ _ Vstock),
      (nth_cells_value _ _ _ Vmargin). auto.
  - intros Hz.
    destruct (percentage_over_zero (float_of (minus selling buying)) _ Hz) as [H1 H2].
    split; [exact H1|]. split; [exact H2|].
    intros x ->. destruct buying; apply margin_over_zero, Hz.
Qed.

(** C1 fails as stated: a product bought for nothing and sold for more
    has an infinite margin, not a missing one. *)
Lemma zero_cost_margin_is_not_missing :
  ~ (forall to_number env p d r,
       load_inventory_data to_number env p = Ok d -> In r (rows d) ->
       F.is_zero (val r "Average_Buying_Price") = true ->
       isna (at_ r "ProfitMargin") = true).
Proof.
  intros H.
  assert (E : forallb (fun r => implb (F.is_zero (val r "Average_Buying_Price"))
                                      (isna (at_ r "ProfitMargin")))
                      (rows sample_table) = true).
  { apply forallb_forall. intros r Hr.
    specialize (H sample_to_number sample_env "data/inventory.csv" sample_table r
                  sample_loaded Hr).
    destruct (F.is_zero (val r "Average_Buying_Price")); [|reflexivity].
    rewrite H; reflexivity. }
  vm_compute in E. discriminate E.
Qed.



(** ** The theorems at work on the small inventory *)

Lemma sample_enriched : enriched sample_table = true.
Proof. vm_compute. reflexivity. Qed.

Lemma sample_heap_lookup : sample_heap !! 0%nat = Some sample_table.
Proof. apply lookup_singleton_eq. Qed.





Lemma sample_integers_loaded :
  load_columns sample_to_number sample_env "data/integers.csv" = Ok sample_integers.
Proof.
  unfold sample_integers.
  assert (H : match load_columns sample_to_number sample_env "data/integers.csv" with
              | Ok _ => true
              | Raise _ => false
              end = true) by (vm_compute; reflexivity).
  destruct (load_columns sample_to_number sample_env "data/integers.csv");
    [reflexivity|discriminate].
Qed.

(** Two rows of integers.  The first product was bought for nothing and
    sold at 7: its margin is an infinity.  The second has 4000000000
    items bought at 4000000000: its stock value has left [int64]. *)
Lemma derived_columns_correct_witness :
  entry sample_integers "Profit" 0 = Some (NInt 21) /\
  (exists m, entry sample_integers "ProfitMargin" 0 = Some (NFloat m) /\
             F.is_nan m = false /\ F.is_inf m = true) /\
  entry sample_integers "StockValue" 1 = Some (NInt (-2446744073709551616)) /\
  (forall r, rows (records sample_integers) !! 1%nat = Some r ->
     at_ r "StockValue" = CNum (F.of_Z (-2446744073709551616)) /\
     at_ r "Profit" = CNum (F.of_Z 5)).
Proof.
  destruct (derived_columns_correct sample_to_number sample_env "data/integers.csv"
              sample_integers 0 (NInt 7) (NInt 0) (NInt 3) (NInt 2) sample_integers_loaded)
    as (_ & _ & P0 & _ & M0 & _ & Z0); try (vm_compute; reflexivity).
  destruct (derived_columns_correct sample_to_number sample_env "data/integers.csv"
              sample_integers 1 (NInt 4000000001) (NInt 4000000000) (NInt 5)
              (NInt 4000000000) sample_integers_loaded)
    as (_ & _ & _ & S1 & _ & R1 & _); try (vm_compute; reflexivity).
  destruct (Z0 eq_refl) as (Hnan & Hinf & _).
  split; [exact P0|]. split.
  { eexists. split; [exact M0|].
    assert (E : F.is_nan (F.mul (F.div (float_of (minus (NInt 7) (NInt 0)))
                                       (float_of (NInt 0))) (F.of_Z 100)) = false)
      by (rewrite Hnan; vm_compute; reflexivity).
    split; [exact E|exact (Hinf E)]. }
  split; [exact S1|].
  intros r Hr. destruct (R1 r Hr) as (Hp & Hs & _). split; [exact Hs|exact Hp].
Defined.





Lemma fast_moving_divisor_positive_witness :
  List.Forall safe_divisor
    (map (fun r => at_ r "Average_Stock_Level")
         (List.filter (fast_moving_prefilter (F.of_Z 40)) (rows sample_levels))).
Proof.
  apply (fast_moving_divisor_positive
           {[ 0%nat := sample_levels ]}
           (snd (fast_moving_working 0 (F.of_Z 40) {[ 0%nat := sample_levels ]}))
           (snd (fast_moving_working 0 (F.of_Z 40) {[ 0%nat := sample_levels ]}))
           0 (F.of_Z 40) 1
           (map (fun r => at_ r "Total_Sold")
                (List.filter (fast_moving_prefilter (F.of_Z 40)) (rows sample_levels))));
    vm_compute; reflexivity.
Defined.




Lemma insights_leave_frames_alone_witness :
  snd (fast_moving_products 0 float_1_2 (F.of_Z 40) sample_heap) !! 0%nat = Some sample_table.
Proof.
  apply (insights_leave_frames_alone sample_fsum sample_heap 0 0 sample_table
           float_1_2 (F.of_Z 40) sample_heap_lookup).
Defined.

(** * The rest of the code *)

(** ** Descending orders with the missing keys last *)


Lemma ranked_before_trans {A} (key : A -> cell) : Transitive (ranked_before key).
Proof.
  intros x y z [Hy|Hxy] [Hz|Hyz]; try (left; assumption).
  - apply geb_not_nan in Hyz. congruence.
  - right. unfold F.geb in *. eapply leb_trans; eassumption.
Qed.

Lemma StronglySorted_app_intro {A} (R : A -> A -> Prop) (l1 l2 : list A) :
  StronglySorted R l1 -> StronglySorted R l2 ->
  (forall x y, In x l1 -> In y l2 -> R x y) ->
  StronglySorted R (l1 ++ l2).
Proof.
  intros H1 H2 H. induction H1 as [|x l1 H1 IH Hx]; simpl; [exact H2|].
  constructor.
  - apply IH. intros a b Ha Hb. apply H; [right; exact Ha|exact Hb].
  - apply List.Forall_app. split; [exact Hx|].
    apply List.Forall_forall. intros y Hy. apply H; [left; reflexivity|exact Hy].
Qed.

Lemma StronglySorted_map {A B} (f : A -> B) (R1 : A -> A -> Prop) (R2 : B -> B -> Prop)
    (l : list A) :
  (forall x y, R1 x y -> R2 (f x) (f y)) ->
  StronglySorted R1 l -> StronglySorted R2 (map f l).
Proof.
  intros H. induction 1 as [|x l Hl IH Hx]; simpl; constructor; [exact IH|].
  apply List.Forall_map. eapply List.Forall_impl; [|exact Hx]. intros y. apply H.
Qed.

Lemma isna_num_nan (c : cell) : isna c = true -> F.is_nan (num c) = true.
Proof. destruct c; simpl; [discriminate|auto]. Qed.

Lemma ranked_before_of_compare {A} (key : A -> cell) (x y : A) :
  is_num (key x) = true -> is_num (key y) = true ->
  isna (key x) = false -> isna (key y) = false ->
  not_gt (cell_compare (key y) (key x)) = true ->
  ranked_before key x y.
Proof.
  unfold ranked_before. destruct (key x) as [|a], (key y) as [|b]; try discriminate.
  simpl. intros _ _ Na Nb H. right. unfold F.geb. rewrite leb_compare.
  destruct (compare_Some _ _ Nb Na) as [c Hc]. rewrite Hc in *.
  destruct c; simpl in *; congruence.
Qed.

(** A descending [nargsort] of numbers: no element is followed by a
    greater one, and the missing ones come last. *)
Lemma nargsort_by_desc_sorted {A} (key : A -> cell) (l : list A) :
  List.Forall (fun x => is_num (key x) = true) l ->
  StronglySorted (ranked_before key) (nargsort_by key false l).
Proof.
  intros Hnum. unfold nargsort_by.
  set (nn := List.filter (fun x => negb (isna (key x))) l).
  set (le := fun x y : A => not_gt (cell_compare (key x) (key y))).
  assert (Hnn : List.Forall (fun x => is_num (key x) = true /\ isna (key x) = false) nn).
  { apply List.Forall_forall. intros x [Hx Hf]%filter_In. split.
    - eapply List.Forall_forall in Hnum; [exact Hnum|exact Hx].
    - apply negb_true_iff, Hf. }
  apply StronglySorted_app_intro.
  - apply Sorted_StronglySorted; [apply ranked_before_trans|].
    eapply (Sorted_strengthen (fun a b => le b a = true)).
    + eapply Forall_perm; [|exact Hnn].
      rewrite <- Permutation_rev. etransitivity; [apply isort_perm|].
      symmetry. apply Permutation_rev.
    + intros x y [X1 N1] [X2 N2] H. apply ranked_before_of_compare; assumption.
    + apply (Sorted_rev (fun a b => le a b = true)). apply isort_sorted.
      intros x y. unfold le. rewrite (cell_compare_antisym (key x) (key y)).
      destruct (cell_compare (key x) (key y)); simpl; congruence.
  - assert (Hn : List.Forall (fun y => F.is_nan (num (key y)) = true)
                   (List.filter (fun x => isna (key x)) l)).
    { apply List.Forall_forall. intros y [_ Hy]%filter_In. apply isna_num_nan, Hy. }
    induction Hn as [|y t Hy Ht IH]; constructor; [exact IH|].
    eapply List.Forall_impl; [|exact Ht]. intros z Hz. left. exact Hz.
  - intros x y _ [_ Hy]%filter_In. left. apply isna_num_nan, Hy.
Qed.

Lemma nargsort_desc_nan_last c (l : list row) :
  List.Forall (fun r => is_num (at_ r c) = true) l ->
  StronglySorted (desc_nan_last c) (nargsort c false l).
Proof. apply (nargsort_by_desc_sorted (fun r : row => at_ r c)). Qed.

Lemma desc_nan_last_project cols c (x y : row) :
  bool_decide (c ∈ cols) = true ->
  desc_nan_last c x y -> desc_nan_last c (project cols x) (project cols y).
Proof.
  intros Hc. unfold desc_nan_last, ranked_before.
  rewrite !(at_project cols _ c Hc). auto.
Qed.

(** ** [head] *)

Lemma In_take {A} n (l : list A) x : In x (take n l) -> In x l.
Proof. intros H. rewrite <- (take_drop n l). apply in_or_app. left. exact H. Qed.

Lemma take_min {A} n (l : list A) : take (Nat.min n (length l)) l = take n l.
Proof.
  destruct (Nat.le_ge_cases n (length l)) as [H|H].
  - rewrite Nat.min_l by exact H. reflexivity.
  - rewrite Nat.min_r by exact H. rewrite !firstn_all2; [reflexivity|exact H|lia].
Qed.

Lemma head_rows d n : rows (head d n) = take (head_count n (length (rows d))) (rows d).
Proof.
  unfold head, head_count. simpl. destruct (0 <=? n)%Z; [|reflexivity].
  symmetry. apply take_min.
Qed.

Lemma head_rows_20 d : rows (head d 20) = take 20 (rows d).
Proof. reflexivity. Qed.

Lemma head_count_le n len : (head_count n len <= len)%nat.
Proof. unfold head_count. destruct (0 <=? n)%Z; lia. Qed.

Lemma has_column_head d n c : has_column (head d n) c = has_column d c.
Proof. reflexivity. Qed.

(** ** [print_profit_highlights] *)

Lemma groupby_sum_ok fsum d by_ col :
  has_column d by_ = true -> has_column d col = true ->
  List.Forall (fun r => is_num (at_ r col) = true) (rows d) ->
  groupby_sum fsum d by_ col =
    Ok (map (fun k => (k, CNum (fsum (dropna (map (fun r => val r col) (group_rows d by_ k))))))
            (group_keys d by_)).
Proof.
  intros Hb Hc Hnum. unfold groupby_sum. rewrite Hb, Hc. cbn [negb].
  apply mapM_ok. intros k _. unfold aggregate.
  rewrite (floats_map (fun r : row => at_ r col)).
  - reflexivity.
  - apply Forall_filter_in, Hnum.
Qed.

Lemma print_profit_highlights_run fsum ssum (σ : heap) df d n :
  σ !! df = Some d -> enriched d = true ->
  print_profit_highlights fsum ssum df n σ =
    (Ok (mkHighlights
           (mkFrame highlight_columns
              (map (project highlight_columns)
                   (take (head_count n (length (rows d))) (nargsort "Profit" false (rows d)))))
           (nargsort_by snd false (map (brand_value fsum d) (group_keys d "Product_Brand")))
           (ssum (dropna (map (fun r => val r "StockValue") (rows d))))), σ).
Proof.
  intros Hd He. unfold print_profit_highlights.
  erewrite bind_ok by (apply deref_ok, Hd).
  rewrite (enriched_has d "Profit" He eq_refl), (enriched_has d "StockValue" He eq_refl).
  cbn [negb orb].
  erewrite bind_ok by (apply lift_ok, sort_values_single, (enriched_has d "Profit" He eq_refl)).
  set (sorted := mkFrame (columns d) (nargsort "Profit" false (rows d))).
  assert (Hlen : length (rows sorted) = length (rows d)).
  { apply Permutation_length, nargsort_perm. }
  erewrite bind_ok.
  2:{ apply lift_ok, select_columns_ok.
      change (forallb (has_column d) highlight_columns = true).
      apply (enriched_has_all d _ He). reflexivity. }
  rewrite head_rows, Hlen. simpl rows.
  erewrite bind_ok by (apply lift_ok, getitem_ok; reflexivity).
  erewrite bind_ok.
  2:{ apply lift_ok. simpl rows. rewrite map_map.
      apply (mapM_ok _ (fun _ => tt)). intros c (r0 & <- & Hr0)%in_map_iff.
      rewrite at_project by reflexivity.
      assert (Hin : In r0 (rows d)).
      { eapply Permutation_in; [apply (nargsort_perm "Profit" false)|].
        eapply In_take; exact Hr0. }
      pose proof (enriched_num d "Profit" He eq_refl) as Hn.
      eapply List.Forall_forall in Hn; [|exact Hin].
      destruct (at_ r0 "Profit"); [discriminate Hn|reflexivity]. }
  erewrite bind_ok.
  2:{ apply lift_ok, groupby_sum_ok.
      - apply (enriched_has d _ He). reflexivity.
      - apply (enriched_has d _ He). reflexivity.
      - apply (enriched_num d _ He). reflexivity. }
  erewrite bind_ok.
  2:{ eapply getitem_ref_ok; [exact Hd|apply (enriched_has d _ He); reflexivity]. }
  erewrite bind_ok.
  2:{ apply lift_ok, (floats_map (fun r : row => at_ r "StockValue")).
      apply (enriched_num d _ He). reflexivity. }
  reflexivity.
Qed.

(** X1.  [print_profit_highlights] checks for the derived columns
    before anything else: on a table without [Profit] or without
    [StockValue] it raises [ValueError], whatever else the table holds,
    and the heap stays as it was. *)
Theorem highlights_need_derived_columns fsum ssum (σ : heap) df d top_n :
  σ !! df = Some d ->
  has_column d "Profit" && has_column d "StockValue" = false ->
  print_profit_highlights fsum ssum df top_n σ = (Raise ValueError, σ).
Proof.
  intros Hd Hc. unfold print_profit_highlights.
  erewrite bind_ok by (apply deref_ok, Hd).
  destruct (has_column d "Profit"), (has_column d "StockValue");
    try discriminate Hc; reflexivity.
Qed.

(** X2.  On an enriched table the highlights show the four columns
    of the product table over the first [top_n] rows of the table sorted
    by descending profit (all rows when there are fewer, all but the
    last [-top_n] for a negative [top_n]): no row left out has a
    greater profit than a row shown, and a missing profit comes after
    every present one. *)
Theorem highlights_top_products fsum ssum (σ : heap) df d top_n :
  σ !! df = Some d -> enriched d = true ->
  exists h rest,
    fst (print_profit_highlights fsum ssum df top_n σ) = Ok h /\
    columns (top_profitable h) = ["Product_ID"; "Product_Name"; "Profit"; "ProfitMargin"] /\
    length (rows (top_profitable h)) =
      (if (0 <=? top_n)%Z then Nat.min (Z.to_nat top_n) (length (rows d))
       else (length (rows d) - Z.to_nat (- top_n))%nat) /\
    Permutation (rows (top_profitable h) ++ rest)
                (map (project highlight_columns) (rows d)) /\
    StronglySorted (desc_nan_last "Profit") (rows (top_profitable h) ++ rest).
Proof.
  intros Hd He.
  set (k := head_count top_n (length (rows d))).
  set (sorted := nargsort "Profit" false (rows d)).
  exists (mkHighlights
            (mkFrame highlight_columns (map (project highlight_columns) (take k sorted)))
            (nargsort_by snd false (map (brand_value fsum d) (group_keys d "Product_Brand")))
            (ssum (dropna (map (fun r => val r "StockValue") (rows d))))),
         (map (project highlight_columns) (drop k sorted)).
  rewrite (print_profit_highlights_run fsum ssum σ df d top_n Hd He).
  split; [reflexivity|]. split; [reflexivity|]. simpl rows.
  assert (Hlen : length sorted = length (rows d)) by apply Permutation_length, nargsort_perm.
  split.
  { rewrite length_map, length_take, Hlen.
    pose proof (head_count_le top_n (length (rows d))) as Hk. fold k in Hk.
    rewrite Nat.min_l by exact Hk. reflexivity. }
  rewrite <- map_app, take_drop. split.
  - apply Permutation_map, nargsort_perm.
  - apply (StronglySorted_map _ (desc_nan_last "Profit")).
    + intros x y. apply desc_nan_last_project. reflexivity.
    + apply nargsort_desc_nan_last, (enriched_num d "Profit" He). reflexivity.
Qed.


(** X4.  [print_profit_highlights] changes no frame, whether it
    returns or raises. *)
Theorem highlights_leave_frames_alone fsum ssum (σ : heap) df top_n :
  snd (print_profit_highlights fsum ssum df top_n σ) = σ.
Proof.
  revert σ. change (read_only (print_profit_highlights fsum ssum df top_n)).
  unfold print_profit_highlights. apply read_only_bind; [apply read_only_deref|].
  intros d. destruct (negb (has_column d "Profit") || negb (has_column d "StockValue")).
  - apply read_only_lift.
  - cbv zeta. auto 20 with frame.
Qed.

(** ** The dashboard *)

Lemma before_dot_app s t : contains_dot s = false -> before_dot (s ++ String "." t) = s.
Proof.
  induction s as [|a s IH]; simpl; [reflexivity|].
  destruct (Ascii.eqb a "."); [discriminate|]. simpl. intros H. rewrite IH by exact H.
  reflexivity.
Qed.

Lemma remove_btn_cons a s :
  match s with
  | String b (String c (String d _)) => is_btn a b c d = false
  | _ => True
  end ->
  remove_btn (String a s) = String a (remove_btn s).
Proof.
  destruct s as [|b [|c [|d s]]]; try reflexivity.
  intros H. cbn [remove_btn]. rewrite H. reflexivity.
Qed.

Lemma remove_btn_fixed s : contains_btn s = false -> remove_btn s = s.
Proof.
  induction s as [|a s IH]; [reflexivity|]. intros H.
  rewrite remove_btn_cons.
  - f_equal. apply IH. destruct s as [|b [|c [|d s]]]; try reflexivity.
    cbn [contains_btn] in H. apply orb_false_elim in H as [_ H].
    destruct s as [|e s]; [reflexivity|exact H].
  - destruct s as [|b [|c [|d s]]]; try exact I.
    cbn [contains_btn] in H. apply orb_false_elim in H as [H _]. exact H.
Qed.

Lemma view_function_low_stock fsum :
  VIEW_FUNCTIONS fsum !! "low-stock" =
  Some (fun df => low_stock_profitable df (F.of_Z 60) (F.of_Z 20)).
Proof. unfold VIEW_FUNCTIONS. apply lookup_insert_eq. Qed.

Lemma view_function_overstock fsum :
  VIEW_FUNCTIONS fsum !! "over-stock" =
  Some (fun df => overstock_low_profit df (F.of_Z 200) (F.of_Z 10)).
Proof.
  unfold VIEW_FUNCTIONS. rewrite lookup_insert_ne by discriminate. apply lookup_insert_eq.
Qed.

Lemma view_function_fast_moving fsum :
  VIEW_FUNCTIONS fsum !! "fast-moving" =
  Some (fun df => fast_moving_products df float_1_2 (F.of_Z 40)).
Proof.
  unfold VIEW_FUNCTIONS. rewrite !lookup_insert_ne by discriminate. apply lookup_insert_eq.
Qed.

Lemma view_function_brand_summary fsum :
  VIEW_FUNCTIONS fsum !! "brand-summary" = Some (fun df => brand_summary fsum df).
Proof.
  unfold VIEW_FUNCTIONS. rewrite !lookup_insert_ne by discriminate. apply lookup_insert_eq.
Qed.

Lemma view_function_none fsum key :
  ~ In key (map fst VIEW_BUTTONS) -> VIEW_FUNCTIONS fsum !! key = None.
Proof.
  intros H. unfold VIEW_FUNCTIONS.
  rewrite !lookup_insert_ne; [apply lookup_empty| | | |];
    intros <-; apply H; simpl; auto.
Qed.

Lemma build_chart_bar key d :
  String.eqb key "brand-summary" = false ->
  forallb (has_column d) ["Product_Name"; "Profit"; "ProfitMargin"] = true ->
  build_chart key d =
    Ok (Bar (map (fun r => at_ r "Product_Name") (take 15 (rows d)))
            (map (fun r => at_ r "Profit") (take 15 (rows d)))
            (map (fun r => at_ r "ProfitMargin") (take 15 (rows d))) (-35)).
Proof.
  intros Hk Hc. unfold build_chart. rewrite Hk. unfold px_bar, px_column.
  rewrite !has_column_head. cbn [forallb] in Hc.
  apply andb_prop in Hc as [H1 [H2 [H3 _]%andb_prop]%andb_prop].
  rewrite H1, H2, H3. reflexivity.
Qed.

Lemma build_chart_bar_raises key d :
  String.eqb key "brand-summary" = false ->
  forallb (has_column d) ["Product_Name"; "Profit"; "ProfitMargin"] = false ->
  build_chart key d = Raise ValueError.
Proof.
  intros Hk Hc. unfold build_chart. rewrite Hk. unfold px_bar, px_column.
  rewrite !has_column_head. cbn [forallb] in Hc.
  destruct (has_column d "Product_Name"); [|reflexivity].
  destruct (has_column d "Profit"); [|reflexivity].
  destruct (has_column d "ProfitMargin"); [discriminate Hc|reflexivity].
Qed.

Lemma build_chart_pie d :
  forallb (has_column d) ["Product_Brand"; "TotalStockValue"] = true ->
  build_chart "brand-summary" d =
    Ok (Pie (map (fun r => at_ r "Product_Brand") (rows d))
            (map (fun r => at_ r "TotalStockValue") (rows d))).
Proof.
  intros Hc. unfold build_chart. rewrite String.eqb_refl. unfold px_pie, px_column.
  cbn [forallb] in Hc. apply andb_prop in Hc as [H1 [H2 _]%andb_prop].
  rewrite H1, H2. reflexivity.
Qed.

Lemma build_chart_pie_raises d :
  forallb (has_column d) ["Product_Brand"; "TotalStockValue"] = false ->
  build_chart "brand-summary" d = Raise ValueError.
Proof.
  intros Hc. unfold build_chart. rewrite String.eqb_refl. unfold px_pie, px_column.
  cbn [forallb] in Hc.
  destruct (has_column d "Product_Brand"); [|reflexivity].
  destruct (has_column d "TotalStockValue"); [discriminate Hc|reflexivity].
Qed.

(** X5.  A click on the button of a view stores the key of that view:
    for a key with no dot and no [btn-] in it, the identifier reported
    for the button [btn-<key>] decodes to the key, whatever else was
    triggered after it. *)
Theorem update_view_store_round_trip key others :
  contains_dot key = false -> contains_btn key = false ->
  update_view_store (clicks_prop key :: others) = Some key.
Proof.
  intros Hdot Hbtn. unfold update_view_store, clicks_prop, button_id. f_equal.
  change (("btn-" ++ key) ++ ".n_clicks") with
    (String "b" (String "t" (String "n" (String "-" (key ++ String "." "n_clicks"))))).
  cbn [before_dot Ascii.eqb Bool.eqb]. rewrite (before_dot_app key "n_clicks" Hdot).
  change (remove_btn (String "b" (String "t" (String "n" (String "-" key)))))
    with (remove_btn key).
  apply remove_btn_fixed, Hbtn.
Qed.

(** X6.  The buttons, the callback and the dispatch table agree: a
    click on any button of the layout stores a key under which a view
    function is registered, and no view function is registered under
    another key. *)
Theorem buttons_select_registered_views fsum key :
  (In key (map fst VIEW_BUTTONS) ->
   update_view_store [clicks_prop key] = Some key) /\
  (In key (map fst VIEW_BUTTONS) <-> is_Some (VIEW_FUNCTIONS fsum !! key)).
Proof.
  split; [|split].
  - simpl. intros [<-|[<-|[<-|[<-|[]]]]]; reflexivity.
  - simpl. intros [<-|[<-|[<-|[<-|[]]]]].
    + rewrite view_function_low_stock. eauto.
    + rewrite view_function_overstock. eauto.
    + rewrite view_function_fast_moving. eauto.
    + rewrite view_function_brand_summary. eauto.
  - intros [f Hf]. destruct (in_dec string_dec key (map fst VIEW_BUTTONS)) as [H|H];
      [exact H|]. rewrite (view_function_none fsum key H) in Hf. discriminate Hf.
Qed.

(** X7.  A chart is drawn exactly when the table has the columns the
    chart names: [Product_Brand] and [TotalStockValue] for the pie of
    the brand summary, [Product_Name], [Profit] and [ProfitMargin] for
    the bars of any other view, which show the first fifteen rows at
    most; otherwise [build_chart] raises [ValueError]. *)
Theorem build_chart_columns view_key df :
  (forallb (has_column df) (chart_columns view_key) = true ->
   exists fig, build_chart view_key df = Ok fig /\
     match fig with
     | Pie names values =>
         view_key = "brand-summary" /\ length names = length (rows df) /\
         length values = length (rows df)
     | Bar x y color angle =>
         view_key <> "brand-summary" /\ angle = (-35)%Z /\
         length x = Nat.min 15 (length (rows df)) /\
         length y = length x /\ length color = length x
     end) /\
  (forallb (has_column df) (chart_columns view_key) = false ->
   build_chart view_key df = Raise ValueError).
Proof.
  unfold chart_columns. destruct (String.eqb view_key "brand-summary") eqn:Hk.
  - apply String.eqb_eq in Hk. subst view_key. split.
    + intros H. eexists. split; [apply build_chart_pie, H|].
      cbv beta iota. rewrite !length_map. auto.
    + apply build_chart_pie_raises.
  - split.
    + intros H. eexists. split; [apply build_chart_bar; assumption|].
      cbv beta iota. rewrite !length_map, length_take.
      split; [intros ->; rewrite String.eqb_refl in Hk; discriminate Hk|]. auto.
    + apply build_chart_bar_raises, Hk.
Qed.

Lemma get_insight_data_default fsum inv key :
  ~ In key ["over-stock"; "fast-moving"; "brand-summary"] ->
  get_insight_data fsum inv key = low_stock_profitable inv (F.of_Z 60) (F.of_Z 20).
Proof.
  intros H. unfold get_insight_data.
  destruct (string_dec key "low-stock") as [->|Hk].
  - rewrite view_function_low_stock. reflexivity.
  - rewrite view_function_none; [reflexivity|].
    simpl. intros [E|E]; [apply Hk; symmetry; exact E|]. apply H. exact E.
Qed.

Lemma render_view_run {fsum inv key} {σ σ' : heap} {out} :
  get_insight_data fsum inv key σ = (Ok out, σ') ->
  render_view fsum inv key σ =
    match build_chart key out with
    | Ok chart => (Ok (build_table (head out 20), chart), σ')
    | Raise e => (Raise e, σ')
    end.
Proof.
  intros H. unfold render_view. erewrite bind_ok by exact H.
  unfold bind, lift. destruct (build_chart key out); reflexivity.
Qed.


(** X9.  Under [low-stock], and under any key that names no view,
    [render_view] shows Low-Stock-Profitable at its default thresholds
    (quantity at most 60, margin at least 20): a table of its first
    twenty rows, ten to a page, and bars for its first fifteen rows;
    the inventory is left as it was. *)
Theorem render_view_low_stock fsum (σ : heap) inv d key :
  σ !! inv = Some d -> enriched d = true ->
  ~ In key ["over-stock"; "fast-moving"; "brand-summary"] ->
  exists out,
    fst (low_stock_profitable inv (F.of_Z 60) (F.of_Z 20) σ) = Ok out /\
    render_view fsum inv key σ =
      (Ok (mkTable ["Product_ID"; "Product_Name"; "Available_Quantity"; "Profit";
                    "ProfitMargin"]
                   (take 20 (rows out)) 10,
           Bar (map (fun r => at_ r "Product_Name") (take 15 (rows out)))
               (map (fun r => at_ r "Profit") (take 15 (rows out)))
               (map (fun r => at_ r "ProfitMargin") (take 15 (rows out))) (-35)), σ).
Proof.
  intros Hd He Hk. eexists.
  rewrite (low_stock_run _ _ _ (F.of_Z 60) (F.of_Z 20) Hd He).
  split; [reflexivity|].
  erewrite render_view_run.
  2:{ rewrite (get_insight_data_default fsum inv key Hk).
      apply (low_stock_run _ _ _ _ _ Hd He). }
  rewrite build_chart_bar.
  - unfold build_table. rewrite head_rows_20. reflexivity.
  - destruct (String.eqb key "brand-summary") eqn:E; [|reflexivity].
    apply String.eqb_eq in E. exfalso. apply Hk. simpl. auto.
  - reflexivity.
Qed.

(** X10.  Under [brand-summary], [render_view] shows the first twenty
    rows of the brand summary, and a pie with one slice per row of the
    whole summary: the brand and its total stock value. *)
Theorem render_view_brand_summary fsum (σ : heap) inv d :
  σ !! inv = Some d -> enriched d = true ->
  exists out,
    fst (brand_summary fsum inv σ) = Ok out /\
    render_view fsum inv "brand-summary" σ =
      (Ok (mkTable ["Product_Brand"; "TotalProfit"; "TotalStockValue"; "AvgProfitMargin";
                    "SKUCount"]
                   (take 20 (rows out)) 10,
           Pie (map (fun r => at_ r "Product_Brand") (rows out))
               (map (fun r => at_ r "TotalStockValue") (rows out))), σ).
Proof.
  intros Hd He. eexists.
  rewrite (brand_summary_run fsum _ _ _ Hd He).
  split; [reflexivity|].
  erewrite render_view_run.
  2:{ unfold get_insight_data. rewrite view_function_brand_summary.
      apply (brand_summary_run fsum _ _ _ Hd He). }
  rewrite build_chart_pie by reflexivity.
  unfold build_table. rewrite head_rows_20. reflexivity.
Qed.

(** ** The helpers on tables they were not written for *)

Lemma getitem_ref_raise (σ : heap) df d c :
  σ !! df = Some d -> has_column d c = false ->
  getitem_ref df c σ = (Raise (KeyError c), σ).
Proof.
  intros Hd Hc. unfold getitem_ref. erewrite bind_ok by (apply deref_ok, Hd).
  unfold lift, getitem. rewrite Hc. reflexivity.
Qed.

Lemma floats_raise {A} (f : A -> cell) (l : list A) x s :
  In x l -> f x = CStr s -> floats (map f l) = Raise TypeError.
Proof.
  intros Hin Hx. induction l as [|y l IH]; [destruct Hin|].
  unfold floats in *. cbn [map mapM].
  destruct (f y) as [t|v] eqn:E; [reflexivity|]. cbn [as_float rbind].
  destruct Hin as [->|Hin]; [congruence|]. rewrite (IH Hin). reflexivity.
Qed.

Lemma series_cmp_raise {A} op (f : A -> cell) (l : list A) t x s :
  In x l -> f x = CStr s -> series_cmp op (map f l) t = Raise TypeError.
Proof. intros Hin Hx. unfold series_cmp. rewrite (floats_raise f l x s Hin Hx). reflexivity. Qed.

(** X11.  A table without the column a helper reads first makes the
    helper raise [KeyError] for that column: [Available_Quantity] for
    the two filtered views, [Average_Stock_Level] for Fast-Moving,
    [Product_Brand] for the brand summary.  No frame is created or
    changed. *)
Theorem insights_missing_column fsum (σ : heap) df d q m :
  σ !! df = Some d ->
  (has_column d "Available_Quantity" = false ->
   low_stock_profitable df q m σ = (Raise (KeyError "Available_Quantity"), σ) /\
   overstock_low_profit df q m σ = (Raise (KeyError "Available_Quantity"), σ)) /\
  (has_column d "Average_Stock_Level" = false ->
   fast_moving_products df q m σ = (Raise (KeyError "Average_Stock_Level"), σ)) /\
  (has_column d "Product_Brand" = false ->
   brand_summary fsum df σ = (Raise (KeyError "Product_Brand"), σ)).
Proof.
  intros Hd. split; [|split].
  - intros Hc. split.
    + unfold low_stock_profitable. apply bind_raise, (getitem_ref_raise _ _ _ _ Hd Hc).
    + unfold overstock_low_profit. apply bind_raise, (getitem_ref_raise _ _ _ _ Hd Hc).
  - intros Hc. unfold fast_moving_products. apply bind_raise.
    unfold fast_moving_working. apply bind_raise, (getitem_ref_raise _ _ _ _ Hd Hc).
  - intros Hc. unfold brand_summary. erewrite bind_ok by (apply deref_ok, Hd).
    apply bind_raise. unfold lift, groupby_agg. rewrite Hc. reflexivity.
Qed.

(** X12.  On a table that was not loaded, whose quantity column still
    holds a text, the two filtered views raise [TypeError] at their
    first comparison; so does Fast-Moving when the stock level column
    holds a text.  No frame is created or changed. *)
Theorem insights_on_text_column (σ : heap) df d q m r s :
  σ !! df = Some d -> In r (rows d) ->
  (has_column d "Available_Quantity" = true -> at_ r "Available_Quantity" = CStr s ->
   low_stock_profitable df q m σ = (Raise TypeError, σ) /\
   overstock_low_profit df q m σ = (Raise TypeError, σ)) /\
  (has_column d "Average_Stock_Level" = true -> at_ r "Average_Stock_Level" = CStr s ->
   fast_moving_products df q m σ = (Raise TypeError, σ)).
Proof.
  intros Hd Hr. split.
  - intros Hc Hs. split.
    + unfold low_stock_profitable.
      erewrite bind_ok by (apply (getitem_ref_ok _ _ _ _ Hd Hc)).
      apply bind_raise. unfold lift.
      rewrite (series_cmp_raise _ (fun r : row => at_ r "Available_Quantity") _ _ r s Hr Hs).
      reflexivity.
    + unfold overstock_low_profit.
      erewrite bind_ok by (apply (getitem_ref_ok _ _ _ _ Hd Hc)).
      apply bind_raise. unfold lift.
      rewrite (series_cmp_raise _ (fun r : row => at_ r "Available_Quantity") _ _ r s Hr Hs).
      reflexivity.
  - intros Hc Hs. unfold fast_moving_products. apply bind_raise.
    unfold fast_moving_working.
    erewrite bind_ok by (apply (getitem_ref_ok _ _ _ _ Hd Hc)).
    apply bind_raise. unfold lift.
    rewrite (series_cmp_raise _ (fun r : row => at_ r "Average_Stock_Level") _ _ r s Hr Hs).
    reflexivity.
Qed.

(** ** How the thresholds move the views *)

Lemma low_stock_selected_mono q q' m m' (r : row) :
  F.leb q q' = true -> F.leb m' m = true ->
  low_stock_selected q m r = true -> low_stock_selected q' m' r = true.
Proof.
  intros Hq Hm. unfold low_stock_selected, F.geb.
  intros [H1 H2]%andb_prop. apply andb_true_intro. split.
  - eapply leb_trans; eassumption.
  - eapply leb_trans; eassumption.
Qed.

Lemma overstock_selected_mono q q' m m' (r : row) :
  F.leb q' q = true -> F.leb m m' = true ->
  overstock_selected q m r = true -> overstock_selected q' m' r = true.
Proof.
  intros Hq Hm. unfold overstock_selected, F.geb.
  intros [H1 H2]%andb_prop. apply andb_true_intro. split.
  - eapply leb_trans; eassumption.
  - eapply leb_trans; eassumption.
Qed.


Lemma in_map_filter_mono {A B} (f : A -> B) (p p' : A -> bool) (l : list A) y :
  (forall x, p x = true -> p' x = true) ->
  In y (map f (List.filter p l)) -> In y (map f (List.filter p' l)).
Proof.
  intros H (x & <- & [Hx Hp]%filter_In)%in_map_iff.
  apply in_map, filter_In. auto.
Qed.

(** X13.  Low-Stock-Profitable only gains rows when its quantity
    threshold is raised or its margin threshold is lowered. *)
Theorem low_stock_thresholds_monotone (σ : heap) df d q q' m m' :
  σ !! df = Some d -> enriched d = true ->
  F.leb q q' = true -> F.leb m' m = true ->
  exists out out',
    fst (low_stock_profitable df q m σ) = Ok out /\
    fst (low_stock_profitable df q' m' σ) = Ok out' /\
    forall o, In o (rows out) -> In o (rows out').
Proof.
  intros Hd He Hq Hm. do 2 eexists.
  rewrite !(low_stock_run _ _ _ _ _ Hd He).
  split; [reflexivity|]. split; [reflexivity|]. simpl rows. intros o Ho.
  eapply Permutation_in; [symmetry; apply isort_perm|].
  eapply Permutation_in in Ho; [|apply isort_perm].
  eapply in_map_filter_mono; [|exact Ho].
  intros r. apply low_stock_selected_mono; assumption.
Qed.

(** X14.  Overstock-Low-Profit only gains rows when its quantity
    threshold is lowered or its margin threshold is raised. *)
Theorem overstock_thresholds_monotone (σ : heap) df d q q' m m' :
  σ !! df = Some d -> enriched d = true ->
  F.leb q' q = true -> F.leb m m' = true ->
  exists out out',
    fst (overstock_low_profit df q m σ) = Ok out /\
    fst (overstock_low_profit df q' m' σ) = Ok out' /\
    forall o, In o (rows out) -> In o (rows out').
Proof.
  intros Hd He Hq Hm. do 2 eexists.
  rewrite !(overstock_run _ _ _ _ _ Hd He).
  split; [reflexivity|]. split; [reflexivity|]. simpl rows. intros o Ho.
  eapply Permutation_in; [symmetry; apply isort_perm|].
  eapply Permutation_in in Ho; [|apply isort_perm].
  eapply in_map_filter_mono; [|exact Ho].
  intros r. apply overstock_selected_mono; assumption.
Qed.


(** X16.  With a low-stock quantity threshold below the overstock one
    (as the defaults 60 and 200 are), every row of Low-Stock-Profitable
    has a smaller quantity than every row of Overstock-Low-Profit: no
    product is in both views. *)
Theorem low_stock_below_overstock (σ : heap) df d q1 m1 q2 m2 :
  σ !! df = Some d -> enriched d = true -> F.ltb q1 q2 = true ->
  exists low over,
    fst (low_stock_profitable df q1 m1 σ) = Ok low /\
    fst (overstock_low_profit df q2 m2 σ) = Ok over /\
    forall o1 o2, In o1 (rows low) -> In o2 (rows over) ->
      F.ltb (val o1 "Available_Quantity") (val o2 "Available_Quantity") = true.
Proof.
  intros Hd He Hq. do 2 eexists.
  rewrite (low_stock_run _ _ _ _ _ Hd He), (overstock_run _ _ _ _ _ Hd He).
  split; [reflexivity|]. split; [reflexivity|]. simpl rows. intros o1 o2 H1 H2.
  eapply Permutation_in in H1; [|apply isort_perm].
  eapply Permutation_in in H2; [|apply isort_perm].
  apply in_map_iff in H1 as (r1 & <- & [_ S1]%filter_In).
  apply in_map_iff in H2 as (r2 & <- & [_ S2]%filter_In).
  rewrite !val_project by reflexivity.
  apply andb_prop in S1 as [S1 _]. apply andb_prop in S2 as [S2 _].
  unfold F.geb in S2.
  eapply ltb_leb_trans; [|exact S2]. eapply leb_ltb_trans; eassumption.
Qed.

(** X17.  The rows of Brand-Summary come in descending order of total
    profit, a brand whose total is not a number after all the others. *)
Theorem brand_summary_sorted fsum (σ : heap) df d :
  σ !! df = Some d -> enriched d = true ->
  exists out,
    fst (brand_summary fsum df σ) = Ok out /\
    StronglySorted (desc_nan_last "TotalProfit") (rows out).
Proof.
  intros Hd He. eexists. rewrite (brand_summary_run fsum _ _ _ Hd He).
  split; [reflexivity|]. simpl rows.
  apply nargsort_desc_nan_last, List.Forall_map, Forall_true.
  intros k. unfold summary_row.
  rewrite at_insert_ne by discriminate. rewrite at_insert. reflexivity.
Qed.


(** ** The dashboard over time *)

Lemma get_insight_data_run fsum inv d key :
  enriched d = true ->
  exists out, forall σ : heap, σ !! inv = Some d ->
    exists σ', get_insight_data fsum inv key σ = (Ok out, σ') /\ σ' !! inv = Some d.
Proof.
  intros He.
  destruct (string_dec key "over-stock") as [->|K1].
  { eexists. intros σ Hd. eexists. split; [|exact Hd].
    unfold get_insight_data. rewrite view_function_overstock.
    apply (overstock_run _ _ _ _ _ Hd He). }
  destruct (string_dec key "fast-moving") as [->|K2].
  { eexists. intros σ Hd. eexists. split.
    - unfold get_insight_data. rewrite view_function_fast_moving.
      apply (fast_moving_run _ _ _ _ _ Hd He).
    - rewrite lookup_insert_ne; [exact Hd|].
      intros E. pose proof (is_fresh (dom σ)) as Hf. apply Hf. rewrite E.
      apply elem_of_dom. eauto. }
  destruct (string_dec key "brand-summary") as [->|K3].
  { eexists. intros σ Hd. eexists. split; [|exact Hd].
    unfold get_insight_data. rewrite view_function_brand_summary.
    apply (brand_summary_run fsum _ _ _ Hd He). }
  eexists. intros σ Hd. eexists. split; [|exact Hd].
  rewrite get_insight_data_default.
  - apply (low_stock_run _ _ _ _ _ Hd He).
  - simpl. intros [E|[E|[E|[]]]]; congruence.
Qed.


(** X20.  What [render_view] shows for a view does not depend on the
    views rendered before it: after any earlier rendering, the table
    and the chart (or the error) are those of a first rendering. *)
Theorem render_view_repeatable fsum (σ : heap) inv d key earlier :
  σ !! inv = Some d -> enriched d = true ->
  fst (render_view fsum inv key (snd (render_view fsum inv earlier σ))) =
  fst (render_view fsum inv key σ).
Proof.
  intros Hd He.
  destruct (get_insight_data_run fsum inv d earlier He) as (out0 & H0).
  destruct (H0 σ Hd) as (σ0 & Hrun0 & Hd0).
  assert (Hsnd : snd (render_view fsum inv earlier σ) = σ0).
  { rewrite (render_view_run Hrun0). destruct (build_chart earlier out0); reflexivity. }
  rewrite Hsnd.
  destruct (get_insight_data_run fsum inv d key He) as (out & H).
  destruct (H σ Hd) as (σ1 & Hrun1 & _). destruct (H σ0 Hd0) as (σ2 & Hrun2 & _).
  rewrite (render_view_run Hrun1), (render_view_run Hrun2).
  destruct (build_chart key out); reflexivity.
Qed.

(** ** The loader, column by column *)

Lemma find_first {A} (f : A -> bool) (l : list A) :
  forallb f l = false ->
  exists before c after,
    l = (before ++ c :: after)%list /\ forallb f before = true /\ f c = false.
Proof.
  induction l as [|x l IH]; [discriminate|]. cbn [forallb].
  destruct (f x) eqn:E; cbn [andb].
  - intros H. destruct (IH H) as (b & c & a & -> & Hb & Hc).
    exists (x :: b), c, a. cbn [forallb]. rewrite E, Hb. auto.
  - intros _. exists [], x, l. auto.
Qed.

Lemma assoc_In c col l : assoc c l = Some col -> In (c, col) l.
Proof.
  induction l as [|[k v] l IH]; cbn [assoc fst snd]; [discriminate|].
  destruct (String.eqb k c) eqn:E.
  - apply String.eqb_eq in E. subst k. intros [= <-]. left. reflexivity.
  - intros H. right. apply IH, H.
Qed.

Lemma Forall_replace (P : string * column -> Prop) c col l :
  P (c, col) -> List.Forall P l -> List.Forall P (replace c col l).
Proof.
  intros Hc. induction 1 as [|kv l Hkv Hl IH]; cbn [replace].
  - constructor; [exact Hc|constructor].
  - destruct (String.eqb (fst kv) c); constructor; assumption.
Qed.

Lemma stripped_length col : length (cells (stripped col)) = length (cells col).
Proof. destruct col; cbn [stripped cells]; rewrite ?length_map; reflexivity. Qed.

(** The columns of a rectangular table keep their length through the
    loader, and the derived columns have it. *)
Section Lengths.

Variable h : nat.

Lemma col_sub_length a b pd :
  col_sub a b = Ok pd -> length (cells a) = h -> length (cells b) = h ->
  length (cells pd) = h.
Proof.
  destruct a, b; cbn; intros H; try discriminate H; injection H as <-;
    cbn [cells]; rewrite ?length_map; intros Ha Hb;
    rewrite ?length_map, length_zip_with, ?length_map; lia.
Qed.

Lemma col_mul_length a b pd :
  col_mul a b = Ok pd -> length (cells a) = h -> length (cells b) = h ->
  length (cells pd) = h.
Proof.
  destruct a, b; cbn; intros H; try discriminate H; injection H as <-;
    cbn [cells]; rewrite ?length_map; intros Ha Hb;
    rewrite ?length_map, length_zip_with, ?length_map; lia.
Qed.

Lemma col_div_length a b ratio :
  col_div a b = Ok ratio -> length (cells a) = h -> length (cells b) = h ->
  length ratio = h.
Proof.
  destruct a, b; cbn; intros H; try discriminate H; injection H as <-;
    rewrite ?length_map; intros Ha Hb;
    rewrite length_zip_with, ?length_map; lia.
Qed.

Lemma cleaned_tall to_number raw :
  List.Forall (tall h) (series raw) -> List.Forall (tall h) (series (cleaned to_number raw)).
Proof.
  intros H. unfold cleaned.
  assert (H0 : List.Forall (tall h) (series (mkColumns (map strip_entry (series raw))))).
  { cbn [series]. apply List.Forall_map. eapply List.Forall_impl; [|exact H].
    intros kv Hkv. unfold tall, strip_entry. cbn [snd]. rewrite stripped_length. exact Hkv. }
  revert H0. generalize (mkColumns (map strip_entry (series raw))).
  induction NUMERIC_COLUMNS as [|a cols IH]; intros df Hdf; [exact Hdf|].
  cbn [fold_left]. apply IH. unfold coerce_column.
  destruct (assoc a (series df)) as [col|] eqn:E; [|exact Hdf].
  cbn [assign_column series]. apply Forall_replace; [|exact Hdf].
  unfold tall. cbn [snd]. rewrite to_numeric_length.
  apply assoc_In in E. rewrite List.Forall_forall in Hdf. apply (Hdf _ E).
Qed.

Lemma loaded_tall df out :
  add_derived_columns df = Ok out ->
  List.Forall (tall h) (series df) -> List.Forall (tall h) (series out).
Proof.
  intros (cs & cb & cq & ca & pd & profit & sv & ratio
          & E1 & E2 & E3 & E4 & Hsub & Hp & Hv & Hr & ->)%add_derived_columns_inv Hdf.
  assert (T : forall c col, assoc c (series df) = Some col -> length (cells col) = h).
  { intros c col E. apply assoc_In in E. rewrite List.Forall_forall in Hdf. apply (Hdf _ E). }
  pose proof (col_sub_length _ _ _ Hsub (T _ _ E1) (T _ _ E2)) as Lpd.
  repeat apply Forall_replace; try exact Hdf; unfold tall; cbn [snd].
  - cbn [cells]. rewrite !length_map. apply (col_div_length _ _ _ Hr Lpd (T _ _ E2)).
  - apply (col_mul_length _ _ _ Hv (T _ _ E4) (T _ _ E2)).
  - apply (col_mul_length _ _ _ Hp Lpd (T _ _ E3)).
Qed.

End Lengths.

Lemma rectangular_tall df :
  rectangular df = true -> List.Forall (tall (height df)) (series df).
Proof.
  unfold rectangular. rewrite forallb_forall, List.Forall_forall.
  intros H kv Hkv. apply Nat.eqb_eq, H, Hkv.
Qed.

Lemma tall_height h df :
  series df <> [] -> List.Forall (tall h) (series df) -> height df = h.
Proof.
  unfold height. destruct (series df) as [|kv l]; [congruence|].
  intros _ H. inversion H; assumption.
Qed.

(** X22.  The table the loader returns has the header of the source,
    followed by those of [Profit], [StockValue] and [ProfitMargin] the
    source does not have; it has as many rows as the source, each
    column of the source having as many values as the first; and a
    column that is neither a listed numeric column nor a derived one
    is the column of the source: as it is when it is numeric, and with
    every text stripped and every other value made the missing marker
    when it is an [object] column. *)
Theorem load_shape to_number env csv_path d :
  load_inventory_data to_number env csv_path = Ok d ->
  exists raw df,
    read_csv env csv_path = Ok raw /\
    load_columns to_number env csv_path = Ok df /\ d = records df /\
    columns d =
      (labels raw ++
       List.filter (fun c => negb (has_label raw c)) ["Profit"; "StockValue"; "ProfitMargin"])%list /\
    (rectangular raw = true -> length (rows d) = height raw) /\
    forall c, ~ In c (NUMERIC_COLUMNS ++ derived_columns) ->
      assoc c (series df) =
      match assoc c (series raw) with
      | Some (ObjCol os) =>
          Some (ObjCol (map (fun o => match o with
                                      | OStr s => OStr (strip s)
                                      | _ => ONaN
                                      end) os))
      | other => other
      end.
Proof.
  intros (df & Hload & ->)%load_inv.
  destruct (load_columns_inv _ _ _ _ Hload) as (raw & _ & Hraw & _ & Hadd).
  exists raw, df. split; [exact Hraw|]. split; [exact Hload|]. split; [reflexivity|].
  cbn [records columns rows]. split; [apply (labels_loaded _ _ _ Hadd)|]. split.
  - intros Hrect. rewrite length_map, length_seq.
    apply tall_height.
    + destruct (add_derived_columns_inv _ _ Hadd)
        as (? & ? & ? & ? & ? & ? & ? & ? & _ & _ & _ & _ & _ & _ & _ & _ & ->).
      apply replace_nonempty.
    + apply (loaded_tall _ _ _ Hadd), cleaned_tall, rectangular_tall, Hrect.
  - intros c Hc.
    rewrite (assoc_loaded _ _ _ c Hadd) by (intros H; apply Hc, in_or_app; auto).
    rewrite assoc_cleaned, bool_decide_eq_false_2.
    2:{ intros H%list_elem_of_In. apply Hc, in_or_app. auto. }
    destruct (assoc c (series raw)) as [[| | |os]|]; reflexivity.
Qed.


(** X24.  A file that exists and is read, with no [object] column of
    booleans and not two price columns of booleans, but without one of
    the four columns the derived columns are computed from, makes the
    loader raise [KeyError] for the first of them that is absent, in
    the order selling price, buying price, units sold, quantity.  An
    error of the reading itself is passed on. *)
Theorem load_missing_required_column to_number env csv_path :
  path_exists env csv_path = true ->
  (forall raw, read_csv env csv_path = Ok raw ->
     has_boolean_objects raw = false -> boolean_prices raw = false ->
     forallb (has_label raw)
       ["Average_Selling_Price"; "Average_Buying_Price"; "Total_Sold";
        "Available_Quantity"] = false ->
     exists before c after,
       ["Average_Selling_Price"; "Average_Buying_Price"; "Total_Sold";
        "Available_Quantity"] = (before ++ c :: after)%list /\
       forallb (has_label raw) before = true /\ has_label raw c = false /\
       load_inventory_data to_number env csv_path = Raise (KeyError c)) /\
  (forall e, read_csv env csv_path = Raise e ->
     load_inventory_data to_number env csv_path = Raise e).
Proof.
  intros Hp. split.
  - intros raw Hraw Hobj Hbp Hmiss.
    destruct (find_first _ _ Hmiss) as (b & c & a & Hl & Hb & Hc).
    exists b, c, a. split; [exact Hl|]. split; [exact Hb|]. split; [exact Hc|].
    unfold load_inventory_data.
    rewrite (load_columns_run to_number env csv_path raw Hp Hraw), Hobj.
    rewrite (add_derived_columns_key_error (cleaned to_number raw)) with (c := c)
                                                                         (before := b)
                                                                         (after := a).
    + reflexivity.
    + unfold boolean_prices. rewrite !is_boolean_cleaned. exact Hbp.
    + exact Hl.
    + apply forallb_forall. intros k Hk. rewrite has_label_cleaned.
      apply (proj1 (forallb_forall _ _) Hb k Hk).
    + rewrite has_label_cleaned. exact Hc.
    + intros k Hk col Hcol.
      apply (cleaned_numeric to_number raw k col (required_numeric k Hk) Hcol).
  - intros e He. unfold load_inventory_data, load_columns. rewrite Hp, He. reflexivity.
Qed.


(** ** The further theorems at work *)

Lemma highlights_need_derived_columns_witness :
  print_profit_highlights sample_fsum sample_fsum 0 5 {[ 0%nat := sample_levels ]} =
    (Raise ValueError, {[ 0%nat := sample_levels ]}).
Proof.
  apply (highlights_need_derived_columns sample_fsum sample_fsum _ 0%nat sample_levels 5).
  - apply lookup_singleton_eq.
  - vm_compute. reflexivity.
Defined.

Lemma highlights_top_products_witness :
  exists h,
    fst (print_profit_highlights sample_fsum sample_fsum 0 2 sample_heap) = Ok h /\
    length (rows (top_profitable h)) = 2%nat.
Proof.
  destruct (highlights_top_products sample_fsum sample_fsum sample_heap 0 sample_table 2
              sample_heap_lookup sample_enriched) as (h & rest & Hrun & _ & Hlen & _).
  exists h. split; [exact Hrun|]. rewrite Hlen. vm_compute. reflexivity.
Defined.


Lemma update_view_store_round_trip_witness :
  update_view_store ["btn-fast-moving.n_clicks"] = Some "fast-moving".
Proof. apply (update_view_store_round_trip "fast-moving" []); reflexivity. Defined.

Lemma buttons_select_registered_views_witness :
  update_view_store [clicks_prop "over-stock"] = Some "over-stock" /\
  is_Some (VIEW_FUNCTIONS sample_fsum !! "over-stock").
Proof.
  destruct (buttons_select_registered_views sample_fsum "over-stock") as [H1 [H2 _]].
  assert (Hin : In "over-stock" (map fst VIEW_BUTTONS)) by (simpl; auto).
  split; [apply H1, Hin|apply H2, Hin].
Defined.

Lemma build_chart_columns_witness :
  (exists fig, build_chart "low-stock" sample_table = Ok fig) /\
  build_chart "low-stock" sample_levels = Raise ValueError.
Proof.
  split.
  - destruct (build_chart_columns "low-stock" sample_table) as [H _].
    destruct H as (fig & Hfig & _); [vm_compute; reflexivity|]. exists fig. exact Hfig.
  - destruct (build_chart_columns "low-stock" sample_levels) as [_ H].
    apply H. vm_compute. reflexivity.
Defined.


Lemma render_view_low_stock_witness :
  exists t c, render_view sample_fsum 0 "no-such-view" sample_heap = (Ok (t, c), sample_heap) /\
              length (table_data t) = 3%nat.
Proof.
  destruct (render_view_low_stock sample_fsum sample_heap 0 sample_table "no-such-view"
              sample_heap_lookup sample_enriched) as (out & Hout & Hrun).
  { simpl. intros [E|[E|[E|[]]]]; discriminate E. }
  do 2 eexists. split; [exact Hrun|]. cbn [table_data].
  assert (E : match fst (low_stock_profitable 0 (F.of_Z 60) (F.of_Z 20) sample_heap) with
              | Ok o => (length (take 20 (rows o)) =? 3)%nat
              | Raise _ => false
              end = true) by (vm_compute; reflexivity).
  rewrite Hout in E. apply Nat.eqb_eq, E.
Defined.

Lemma render_view_brand_summary_witness :
  exists t c, render_view sample_fsum 0 "brand-summary" sample_heap =
                (Ok (t, c), sample_heap) /\
              table_columns t = summary_columns.
Proof.
  destruct (render_view_brand_summary sample_fsum sample_heap 0 sample_table
              sample_heap_lookup sample_enriched) as (out & _ & Hrun).
  do 2 eexists. split; [exact Hrun|]. reflexivity.
Defined.

Lemma insights_missing_column_witness :
  low_stock_profitable 0 (F.of_Z 60) (F.of_Z 20) {[ 0%nat := sample_levels ]} =
    (Raise (KeyError "Available_Quantity"), {[ 0%nat := sample_levels ]}) /\
  brand_summary sample_fsum 0 {[ 0%nat := sample_levels ]} =
    (Raise (KeyError "Product_Brand"), {[ 0%nat := sample_levels ]}).
Proof.
  destruct (insights_missing_column sample_fsum {[ 0%nat := sample_levels ]} 0 sample_levels
              (F.of_Z 60) (F.of_Z 20)) as (H1 & _ & H3); [apply lookup_singleton_eq|].
  split.
  - apply H1. vm_compute. reflexivity.
  - apply H3. vm_compute. reflexivity.
Defined.

Lemma insights_on_text_column_witness :
  low_stock_profitable 0 (F.of_Z 60) (F.of_Z 20) {[ 0%nat := sample_unloaded ]} =
    (Raise TypeError, {[ 0%nat := sample_unloaded ]}) /\
  fast_moving_products 0 float_1_2 (F.of_Z 40) {[ 0%nat := sample_unloaded ]} =
    (Raise TypeError, {[ 0%nat := sample_unloaded ]}).
Proof.
  set (r := nth 0 (rows sample_unloaded) ∅).
  assert (Hin : In r (rows sample_unloaded)) by (left; reflexivity).
  split.
  - destruct (insights_on_text_column {[ 0%nat := sample_unloaded ]} 0 sample_unloaded
                (F.of_Z 60) (F.of_Z 20) r "ten" (lookup_singleton_eq _ _) Hin) as [H _].
    apply H; vm_compute; reflexivity.
  - destruct (insights_on_text_column {[ 0%nat := sample_unloaded ]} 0 sample_unloaded
                float_1_2 (F.of_Z 40) r "two" (lookup_singleton_eq _ _) Hin) as [_ H].
    apply H; vm_compute; reflexivity.
Defined.

Lemma low_stock_thresholds_monotone_witness :
  exists out out',
    fst (low_stock_profitable 0 (F.of_Z 60) (F.of_Z 20) sample_heap) = Ok out /\
    fst (low_stock_profitable 0 (F.of_Z 100) (F.of_Z 10) sample_heap) = Ok out' /\
    forall o, In o (rows out) -> In o (rows out').
Proof.
  apply (low_stock_thresholds_monotone sample_heap 0 sample_table _ _ _ _
           sample_heap_lookup sample_enriched); vm_compute; reflexivity.
Defined.

Lemma overstock_thresholds_monotone_witness :
  exists out out',
    fst (overstock_low_profit 0 (F.of_Z 200) (F.of_Z 10) sample_heap) = Ok out /\
    fst (overstock_low_profit 0 (F.of_Z 100) (F.of_Z 50) sample_heap) = Ok out' /\
    forall o, In o (rows out) -> In o (rows out').
Proof.
  apply (overstock_thresholds_monotone sample_heap 0 sample_table _ _ _ _
           sample_heap_lookup sample_enriched); vm_compute; reflexivity.
Defined.


Lemma low_stock_below_overstock_witness :
  exists low over,
    fst (low_stock_profitable 0 (F.of_Z 60) (F.of_Z 20) sample_heap) = Ok low /\
    fst (overstock_low_profit 0 (F.of_Z 200) (F.of_Z 10) sample_heap) = Ok over /\
    forall o1 o2, In o1 (rows low) -> In o2 (rows over) ->
      F.ltb (val o1 "Available_Quantity") (val o2 "Available_Quantity") = true.
Proof.
  apply (low_stock_below_overstock sample_heap 0 sample_table _ _ _ _
           sample_heap_lookup sample_enriched). vm_compute. reflexivity.
Defined.

Lemma brand_summary_sorted_witness :
  exists out,
    fst (brand_summary sample_fsum 0 sample_heap) = Ok out /\
    StronglySorted (desc_nan_last "TotalProfit") (rows out).
Proof.
  apply (brand_summary_sorted sample_fsum sample_heap 0 sample_table
           sample_heap_lookup sample_enriched).
Defined.



Lemma render_view_repeatable_witness :
  fst (render_view sample_fsum 0 "low-stock"
         (snd (render_view sample_fsum 0 "fast-moving" sample_heap))) =
  fst (render_view sample_fsum 0 "low-stock" sample_heap).
Proof.
  apply (render_view_repeatable sample_fsum sample_heap 0 sample_table "low-stock"
           "fast-moving" sample_heap_lookup sample_enriched).
Defined.

(** The inventory has fifteen columns and five rows; loaded, it has
    three columns more, as many rows, and its names are stripped. *)
Lemma load_shape_witness :
  exists raw df,
    read_csv sample_env "data/inventory.csv" = Ok raw /\
    load_columns sample_to_number sample_env "data/inventory.csv" = Ok df /\
    length (columns sample_table) = (length (labels raw) + 3)%nat /\
    length (rows sample_table) = 5%nat /\
    assoc "Product_Name" (series df) =
      Some (ObjCol [OStr "Kettle"; OStr "Toaster"; OStr "Sample"; OStr "Mixer"; OStr "Leaflet"]).
Proof.
  destruct (load_shape sample_to_number sample_env "data/inventory.csv" sample_table
              sample_loaded) as (raw & df & Hraw & Hdf & _ & Hcols & Hrows & Hother).
  assert (E : raw = sample_csv).
  { assert (E : read_csv sample_env "data/inventory.csv" = Ok sample_csv) by reflexivity.
    rewrite E in Hraw. injection Hraw as <-. reflexivity. }
  exists raw, df. split; [exact Hraw|]. split; [exact Hdf|].
  split; [rewrite Hcols, length_app, E; vm_compute; reflexivity|].
  split; [rewrite Hrows; rewrite E; vm_compute; reflexivity|].
  rewrite (Hother "Product_Name"), E; [vm_compute; reflexivity|].
  simpl. intuition discriminate.
Defined.


Lemma load_missing_required_column_witness :
  exists c,
    load_inventory_data sample_to_number sample_env "data/no_price.csv" = Raise (KeyError c) /\
    has_label sample_csv_no_price c = false.
Proof.
  destruct (load_missing_required_column sample_to_number sample_env "data/no_price.csv")
    as [H _]; [vm_compute; reflexivity|].
  destruct (H sample_csv_no_price) as (b & c & a & _ & _ & Hc & Hload);
    [reflexivity|vm_compute; reflexivity..|].
  exists c. split; [exact Hload|exact Hc].
Defined.

